(** * Auditing pipeline of the API server: pkg/apiserver/auditing/types.go

    A shallow embedding of the request/response auditing code
    ([LogRequestObject], [needAnalyzeRequestBody], [LogResponseObject],
    [cacheEvent] and the [ResponseCapture] adapter) together with the
    properties stated about it; and, further down, of the resource getter
    ([TryResource], [Get], [List]) and of the repo operator
    ([DescribeRepo], [ListRepos]).

    Conventions of the embedding:
    - Go strings are [string], byte slices are [list Byte.byte], Go [int]
      and [int64] are [Z]; [int32(x)] is written out as a wrap-around;
    - a Go pointer that may be nil is an [option]; dereferencing [None]
      is a run-time panic;
    - Go [error] values are the [option] of their message;
    - Go maps are stdpp [gmap]s;
    - code with effects lives in the monad [M S] of state passing with
      panics: a computation either returns a value and a state, or panics
      and leaves the state it reached. *)

From Stdlib Require Import ZArith NArith String List Lia.
From Stdlib.Strings Require Import Byte.
From stdpp Require Import base option list strings gmap.

Local Open Scope Z_scope.

(* ===================================================================== *)
(** ** Go run-time: panics and state passing                             *)
(* ===================================================================== *)

(** The run-time errors this file can raise. *)
Inductive PanicValue : Type :=
| NilDereference                       (* invalid memory address or nil pointer dereference *)
| InterfaceConversion (iface : string) (* x.(I) on a dynamic type without I's methods *)
| InvalidWriteHeaderCode (code : Z)    (* net/http: invalid WriteHeader code *).

Inductive Res (S A : Type) : Type :=
| Ret (a : A) (s : S)
| Panic (p : PanicValue) (s : S).
Arguments Ret {S A} a s.
Arguments Panic {S A} p s.

Definition M (S A : Type) : Type := S -> Res S A.

Definition ret {S A : Type} (a : A) : M S A := fun s => Ret a s.

Definition bind {S A B : Type} (m : M S A) (k : A -> M S B) : M S B :=
  fun s => match m s with
           | Ret a s' => k a s'
           | Panic p s' => Panic p s'
           end.

Definition panic {S A : Type} (p : PanicValue) : M S A := fun s => Panic p s.

Definition get {S : Type} : M S S := fun s => Ret s s.
Definition put {S : Type} (s : S) : M S unit := fun _ => Ret tt s.
Definition modify {S : Type} (f : S -> S) : M S unit := fun s => Ret tt (f s).

(** [*p] for a pointer [p]. *)
Definition deref {S A : Type} (p : option A) : M S A :=
  match p with
  | Some a => ret a
  | None => panic NilDereference
  end.

Notation "'let*' x ':=' m 'in' k" := (bind m (fun x => k))
  (at level 10, x name, m at level 100, k at level 200).
Notation "'let*' ' p ':=' m 'in' k" := (bind m (fun x => match x with p => k end))
  (at level 10, p pattern, m at level 100, k at level 200).

Definition returns {S A : Type} (r : Res S A) : bool :=
  match r with Ret _ _ => true | Panic _ _ => false end.

Definition bytes : Type := list Byte.byte.

(** Go [error]: nil or a message. *)
Definition error : Type := option string.

(** [int32(x)] for a Go [int] x: the low 32 bits, read as signed. *)
Definition int32 (x : Z) : Z := (x + 2 ^ 31) mod 2 ^ 32 - 2 ^ 31.

(* ===================================================================== *)
(** ** net/http: the response writer the capture wraps                   *)
(* ===================================================================== *)

Definition Header : Type := gmap string (list string).

(** Opaque handles for the values the optional capabilities hand out. *)
Definition Conn : Type := nat.
Definition ReadWriter : Type := nat.
Definition Chan : Type := nat.

(** [http.Hijacker] and [http.CloseNotifier]: optional interfaces a
    writer's dynamic type may or may not implement. *)
Record Hijacker (W : Type) : Type := {
  hj_Hijack : W -> (option Conn * option ReadWriter * error) * W
}.
Arguments hj_Hijack {W} _ _.

Record CloseNotifier (W : Type) : Type := {
  cn_CloseNotify : W -> Chan * W
}.
Arguments cn_CloseNotify {W} _ _.

(** [http.ResponseWriter]: the three methods of the interface over the
    writer's own state [W], and the outcome of the two type assertions
    [w.(http.Hijacker)] and [w.(http.CloseNotifier)] on its dynamic type.

    [WriteHeader] is a partial method: the writers of net/http and of
    httptest start it with [checkWriteHeaderCode] (below) and panic on a
    code outside 100..999 before they touch their state.  [rw_WriteHeader]
    is what the method does to the writer once the code has passed that
    check; the call as a whole, with its panic, is
    [Capture.inner_WriteHeader]. *)
Class http_ResponseWriter (W : Type) : Type := {
  rw_Header : W -> Header;
  rw_Write : bytes -> W -> (Z * error) * W;
  rw_WriteHeader : Z -> W -> W;
  rw_Hijacker : option (Hijacker W);
  rw_CloseNotifier : option (CloseNotifier W)
}.

Definition StatusOK : Z := 200.

(** net/http's [checkWriteHeaderCode]:
    [if code < 100 || code > 999 { panic("invalid WriteHeader code") }]. *)
Definition checkWriteHeaderCode {S : Type} (code : Z) : M S unit :=
  if (code <? 100) || (999 <? code) then panic (InvalidWriteHeaderCode code)
  else ret tt.

(** The method calls a capture has issued on the writer it wraps, oldest
    first.  This history is bookkeeping of the model only; it lets a
    statement count how often a method of the wrapped writer ran. *)
Inductive WriterCall : Type :=
| CallWrite (data : bytes)
| CallWriteHeader (statusCode : Z)
| CallHijack
| CallCloseNotify.

Definition is_CallWriteHeader (c : WriterCall) : bool :=
  match c with CallWriteHeader _ => true | _ => false end.

(* ===================================================================== *)
(** ** ResponseCapture                                                   *)
(* ===================================================================== *)

Module Capture.
Section WithWriter.
Context {W : Type} `{RW : http_ResponseWriter W}.

(** [type ResponseCapture struct].  [body] is the content of the
    [*bytes.Buffer]; [calls] is the history described above. *)
Record ResponseCapture : Type := {
  ResponseWriter : W;
  wroteHeader : bool;
  status : Z;
  body : bytes;
  calls : list WriterCall
}.

Definition NewResponseCapture (w : W) : ResponseCapture :=
  {| ResponseWriter := w;
     wroteHeader := false;
     status := 0;              (* zero value: the literal does not set it *)
     body := [];
     calls := [] |}.

Definition Header_ (c : ResponseCapture) : Header :=
  rw_Header (ResponseWriter c).

(** [c.ResponseWriter.WriteHeader(statusCode)]: the call is issued (and
    enters the history), the wrapped writer checks the code and panics on
    one it does not take, and only then changes its state. *)
Definition inner_WriteHeader (statusCode : Z) : M ResponseCapture unit :=
  let* _ := modify (fun c =>
    {| ResponseWriter := ResponseWriter c;
       wroteHeader := wroteHeader c;
       status := status c;
       body := body c;
       calls := calls c ++ [CallWriteHeader statusCode] |}) in
  let* _ := checkWriteHeaderCode statusCode in
  modify (fun c =>
    {| ResponseWriter := rw_WriteHeader statusCode (ResponseWriter c);
       wroteHeader := wroteHeader c;
       status := status c;
       body := body c;
       calls := calls c |}).

(** [c.ResponseWriter.Write(data)] *)
Definition inner_Write (data : bytes) : M ResponseCapture (Z * error) :=
  fun c =>
    let '(r, w') := rw_Write data (ResponseWriter c) in
    Ret r {| ResponseWriter := w';
             wroteHeader := wroteHeader c;
             status := status c;
             body := body c;
             calls := calls c ++ [CallWrite data] |}.

Definition set_status (statusCode : Z) : M ResponseCapture unit :=
  modify (fun c =>
    {| ResponseWriter := ResponseWriter c;
       wroteHeader := wroteHeader c;
       status := statusCode;
       body := body c;
       calls := calls c |}).

Definition set_wroteHeader (b : bool) : M ResponseCapture unit :=
  modify (fun c =>
    {| ResponseWriter := ResponseWriter c;
       wroteHeader := b;
       status := status c;
       body := body c;
       calls := calls c |}).

(** [c.body.Write(data)]: append to the buffer. *)
Definition body_Write (data : bytes) : M ResponseCapture unit :=
  modify (fun c =>
    {| ResponseWriter := ResponseWriter c;
       wroteHeader := wroteHeader c;
       status := status c;
       body := body c ++ data;
       calls := calls c |}).

(** The statements of the source in their order: the status is stored
    before the wrapped writer is called, the latch is set after it.  When
    the wrapped writer panics the status is stored and the latch is not. *)
Definition WriteHeader (statusCode : Z) : M ResponseCapture unit :=
  let* c := get in
  if negb (wroteHeader c) then
    let* _ := set_status statusCode in
    let* _ := inner_WriteHeader statusCode in
    set_wroteHeader true
  else ret tt.

Definition Write (data : bytes) : M ResponseCapture (Z * error) :=
  let* _ := WriteHeader StatusOK in
  let* _ := body_Write data in
  inner_Write data.

(** The wrapped writer as [Write] finds it after the implicit commit. *)
Definition committed_writer (c : ResponseCapture) : W :=
  if wroteHeader c then ResponseWriter c
  else rw_WriteHeader StatusOK (ResponseWriter c).

Definition Bytes (c : ResponseCapture) : bytes := body c.

Definition StatusCode (c : ResponseCapture) : Z := status c.

Definition Hijack_unsupported : string :=
  "ResponseWriter doesn't support Hijacker interface".

Definition Hijack : M ResponseCapture (option Conn * option ReadWriter * error) :=
  match rw_Hijacker with
  | None => ret (None, None, Some Hijack_unsupported)
  | Some hijacker =>
      fun c =>
        let '(r, w') := hj_Hijack hijacker (ResponseWriter c) in
        Ret r {| ResponseWriter := w';
                 wroteHeader := wroteHeader c;
                 status := status c;
                 body := body c;
                 calls := calls c ++ [CallHijack] |}
  end.

(** The type assertion here is the one-result form: it panics when the
    dynamic type of the wrapped writer has no [CloseNotify]. *)
Definition CloseNotify : M ResponseCapture Chan :=
  match rw_CloseNotifier with
  | None => panic (InterfaceConversion "http.CloseNotifier")
  | Some notifier =>
      fun c =>
        let '(ch, w') := cn_CloseNotify notifier (ResponseWriter c) in
        Ret ch {| ResponseWriter := w';
                  wroteHeader := wroteHeader c;
                  status := status c;
                  body := body c;
                  calls := calls c ++ [CallCloseNotify] |}
  end.

(** What a handler can do with the capture it was given. *)
Inductive HandlerOp : Type :=
| OpHeader
| OpWrite (data : bytes)
| OpWriteHeader (statusCode : Z)
| OpBytes
| OpStatusCode
| OpHijack
| OpCloseNotify.

Definition writes_response (op : HandlerOp) : bool :=
  match op with
  | OpWrite _ | OpWriteHeader _ => true
  | _ => false
  end.

Definition run_op (op : HandlerOp) : M ResponseCapture unit :=
  match op with
  | OpHeader => let* c := get in let _ := Header_ c in ret tt
  | OpWrite data => let* _ := Write data in ret tt
  | OpWriteHeader code => WriteHeader code
  | OpBytes => let* c := get in let _ := Bytes c in ret tt
  | OpStatusCode => let* c := get in let _ := StatusCode c in ret tt
  | OpHijack => let* _ := Hijack in ret tt
  | OpCloseNotify => let* _ := CloseNotify in ret tt
  end.

Fixpoint run_handler (ops : list HandlerOp) : M ResponseCapture unit :=
  match ops with
  | [] => ret tt
  | op :: rest => let* _ := run_op op in run_handler rest
  end.

End WithWriter.
Arguments ResponseCapture W : clear implicits.
End Capture.

(* ===================================================================== *)
(** ** Types of the collaborators                                        *)
(* ===================================================================== *)

(** [audit.Level] of k8s.io/apiserver is a string; its order goes through
    [ordLevel], where every string that is not one of the three named
    levels counts as [LevelNone]. *)
Definition audit_Level : Type := string.
Definition LevelNone : audit_Level := "None".
Definition LevelMetadata : audit_Level := "Metadata".
Definition LevelRequest : audit_Level := "Request".
Definition LevelRequestResponse : audit_Level := "RequestResponse".

Definition ordLevel (l : audit_Level) : Z :=
  if String.eqb l LevelMetadata then 1
  else if String.eqb l LevelRequest then 2
  else if String.eqb l LevelRequestResponse then 3
  else 0.

Definition Less (a b : audit_Level) : bool := ordLevel a <? ordLevel b.
Definition GreaterOrEqual (a b : audit_Level) : bool := ordLevel b <=? ordLevel a.

Definition StageResponseComplete : string := "ResponseComplete".

(** [v1alpha2.UserActive] and [v1alpha2.UserDisabled]. *)
Definition UserActive : string := "Active".
Definition UserDisabled : string := "Disabled".

Module ObjectReference.
Record t : Type := {
  Resource : string;
  Namespace : string;
  Name : string;
  UID : string;
  APIGroup : string;
  APIVersion : string;
  ResourceVersion : string;
  Subresource : string
}.
Definition set_Name (n : string) (o : t) : t :=
  {| Resource := Resource o; Namespace := Namespace o; Name := n; UID := UID o;
     APIGroup := APIGroup o; APIVersion := APIVersion o;
     ResourceVersion := ResourceVersion o; Subresource := Subresource o |}.
End ObjectReference.

(** [v1.UserInfo] of k8s.io/api/authentication; [Extra] is a map that is
    nil until it is made. *)
Module UserInfo.
Record t : Type := {
  Username : string;
  UID : string;
  Groups : list string;
  Extra : option (gmap string (list string))
}.
Definition zero : t :=
  {| Username := ""; UID := ""; Groups := []; Extra := None |}.
End UserInfo.

(** What the [user.Info] interface of the request context answers. *)
Module user.
Record Info : Type := {
  GetName : string;
  GetUID : string;
  GetGroups : list string;
  GetExtra : gmap string (list string)
}.
End user.

(** [request.RequestInfo], the fields this file reads. *)
Module RequestInfo.
Record t : Type := {
  IsKubernetesRequest : bool;
  Path : string;
  Verb : string;
  APIGroup : string;
  APIVersion : string;
  Namespace : string;
  Resource : string;
  Subresource : string;
  Name : string;
  Workspace : string;
  Cluster : string;
  DevOps : string;
  ResourceScope : string
}.
End RequestInfo.

(** [devopsv1alpha3.DevOpsProject], the fields this file reads. *)
Module DevOpsProject.
Record t : Type := {
  Name : string;
  Labels : gmap string string;
  Status_AdminNamespace : string
}.
End DevOpsProject.

(** An element of [ListResult.Items] ([interface{}]): a pointer to a
    DevOpsProject, or a value of any other dynamic type. *)
Inductive Item : Type :=
| ItemDevOpsProject (d : option DevOpsProject.t)
| ItemOther (dynamicType : string).

Record ListResult : Type := {
  Items : list Item;
  TotalItems : Z
}.

(** [query.Query]; the only value built here is [query.New()]. *)
Inductive Query : Type := query_New.

Record Webhook : Type := {
  Spec_AuditLevel : string;
  Spec_K8sAuditingEnabled : bool
}.

(** [auditv1alpha1.Event]: [Devops], [Workspace], [Cluster] and the
    fields of the embedded [audit.Event]. *)
Record Event : Type := {
  Devops : string;
  Workspace : string;
  Cluster : string;
  RequestURI : string;
  Verb : string;
  Level : audit_Level;
  AuditID : string;
  Stage : string;
  ImpersonatedUser : option UserInfo.t;
  UserAgent : string;
  RequestReceivedTimestamp : Z;
  StageTimestamp : Z;
  Annotations : option (gmap string string);
  ObjectRef : option ObjectReference.t;
  SourceIPs : list string;
  User : UserInfo.t;
  RequestObject : option bytes;      (* *runtime.Unknown, by its Raw *)
  ResponseObject : option bytes;     (* *runtime.Unknown, by its Raw *)
  ResponseStatus : option Z          (* *metav1.Status, by its Code *)
}.

Definition set_Devops (v : string) (e : Event) : Event :=
  {| Devops := v; Workspace := Workspace e; Cluster := Cluster e;
     RequestURI := RequestURI e; Verb := Verb e; Level := Level e;
     AuditID := AuditID e; Stage := Stage e; ImpersonatedUser := ImpersonatedUser e;
     UserAgent := UserAgent e; RequestReceivedTimestamp := RequestReceivedTimestamp e;
     StageTimestamp := StageTimestamp e; Annotations := Annotations e;
     ObjectRef := ObjectRef e; SourceIPs := SourceIPs e; User := User e;
     RequestObject := RequestObject e; ResponseObject := ResponseObject e;
     ResponseStatus := ResponseStatus e |}.

Definition set_Workspace (v : string) (e : Event) : Event :=
  {| Devops := Devops e; Workspace := v; Cluster := Cluster e;
     RequestURI := RequestURI e; Verb := Verb e; Level := Level e;
     AuditID := AuditID e; Stage := Stage e; ImpersonatedUser := ImpersonatedUser e;
     UserAgent := UserAgent e; RequestReceivedTimestamp := RequestReceivedTimestamp e;
     StageTimestamp := StageTimestamp e; Annotations := Annotations e;
     ObjectRef := ObjectRef e; SourceIPs := SourceIPs e; User := User e;
     RequestObject := RequestObject e; ResponseObject := ResponseObject e;
     ResponseStatus := ResponseStatus e |}.

Definition set_Verb (v : string) (e : Event) : Event :=
  {| Devops := Devops e; Workspace := Workspace e; Cluster := Cluster e;
     RequestURI := RequestURI e; Verb := v; Level := Level e;
     AuditID := AuditID e; Stage := Stage e; ImpersonatedUser := ImpersonatedUser e;
     UserAgent := UserAgent e; RequestReceivedTimestamp := RequestReceivedTimestamp e;
     StageTimestamp := StageTimestamp e; Annotations := Annotations e;
     ObjectRef := ObjectRef e; SourceIPs := SourceIPs e; User := User e;
     RequestObject := RequestObject e; ResponseObject := ResponseObject e;
     ResponseStatus := ResponseStatus e |}.

Definition set_StageTimestamp (v : Z) (e : Event) : Event :=
  {| Devops := Devops e; Workspace := Workspace e; Cluster := Cluster e;
     RequestURI := RequestURI e; Verb := Verb e; Level := Level e;
     AuditID := AuditID e; Stage := Stage e; ImpersonatedUser := ImpersonatedUser e;
     UserAgent := UserAgent e; RequestReceivedTimestamp := RequestReceivedTimestamp e;
     StageTimestamp := v; Annotations := Annotations e;
     ObjectRef := ObjectRef e; SourceIPs := SourceIPs e; User := User e;
     RequestObject := RequestObject e; ResponseObject := ResponseObject e;
     ResponseStatus := ResponseStatus e |}.

Definition set_ObjectRef (v : option ObjectReference.t) (e : Event) : Event :=
  {| Devops := Devops e; Workspace := Workspace e; Cluster := Cluster e;
     RequestURI := RequestURI e; Verb := Verb e; Level := Level e;
     AuditID := AuditID e; Stage := Stage e; ImpersonatedUser := ImpersonatedUser e;
     UserAgent := UserAgent e; RequestReceivedTimestamp := RequestReceivedTimestamp e;
     StageTimestamp := StageTimestamp e; Annotations := Annotations e;
     ObjectRef := v; SourceIPs := SourceIPs e; User := User e;
     RequestObject := RequestObject e; ResponseObject := ResponseObject e;
     ResponseStatus := ResponseStatus e |}.

Definition set_SourceIPs (v : list string) (e : Event) : Event :=
  {| Devops := Devops e; Workspace := Workspace e; Cluster := Cluster e;
     RequestURI := RequestURI e; Verb := Verb e; Level := Level e;
     AuditID := AuditID e; Stage := Stage e; ImpersonatedUser := ImpersonatedUser e;
     UserAgent := UserAgent e; RequestReceivedTimestamp := RequestReceivedTimestamp e;
     StageTimestamp := StageTimestamp e; Annotations := Annotations e;
     ObjectRef := ObjectRef e; SourceIPs := v; User := User e;
     RequestObject := RequestObject e; ResponseObject := ResponseObject e;
     ResponseStatus := ResponseStatus e |}.

Definition set_User (v : UserInfo.t) (e : Event) : Event :=
  {| Devops := Devops e; Workspace := Workspace e; Cluster := Cluster e;
     RequestURI := RequestURI e; Verb := Verb e; Level := Level e;
     AuditID := AuditID e; Stage := Stage e; ImpersonatedUser := ImpersonatedUser e;
     UserAgent := UserAgent e; RequestReceivedTimestamp := RequestReceivedTimestamp e;
     StageTimestamp := StageTimestamp e; Annotations := Annotations e;
     ObjectRef := ObjectRef e; SourceIPs := SourceIPs e; User := v;
     RequestObject := RequestObject e; ResponseObject := ResponseObject e;
     ResponseStatus := ResponseStatus e |}.

Definition set_RequestObject (v : option bytes) (e : Event) : Event :=
  {| Devops := Devops e; Workspace := Workspace e; Cluster := Cluster e;
     RequestURI := RequestURI e; Verb := Verb e; Level := Level e;
     AuditID := AuditID e; Stage := Stage e; ImpersonatedUser := ImpersonatedUser e;
     UserAgent := UserAgent e; RequestReceivedTimestamp := RequestReceivedTimestamp e;
     StageTimestamp := StageTimestamp e; Annotations := Annotations e;
     ObjectRef := ObjectRef e; SourceIPs := SourceIPs e; User := User e;
     RequestObject := v; ResponseObject := ResponseObject e;
     ResponseStatus := ResponseStatus e |}.

Definition set_ResponseObject (v : option bytes) (e : Event) : Event :=
  {| Devops := Devops e; Workspace := Workspace e; Cluster := Cluster e;
     RequestURI := RequestURI e; Verb := Verb e; Level := Level e;
     AuditID := AuditID e; Stage := Stage e; ImpersonatedUser := ImpersonatedUser e;
     UserAgent := UserAgent e; RequestReceivedTimestamp := RequestReceivedTimestamp e;
     StageTimestamp := StageTimestamp e; Annotations := Annotations e;
     ObjectRef := ObjectRef e; SourceIPs := SourceIPs e; User := User e;
     RequestObject := RequestObject e; ResponseObject := v;
     ResponseStatus := ResponseStatus e |}.

Definition set_ResponseStatus (v : option Z) (e : Event) : Event :=
  {| Devops := Devops e; Workspace := Workspace e; Cluster := Cluster e;
     RequestURI := RequestURI e; Verb := Verb e; Level := Level e;
     AuditID := AuditID e; Stage := Stage e; ImpersonatedUser := ImpersonatedUser e;
     UserAgent := UserAgent e; RequestReceivedTimestamp := RequestReceivedTimestamp e;
     StageTimestamp := StageTimestamp e; Annotations := Annotations e;
     ObjectRef := ObjectRef e; SourceIPs := SourceIPs e; User := User e;
     RequestObject := RequestObject e; ResponseObject := ResponseObject e;
     ResponseStatus := v |}.

(* ===================================================================== *)
(** ** The request and its body                                          *)
(* ===================================================================== *)

(** The [io.ReadCloser]s that occur as a request body: the body the
    transport supplies, which delivers [unread] and then ends with
    [fault] (nil stands for a clean end of stream), and the body this
    file builds, [io.NopCloser(bytes.NewBuffer(b))]. *)
Inductive ReadCloser : Type :=
| TransportBody (unread : bytes) (fault : error) (closed : bool)
| NopCloser (buffer : bytes).

Definition ErrBodyReadAfterClose : string := "http: invalid Read on closed Body".

(** [io.ReadAll(r)]: everything up to the end of the stream or the first
    error, that error, and the reader it leaves behind. *)
Definition io_ReadAll (r : ReadCloser) : (bytes * error) * ReadCloser :=
  match r with
  | TransportBody unread fault false => ((unread, fault), TransportBody [] fault false)
  | TransportBody unread fault true => (([], Some ErrBodyReadAfterClose), r)
  | NopCloser buffer => ((buffer, None), NopCloser [])
  end.

Definition Close (r : ReadCloser) : ReadCloser :=
  match r with
  | TransportBody unread fault _ => TransportBody unread fault true
  | NopCloser buffer => NopCloser buffer
  end.

Definition bytes_NewBuffer (b : bytes) : bytes := b.

(** [*http.Request], the parts this file reads: [URL_Query] is
    [req.URL.Query()], [Context_User] what [request.UserFrom(req.Context())]
    finds, [RemoteIp] the answer of [iputil.RemoteIp(req)]. *)
Record Request : Type := {
  URL_Path : string;
  URL_Query : gmap string (list string);
  UserAgent_ : string;
  ContentLength : Z;
  Body : ReadCloser;
  Context_User : option user.Info;
  RemoteIp : string
}.

Definition set_Body (b : ReadCloser) (req : Request) : Request :=
  {| URL_Path := URL_Path req; URL_Query := URL_Query req;
     UserAgent_ := UserAgent_ req; ContentLength := ContentLength req;
     Body := b; Context_User := Context_User req; RemoteIp := RemoteIp req |}.

(** [len(req.URL.Query()["dryRun"])]: a missing key reads as a nil slice. *)
Definition len_dryRun (req : Request) : Z :=
  Z.of_nat (length (default [] (URL_Query req !! "dryRun"))).

(* ===================================================================== *)
(** ** The world the pipeline runs in                                    *)
(* ===================================================================== *)

(** One call of klog: [klog.V(v).Info/Infof] or [klog.Error]. *)
Inductive LogEntry : Type :=
| LogInfo (v : Z) (msg : string)
| LogError (msg : string).

(** [cache] is the content of the buffered channel [a.cache], oldest
    first.  [clock] is the wall clock in nanoseconds.  [uuids] counts the
    identifiers drawn so far.  [recv_delay] and [select_coin] say how the
    scheduler resolves a [select] that finds the channel full:
    [recv_delay] is the time, in nanoseconds from the start of the select,
    until the consumer next takes an element off the channel (None: it
    does not), and [select_coin] is the random pick when the send and the
    timer become ready at the same instant. *)
Record World : Type := {
  cache : list Event;
  klog : list LogEntry;
  clock : Z;
  uuids : nat;
  recv_delay : option N;
  select_coin : bool
}.

Definition with_cache (q : list Event) (w : World) : World :=
  {| cache := q; klog := klog w; clock := clock w; uuids := uuids w;
     recv_delay := recv_delay w; select_coin := select_coin w |}.

Definition with_klog (l : list LogEntry) (w : World) : World :=
  {| cache := cache w; klog := l; clock := clock w; uuids := uuids w;
     recv_delay := recv_delay w; select_coin := select_coin w |}.

Definition with_clock (t : Z) (w : World) : World :=
  {| cache := cache w; klog := klog w; clock := t; uuids := uuids w;
     recv_delay := recv_delay w; select_coin := select_coin w |}.

Definition with_uuids (n : nat) (w : World) : World :=
  {| cache := cache w; klog := klog w; clock := clock w; uuids := n;
     recv_delay := recv_delay w; select_coin := select_coin w |}.

Definition klog_V_Info (v : Z) (msg : string) : M World unit :=
  modify (fun w => with_klog (klog w ++ [LogInfo v msg]) w).

Definition klog_Error (msg : string) : M World unit :=
  modify (fun w => with_klog (klog w ++ [LogError msg]) w).

(** [metav1.NowMicro()] *)
Definition NowMicro : M World Z := fun w => Ret (clock w) w.

(** Functions of libraries whose results the model does not compute:
    [uuid_String n] is the n-th value of [uuid.New().String()];
    the two decoders are [json.Unmarshal] into an [auditv1alpha1.Object]
    and into a [v1alpha2.User], answering the decoded [Name] and
    [Status.State] when the error is nil. *)
Class Libraries : Type := {
  uuid_String : nat -> string;
  json_Unmarshal_Object : bytes -> option string;
  json_Unmarshal_User : bytes -> option string
}.

Definition uuid_New_String `{Libraries} : M World string :=
  fun w => Ret (uuid_String (uuids w)) (with_uuids (S (uuids w)) w).

(* ===================================================================== *)
(** ** auditing                                                          *)
(* ===================================================================== *)

Definition DefaultWebhook : string := "kube-auditing-webhook".
Definition DefaultCacheCapacity : Z := 10000.
Definition CacheTimeout : Z := 1000000000.   (* time.Second, in nanoseconds *)

(** [type auditing struct]: the two listers by what they answer (a
    pointer and an error each), and the channel [cache] by its capacity;
    what the channel holds is in the [World]. *)
Record auditing : Type := {
  webhookLister_Get : string -> option Webhook * error;
  devopsGetter_List : string -> Query -> option ListResult * error;
  cache_cap : Z
}.

(** [NewAuditing], with the listers it obtains from the informers as
    arguments: the channel is made with [DefaultCacheCapacity] slots.
    (The backend it starts is the consumer of the channel; it acts on
    the world through [recv_delay].) *)
Definition NewAuditing (webhooks : string -> option Webhook * error)
           (devops : string -> Query -> option ListResult * error) : auditing :=
  {| webhookLister_Get := webhooks;
     devopsGetter_List := devops;
     cache_cap := DefaultCacheCapacity |}.

Definition getAuditLevel (a : auditing) : M World audit_Level :=
  let '(wh, err) := webhookLister_Get a DefaultWebhook in
  match err with
  | Some msg =>
      let* _ := klog_V_Info 8 msg in
      ret LevelNone
  | None =>
      let* wh := deref wh in
      ret (Spec_AuditLevel wh)
  end.

Definition Enabled (a : auditing) : M World bool :=
  let* level := getAuditLevel a in
  ret (negb (Less level LevelMetadata)).

Definition K8sAuditingEnabled (a : auditing) : M World bool :=
  let '(wh, err) := webhookLister_Get a DefaultWebhook in
  match err with
  | Some msg =>
      let* _ := klog_V_Info 8 msg in
      ret false
  | None =>
      let* wh := deref wh in
      ret (Spec_K8sAuditingEnabled wh)
  end.

Definition len (s : string) : Z := Z.of_nat (String.length s).

Definition workspace_label : string := "kubesphere.io/workspace".

(** The type assertion of [obj] to a pointer to DevOpsProject, followed
    by the first use of the pointer. *)
Definition as_DevOpsProject (obj : Item) : M World DevOpsProject.t :=
  match obj with
  | ItemDevOpsProject d => deref d
  | ItemOther _ => panic (InterfaceConversion "*v1alpha3.DevOpsProject")
  end.

(** The body of [for _, obj := range res.Items]. *)
Fixpoint range_Items (items : list Item) (e : Event) : M World Event :=
  match items with
  | [] => ret e
  | obj :: rest =>
      let* d := as_DevOpsProject obj in
      let label := default "" (DevOpsProject.Labels d !! workspace_label) in
      let e' :=
        if String.eqb (DevOpsProject.Name d) (Devops e) then
          set_Workspace label e
        else if String.eqb (DevOpsProject.Status_AdminNamespace d) (Devops e) then
          set_Devops (DevOpsProject.Name d) (set_Workspace label e)
        else e in
      range_Items rest e'
  end.

Definition needAnalyzeRequestBody (a : auditing) (e : Event) (req : Request) : M World bool :=
  if ContentLength req <=? 0 then ret false
  else if GreaterOrEqual (Level e) LevelRequest then ret true
  else if String.eqb (Verb e) "create" then ret true
  else
    let* o := deref (ObjectRef e) in
    if String.eqb (ObjectReference.Resource o) "users" && String.eqb (Verb e) "update"
    then ret true
    else ret false.

(** The select of [cacheEvent]: which case runs, and after how long. *)
Inductive Selected : Type :=
| SendCase (waited : Z) (received : bool)   (* a.cache <- &e *)
| TimerCase.                                (* <-time.After(CacheTimeout) *)

Definition select (a : auditing) (w : World) : Selected :=
  if Z.of_nat (length (cache w)) <? cache_cap a then SendCase 0 false
  else
    match recv_delay w with
    | None => TimerCase
    | Some d =>
        if Z.of_N d <? CacheTimeout then SendCase (Z.of_N d) true
        else if (Z.of_N d =? CacheTimeout) && select_coin w then SendCase (Z.of_N d) true
        else TimerCase
    end.

Definition cacheEvent (a : auditing) (e : Event) : M World unit :=
  let* w := get in
  match select a w with
  | SendCase waited received =>
      let q := if received then tl (cache w) else cache w in
      put (with_clock (clock w + waited) (with_cache (q ++ [e]) w))
  | TimerCase =>
      let* _ := put (with_clock (clock w + CacheTimeout) w) in
      klog_V_Info 8 (String.append "cache audit event "
                       (String.append (AuditID e) " timeout"))
  end.

Section Pipeline.
Context `{LIB : Libraries}.

(** Workspace lookup of a devops project (the block under "Get the
    workspace which the devops project be in"). *)
Definition lookup_workspace (a : auditing) (e : Event) : M World Event :=
  if (0 <? len (Devops e)) && (len (Workspace e) =? 0) then
    let '(res, err) := devopsGetter_List a "" query_New in
    let* _ := match err with
              | Some msg => klog_Error msg
              | None => ret tt
              end in
    let* r := deref res in          (* res.Items *)
    range_Items (Items r) e
  else ret e.

(** The block under [if ok] after [request.UserFrom]. *)
Definition copy_user (req : Request) (e : Event) : Event :=
  match Context_User req with
  | Some u =>
      set_User {| UserInfo.Username := user.GetName u;
                  UserInfo.UID := user.GetUID u;
                  UserInfo.Groups := user.GetGroups u;
                  UserInfo.Extra :=
                    Some (map_fold (fun k v (m : gmap string (list string)) => <[k:=v]> m)
                                   ∅ (user.GetExtra u)) |} e
  | None => e
  end.

(** The two decodings of the body that was read. *)
Definition name_from_body (info : RequestInfo.t) (body : bytes) (e : Event) : M World Event :=
  if String.eqb (RequestInfo.Verb info) "create" then
    match json_Unmarshal_Object body with
    | Some name =>
        let* o := deref (ObjectRef e) in
        ret (set_ObjectRef (Some (ObjectReference.set_Name name o)) e)
    | None => ret e
    end
  else ret e.

Definition relabel_user_update (body : bytes) (e : Event) : M World Event :=
  let* o := deref (ObjectRef e) in
  if String.eqb (ObjectReference.Resource o) "users" && String.eqb (Verb e) "update" then
    match json_Unmarshal_User body with
    | Some state =>
        if String.eqb state UserActive then ret (set_Verb "enable" e)
        else if String.eqb state UserDisabled then ret (set_Verb "disable" e)
        else ret e
    | None => ret e
    end
  else ret e.

(** [LogRequestObject]: the event (nil for an ignored request) and the
    request as the call leaves it.  [req] and [info] are the targets of
    the two pointers, which the first statements dereference. *)
Definition LogRequestObject (a : auditing) (req : Request) (info : RequestInfo.t)
  : M World (option Event * Request) :=
  if RequestInfo.IsKubernetesRequest info && negb (len_dryRun req =? 0) then
    let* _ := klog_V_Info 6 (String.append "ignore dryRun request " (URL_Path req)) in
    ret (None, req)
  else
    let* level := getAuditLevel a in
    let* id := uuid_New_String in
    let* now := NowMicro in
    let e :=
      {| Devops := RequestInfo.DevOps info;
         Workspace := RequestInfo.Workspace info;
         Cluster := RequestInfo.Cluster info;
         RequestURI := RequestInfo.Path info;
         Verb := RequestInfo.Verb info;
         Level := level;
         AuditID := id;
         Stage := StageResponseComplete;
         ImpersonatedUser := None;
         UserAgent := UserAgent_ req;
         RequestReceivedTimestamp := now;
         StageTimestamp := 0;
         Annotations := None;
         ObjectRef :=
           Some {| ObjectReference.Resource := RequestInfo.Resource info;
                   ObjectReference.Namespace := RequestInfo.Namespace info;
                   ObjectReference.Name := RequestInfo.Name info;
                   ObjectReference.UID := "";
                   ObjectReference.APIGroup := RequestInfo.APIGroup info;
                   ObjectReference.APIVersion := RequestInfo.APIVersion info;
                   ObjectReference.ResourceVersion := RequestInfo.ResourceScope info;
                   ObjectReference.Subresource := RequestInfo.Subresource info |};
         SourceIPs := [];
         User := UserInfo.zero;
         RequestObject := None;
         ResponseObject := None;
         ResponseStatus := None |} in
    let* e := lookup_workspace a e in
    let e := set_SourceIPs [RemoteIp req] e in
    let e := copy_user req e in
    let* analyze := needAnalyzeRequestBody a e req in
    if analyze then
      let '((body, err), drained) := io_ReadAll (Body req) in
      match err with
      | Some msg =>
          let* _ := klog_Error msg in
          ret (Some e, set_Body drained req)
      | None =>
          let _ := Close drained in
          let req := set_Body (NopCloser (bytes_NewBuffer body)) req in
          let e := if GreaterOrEqual (Level e) LevelRequest
                   then set_RequestObject (Some body) e
                   else e in
          let* e := name_from_body info body e in
          let* e := relabel_user_update body e in
          ret (Some e, req)
      end
    else ret (Some e, req).

Context {W : Type} `{RW : http_ResponseWriter W}.

(** [LogResponseObject]: the result is the event as the call leaves it
    behind the pointer [e]. *)
Definition LogResponseObject (a : auditing) (e : option Event)
           (resp : option (Capture.ResponseCapture W)) : M World Event :=
  let* now := NowMicro in
  let* e0 := deref e in
  let e1 := set_StageTimestamp now e0 in
  let* c := deref resp in
  let e2 := set_ResponseStatus (Some (int32 (Capture.StatusCode c))) e1 in
  let e3 := if GreaterOrEqual (Level e2) LevelRequestResponse
            then set_ResponseObject (Some (Capture.Bytes c)) e2
            else e2 in
  let* _ := cacheEvent a e3 in
  ret e3.

End Pipeline.

(* ===================================================================== *)
(** ** Notions the statements use                                        *)
(* ===================================================================== *)

(** The body-inspection gate in the words of the design: content length
    above zero, and level at least Request, or verb "create", or
    resource "users" with verb "update". *)
Definition body_inspection_gate (req : Request) (info : RequestInfo.t)
           (level : audit_Level) : bool :=
  (0 <? ContentLength req)
  && (GreaterOrEqual level LevelRequest
      || String.eqb (RequestInfo.Verb info) "create"
      || (String.eqb (RequestInfo.Resource info) "users"
          && String.eqb (RequestInfo.Verb info) "update")).

(** The body can be read to its end without an error. *)
Definition body_readable (r : ReadCloser) : bool :=
  match snd (fst (io_ReadAll r)) with
  | None => true
  | Some _ => false
  end.

(** What a consumer gets who reads the body to its end. *)
Definition body_content (r : ReadCloser) : bytes * error := fst (io_ReadAll r).

(** [e'] agrees with [e] on the fields the body policy reads and writes. *)
Definition untouched (e e' : Event) : Prop :=
  Level e' = Level e /\ Verb e' = Verb e /\ ObjectRef e' = ObjectRef e /\
  RequestObject e' = RequestObject e /\ ResponseObject e' = ResponseObject e /\
  ResponseStatus e' = ResponseStatus e.

(** Between the two calls the handler may rewrite the descriptive fields
    of the event (verb, name, ...); [e1] is such a successor of [e] when
    it has the level and the two snapshots of [e]. *)
Definition handler_keeps (e e1 : Event) : Prop :=
  Level e1 = Level e /\ RequestObject e1 = RequestObject e /\
  ResponseObject e1 = ResponseObject e.

(** The channel stays full for the whole timeout: no receive at or before
    the instant the timer fires. *)
Definition stays_full (a : auditing) (w : World) : Prop :=
  cache_cap a <= Z.of_nat (length (cache w)) /\
  match recv_delay w with
  | None => True
  | Some d => CacheTimeout < Z.of_N d
  end.

Definition timeout_diagnostic (e : Event) : LogEntry :=
  LogInfo 8 (String.append "cache audit event " (String.append (AuditID e) " timeout")).

(* ===================================================================== *)
(** ** Concrete collaborators for the examples                           *)
(* ===================================================================== *)

Module Fixtures.

(** A writer in the manner of [httptest.ResponseRecorder]: it records
    what it is given and has neither [Hijack] nor [CloseNotify]. *)
Record Recorder : Type := {
  Code : Z;
  HeaderMap : Header;
  Written : bytes
}.

Definition recorder_zero : Recorder :=
  {| Code := 0; HeaderMap := ∅; Written := [] |}.

Definition recorder_writer : http_ResponseWriter Recorder :=
  {| rw_Header := HeaderMap;
     rw_Write := fun data r =>
       ((Z.of_nat (length data), None),
        {| Code := (if Code r =? 0 then StatusOK else Code r);
           HeaderMap := HeaderMap r;
           Written := Written r ++ data |});
     rw_WriteHeader := fun code r =>
       {| Code := (if Code r =? 0 then code else Code r);
          HeaderMap := HeaderMap r;
          Written := Written r |};
     rw_Hijacker := None;
     rw_CloseNotifier := None |}.

(** A writer on a live connection: it has both capabilities, and counts
    in its state how often they were used. *)
Definition conn_writer : http_ResponseWriter nat :=
  {| rw_Header := fun _ => ∅;
     rw_Write := fun data n => ((Z.of_nat (length data), None), n);
     rw_WriteHeader := fun _ n => n;
     rw_Hijacker := Some {| hj_Hijack := fun n => ((Some 1%nat, Some 2%nat, None), S n) |};
     rw_CloseNotifier := Some {| cn_CloseNotify := fun n => (3%nat, S n) |} |}.

(** A writer whose peer is gone: every write fails. *)
Definition broken_writer : http_ResponseWriter unit :=
  {| rw_Header := fun _ => ∅;
     rw_Write := fun _ u => ((0, Some "write: broken pipe"), u);
     rw_WriteHeader := fun _ u => u;
     rw_Hijacker := None;
     rw_CloseNotifier := None |}.

Definition libraries : Libraries :=
  {| uuid_String := fun n =>
       String.append "7c9e6679-7425-40de-944b-e07fc1f90ae" (String (Ascii.ascii_of_nat (48 + n mod 10)) "");
     json_Unmarshal_Object := fun _ => None;
     json_Unmarshal_User := fun _ => None |}.

Definition webhook_at (level : string) : string -> option Webhook * error :=
  fun name =>
    if String.eqb name DefaultWebhook
    then (Some {| Spec_AuditLevel := level; Spec_K8sAuditingEnabled := false |}, None)
    else (None, Some "webhook not found").

Definition project_a : DevOpsProject.t :=
  {| DevOpsProject.Name := "project-a";
     DevOpsProject.Labels := {[ workspace_label := "ws-1" ]};
     DevOpsProject.Status_AdminNamespace := "project-a-ns" |}.

(** Auditing at a given level with a project registry that answers. *)
Definition auditing_ok (level : string) : auditing :=
  NewAuditing (webhook_at level)
    (fun _ _ => (Some {| Items := [ItemDevOpsProject (Some project_a)]; TotalItems := 1 |}, None)).

(** Auditing whose project registry fails the way Go functions do: a
    nil result and an error. *)
Definition auditing_list_fails (level : string) : auditing :=
  NewAuditing (webhook_at level)
    (fun _ _ => (None, Some "devops informer is not synced")).

Definition world0 : World :=
  {| cache := []; klog := []; clock := 1700000000000000000; uuids := 0;
     recv_delay := None; select_coin := false |}.

Definition hello : bytes := [x68; x65; x6c; x6c; x6f]%byte.

Definition request (query : gmap string (list string)) (n : Z) (b : ReadCloser) : Request :=
  {| URL_Path := "/kapis/tenant.kubesphere.io/v1alpha2/workspaces";
     URL_Query := query;
     UserAgent_ := "kubectl/v1.21";
     ContentLength := n;
     Body := b;
     Context_User := None;
     RemoteIp := "10.0.0.7" |}.

Definition info (k8s : bool) (verb devopsProject : string) : RequestInfo.t :=
  {| RequestInfo.IsKubernetesRequest := k8s;
     RequestInfo.Path := "/kapis/tenant.kubesphere.io/v1alpha2/workspaces";
     RequestInfo.Verb := verb;
     RequestInfo.APIGroup := "tenant.kubesphere.io";
     RequestInfo.APIVersion := "v1alpha2";
     RequestInfo.Namespace := "";
     RequestInfo.Resource := "workspaces";
     RequestInfo.Subresource := "";
     RequestInfo.Name := "";
     RequestInfo.Workspace := "";
     RequestInfo.Cluster := "";
     RequestInfo.DevOps := devopsProject;
     RequestInfo.ResourceScope := "Global" |}.

Definition event0 : Event :=
  {| Devops := ""; Workspace := ""; Cluster := ""; RequestURI := "/kapis/x";
     Verb := "get"; Level := LevelMetadata; AuditID := "7c9e6679-7425-40de-944b-e07fc1f90ae7";
     Stage := StageResponseComplete; ImpersonatedUser := None; UserAgent := "";
     RequestReceivedTimestamp := 0; StageTimestamp := 0; Annotations := None;
     ObjectRef := None; SourceIPs := []; User := UserInfo.zero;
     RequestObject := None; ResponseObject := None; ResponseStatus := None |}.

End Fixtures.

Module Runs.
Import Fixtures.

Definition dry : gmap string (list string) := {[ "dryRun" := ["All"] ]}.
Definition no_body : ReadCloser := TransportBody [] None false.
Definition hello_body : ReadCloser := TransportBody hello None false.

(** The response side of a run over a recorder. *)
Definition finalize (a : auditing) (e : option Event)
           (c : option (Capture.ResponseCapture Recorder)) : M World Event :=
  LogResponseObject a e c.

Definition log_request (a : auditing) (req : Request) (i : RequestInfo.t)
  : M World (option Event * Request) :=
  LogRequestObject (LIB := libraries) a req i.

Definition capture0 : Capture.ResponseCapture Recorder :=
  Capture.NewResponseCapture recorder_zero.

(** A create request with a five-byte body, audited at level
    RequestResponse, and what the two calls make of it. *)
Definition create_request : Request := request ∅ 5 hello_body.
Definition create_info : RequestInfo.t := info false "create" "".
Definition audit_all : auditing := auditing_ok LevelRequestResponse.

Definition created : Res World (option Event * Request) :=
  Eval vm_compute in log_request audit_all create_request create_info world0.

Definition created_event : Event :=
  Eval vm_compute in
    match created with Ret (Some e, _) _ => e | _ => event0 end.

Definition created_request : Request :=
  Eval vm_compute in
    match created with Ret (_, r) _ => r | _ => create_request end.

Definition created_world : World :=
  Eval vm_compute in
    match created with Ret _ w => w | Panic _ w => w end.

(** The handler answers with the same five bytes. *)
Definition answered : Capture.ResponseCapture Recorder :=
  Eval vm_compute in
    match Capture.Write (RW := recorder_writer) hello capture0 with
    | Ret _ c => c
    | Panic _ c => c
    end.

Definition finalized : Res World Event :=
  Eval vm_compute in finalize audit_all (Some created_event) (Some answered) created_world.

Definition final_event : Event :=
  Eval vm_compute in match finalized with Ret e _ => e | _ => event0 end.

Definition final_world : World :=
  Eval vm_compute in match finalized with Ret _ w => w | Panic _ w => w end.

(** A handler that looks at the capture and never writes. *)
Definition silent_handler : list (@Capture.HandlerOp) :=
  [Capture.OpHeader; Capture.OpStatusCode; Capture.OpHijack; Capture.OpBytes].

End Runs.

(* ===================================================================== *)
(** ** Notions for the statements about whole runs                       *)
(* ===================================================================== *)

(** The state a computation ends in, whether it returned or panicked. *)
Definition world_of {S A : Type} (r : Res S A) : S :=
  match r with
  | Ret _ s => s
  | Panic _ s => s
  end.

(** The struct literal of [LogRequestObject], by the three values it
    obtains from its surroundings. *)
Definition initial_event (req : Request) (info : RequestInfo.t)
           (level : audit_Level) (id : string) (now : Z) : Event :=
  {| Devops := RequestInfo.DevOps info;
     Workspace := RequestInfo.Workspace info;
     Cluster := RequestInfo.Cluster info;
     RequestURI := RequestInfo.Path info;
     Verb := RequestInfo.Verb info;
     Level := level;
     AuditID := id;
     Stage := StageResponseComplete;
     ImpersonatedUser := None;
     UserAgent := UserAgent_ req;
     RequestReceivedTimestamp := now;
     StageTimestamp := 0;
     Annotations := None;
     ObjectRef :=
       Some {| ObjectReference.Resource := RequestInfo.Resource info;
               ObjectReference.Namespace := RequestInfo.Namespace info;
               ObjectReference.Name := RequestInfo.Name info;
               ObjectReference.UID := "";
               ObjectReference.APIGroup := RequestInfo.APIGroup info;
               ObjectReference.APIVersion := RequestInfo.APIVersion info;
               ObjectReference.ResourceVersion := RequestInfo.ResourceScope info;
               ObjectReference.Subresource := RequestInfo.Subresource info |};
     SourceIPs := [];
     User := UserInfo.zero;
     RequestObject := None;
     ResponseObject := None;
     ResponseStatus := None |}.

(** The project an item points to, for the items that are projects. *)
Definition item_project (obj : Item) : option DevOpsProject.t :=
  match obj with
  | ItemDevOpsProject d => d
  | ItemOther _ => None
  end.

Definition project_label (d : DevOpsProject.t) : string :=
  default "" (DevOpsProject.Labels d !! workspace_label).

(** [d] answers to the project id [devops]: by its name or by its admin
    namespace. *)
Definition project_matches (devops : string) (d : DevOpsProject.t) : bool :=
  String.eqb (DevOpsProject.Name d) devops
  || String.eqb (DevOpsProject.Status_AdminNamespace d) devops.

Definition is_CallWrite (c : WriterCall) : bool :=
  match c with CallWrite _ => true | _ => false end.

(** What the handler wrote, in order. *)
Fixpoint written (ops : list Capture.HandlerOp) : bytes :=
  match ops with
  | [] => []
  | Capture.OpWrite data :: rest => data ++ written rest
  | _ :: rest => written rest
  end.

(** The status the first writing operation commits. *)
Fixpoint commit_status (ops : list Capture.HandlerOp) : option Z :=
  match ops with
  | [] => None
  | Capture.OpWrite _ :: _ => Some StatusOK
  | Capture.OpWriteHeader code :: _ => Some code
  | _ :: rest => commit_status rest
  end.

(** The writes the handler asked for, as calls on the wrapped writer. *)
Fixpoint write_calls (ops : list Capture.HandlerOp) : list WriterCall :=
  match ops with
  | [] => []
  | Capture.OpWrite data :: rest => CallWrite data :: write_calls rest
  | _ :: rest => write_calls rest
  end.

(** [w'] is [w] with more lines in the log and, possibly, more
    identifiers drawn; the queue, the clock and the scheduler are those
    of [w]. *)
Definition log_and_uuids_only (w w' : World) : Prop :=
  exists (l : list LogEntry) (n : nat),
    w' = with_uuids n (with_klog (klog w ++ l) w) /\ (uuids w <= n)%nat.

(** Every run of [m], returning or not, stays within [R]. *)
Definition stays_within (R : World -> World -> Prop) {A : Type} (m : M World A) : Prop :=
  forall w, R w (world_of (m w)).

(* ===================================================================== *)
(** ** The resource getter: pkg/models/resources/v1alpha3/resource       *)
(* ===================================================================== *)

Module Resource.

(** [schema.GroupVersionResource], the key of the two tables. *)
Record GroupVersionResource : Type := {
  Group : string;
  Version : string;
  Resource_ : string
}.

#[global] Instance GroupVersionResource_eq_dec : EqDecision GroupVersionResource :=
  ltac:(solve_decision).

#[global] Instance GroupVersionResource_countable : Countable GroupVersionResource :=
  inj_countable' (fun k => (Group k, Version k, Resource_ k))
                 (fun t => {| Group := t.1.1; Version := t.1.2; Resource_ := t.2 |})
                 (fun k => match k with
                           | {| Group := g; Version := v; Resource_ := r |} => eq_refl
                           end).

Definition ErrResourceNotSupported : string := "resource is not supported".

Section Getters.
(** What the getters hand out: runtime objects [O], list results [L];
    [Q] is the query they are given. *)
Context {O L Q : Type}.

(** A [v1alpha3.Interface], by its two methods. *)
Record Getter : Type := {
  getter_Get : string -> string -> option O * error;
  getter_List : string -> Q -> option L * error
}.

Record ResourceGetter : Type := {
  clusterResourceGetters : gmap GroupVersionResource Getter;
  namespacedResourceGetters : gmap GroupVersionResource Getter
}.

(** A [for k, v := range m] that returns at the first key with the
    resource name, over the entries in the order the run-time visits
    them. *)
Fixpoint first_with_resource (entries : list (GroupVersionResource * Getter))
         (resource : string) : option Getter :=
  match entries with
  | [] => None
  | (k, v) :: rest =>
      if String.eqb (Resource_ k) resource then Some v
      else first_with_resource rest resource
  end.

(** Go fixes no order for the range over a map: [range m] is the order
    of one visit, some arrangement of the entries of [m]. *)
Definition RangeOrder : Type :=
  gmap GroupVersionResource Getter -> list (GroupVersionResource * Getter).

Definition visits_every_entry (range : RangeOrder) : Prop :=
  forall m, range m ≡ₚ map_to_list m.

(** [TryResource]; nil is [None]. *)
Definition TryResource (range : RangeOrder) (r : ResourceGetter)
           (clusterScope : bool) (resource : string) : option Getter :=
  match (if clusterScope
         then first_with_resource (range (clusterResourceGetters r)) resource
         else None) with
  | Some v => Some v
  | None => first_with_resource (range (namespacedResourceGetters r)) resource
  end.

Definition Get (range : RangeOrder) (r : ResourceGetter)
           (resource namespace name : string) : option O * error :=
  let clusterScope := String.eqb namespace "" in
  match TryResource range r clusterScope resource with
  | None => (None, Some ErrResourceNotSupported)
  | Some getter => getter_Get getter namespace name
  end.

Definition List (range : RangeOrder) (r : ResourceGetter)
           (resource namespace : string) (query : Q) : option L * error :=
  let clusterScope := String.eqb namespace "" in
  match TryResource range r clusterScope resource with
  | None => (None, Some ErrResourceNotSupported)
  | Some getter => getter_List getter namespace query
  end.

(** Some key of [m] has the resource name. *)
Definition registers (m : gmap GroupVersionResource Getter) (resource : string) : Prop :=
  exists k v, m !! k = Some v /\ Resource_ k = resource.

End Getters.
Arguments Getter O L Q : clear implicits.
Arguments ResourceGetter O L Q : clear implicits.
Arguments RangeOrder O L Q : clear implicits.

End Resource.

(* ===================================================================== *)
(** ** The repo operator: pkg/models/openpitrix/v2alpha1/repos.go        *)
(* ===================================================================== *)

Module Repos.
Section Operator.
(** Of [v1alpha1.HelmRepo] the code touches [Status.Data] and
    [Spec.Credential]; [Credential] is the type of the latter,
    [zero_credential] its zero value [HelmRepoCredential{}], and [Rest]
    all the other fields of a repo.  [QueryRest] is what a [query.Query]
    has beside its label selector.  The three functions of
    k8s.io/apimachinery/pkg/labels the code calls are taken as they are:
    [ConvertSelectorToLabelsMap], [Set.String] and, written out,
    [Merge]. *)
Context {Credential Rest QueryRest : Type}.
Variable zero_credential : Credential.
Variable ConvertSelectorToLabelsMap : string -> gmap string string * error.
Variable Set_String : gmap string string -> string.
Variable WorkspaceLabelKey : string.

Record HelmRepo : Type := {
  Spec_Credential : Credential;
  Status_Data : string;
  rest : Rest
}.

(** [qry *query.Query], by what it points to. *)
Record Query : Type := {
  LabelSelector : string;
  query_rest : QueryRest
}.

(** A [runtime.Object] or an element of [Items]: a pointer to a HelmRepo
    (possibly nil), or anything else, the nil interface included. *)
Inductive Object : Type :=
| HelmRepoPtr (p : option nat)
| OtherObject.

Record ListResult : Type := {
  Items : list Object;
  TotalItems : Z
}.

Inductive GetterCall : Type :=
| CalledGet (namespace name : string)
| CalledList (namespace : string) (query : Query).

(** The store the operator works on: the repos behind the pointers the
    getter hands out (they are the getter's own objects, not copies), the
    log, the query behind [qry], and the calls made on the getter. *)
Record Store : Type := {
  heap : gmap nat HelmRepo;
  log : list LogEntry;
  qry : Query;
  getter_calls : list GetterCall
}.

(** [reposGetter resources.Interface], by what its methods answer. *)
Record repoOperator : Type := {
  reposGetter_Get : string -> string -> Object * error;
  reposGetter_List : string -> Query -> option ListResult * error
}.

Definition log_Error (msg : string) : M Store unit :=
  modify (fun s => {| heap := heap s; log := log s ++ [LogError msg];
                      qry := qry s; getter_calls := getter_calls s |}).

Definition record_call (c : GetterCall) : M Store unit :=
  modify (fun s => {| heap := heap s; log := log s;
                      qry := qry s; getter_calls := getter_calls s ++ [c] |}).

Definition set_LabelSelector (sel : string) : M Store unit :=
  modify (fun s => {| heap := heap s; log := log s;
                      qry := {| LabelSelector := sel; query_rest := query_rest (qry s) |};
                      getter_calls := getter_calls s |}).

(** A store through the pointer [l]. *)
Definition update_repo (l : nat) (f : HelmRepo -> HelmRepo) : M Store unit :=
  modify (fun s => {| heap := alter f l (heap s); log := log s;
                      qry := qry s; getter_calls := getter_calls s |}).

Definition clear_data (r : HelmRepo) : HelmRepo :=
  {| Spec_Credential := Spec_Credential r; Status_Data := ""; rest := rest r |}.

Definition clear_credential (r : HelmRepo) : HelmRepo :=
  {| Spec_Credential := zero_credential; Status_Data := Status_Data r; rest := rest r |}.

(** The type assertion of [x] to a pointer to HelmRepo and the first
    store through the result. *)
Definition as_HelmRepo (x : Object) : M Store nat :=
  match x with
  | HelmRepoPtr p => deref p
  | OtherObject => panic (InterfaceConversion "*v1alpha1.HelmRepo")
  end.

(** [labels.Merge(l1, l2)]: the entries of both, those of [l2] winning. *)
Definition labels_Merge (l1 l2 : gmap string string) : gmap string string := l2 ∪ l1.

Definition DescribeRepo (c : repoOperator) (id : string) : M Store (option nat * error) :=
  let* _ := record_call (CalledGet "" id) in
  let '(result, err) := reposGetter_Get c "" id in
  match err with
  | Some msg =>
      let* _ := log_Error msg in
      ret (None, Some msg)
  | None =>
      let* repo := as_HelmRepo result in
      let* _ := update_repo repo clear_data in
      ret (Some repo, None)
  end.

(** The loop "remove status data and credential". *)
Fixpoint scrub (items : list Object) : M Store unit :=
  match items with
  | [] => ret tt
  | x :: others =>
      let* d := as_HelmRepo x in
      let* _ := update_repo d clear_data in
      let* _ := update_repo d clear_credential in
      scrub others
  end.

Definition ListRepos (c : repoOperator) (workspace : string)
  : M Store (option ListResult * error) :=
  let list_them : M Store (option ListResult * error) :=
    let* s := get in
    let* _ := record_call (CalledList "" (qry s)) in
    let '(result, err) := reposGetter_List c "" (qry s) in
    match err with
    | Some msg =>
        let* _ := log_Error msg in
        ret (None, Some msg)
    | None =>
        let* r := deref result in
        let* _ := scrub (Items r) in
        ret (Some r, None)
    end in
  if negb (String.eqb workspace "") then
    let* s := get in
    let '(labelSelector, err) := ConvertSelectorToLabelsMap (LabelSelector (qry s)) in
    match err with
    | Some msg =>
        let* _ := log_Error msg in
        ret (None, Some msg)
    | None =>
        let* _ := set_LabelSelector
                    (Set_String (labels_Merge labelSelector
                                   {[ WorkspaceLabelKey := workspace ]})) in
        list_them
    end
  else list_them.

(** The repo as [ListRepos] leaves it. *)
Definition scrubbed (r : HelmRepo) : HelmRepo := clear_credential (clear_data r).

End Operator.
End Repos.

(* ===================================================================== *)
(** ** Concrete runs for the further properties                          *)
(* ===================================================================== *)

Module Cases.
Import Fixtures.

(** Decoders that accept every body: the object is named "alice", the
    user is in state Disabled. *)
Definition decoding : Libraries :=
  {| uuid_String := @uuid_String libraries;
     json_Unmarshal_Object := fun _ => Some "alice";
     json_Unmarshal_User := fun _ => Some UserDisabled |}.

Definition event_of (r : Res World (option Event * Request)) : Event :=
  match r with
  | Ret (Some e, _) _ => e
  | _ => event0
  end.

Definition request_of (r : Res World (option Event * Request)) (otherwise : Request) : Request :=
  match r with
  | Ret (_, req) _ => req
  | _ => otherwise
  end.

Definition capture_of {W : Type} (r : Res (Capture.ResponseCapture W) unit)
  : Capture.ResponseCapture W :=
  match r with
  | Ret _ c => c
  | Panic _ c => c
  end.

Definition users_update : RequestInfo.t :=
  {| RequestInfo.IsKubernetesRequest := false;
     RequestInfo.Path := "/kapis/iam.kubesphere.io/v1alpha2/users/bob";
     RequestInfo.Verb := "update";
     RequestInfo.APIGroup := "iam.kubesphere.io";
     RequestInfo.APIVersion := "v1alpha2";
     RequestInfo.Namespace := "";
     RequestInfo.Resource := "users";
     RequestInfo.Subresource := "";
     RequestInfo.Name := "bob";
     RequestInfo.Workspace := "";
     RequestInfo.Cluster := "";
     RequestInfo.DevOps := "";
     RequestInfo.ResourceScope := "Global" |}.

Definition bob : user.Info :=
  {| user.GetName := "bob"; user.GetUID := "u-17";
     user.GetGroups := ["system:authenticated"];
     user.GetExtra := {[ "scope" := ["a"; "b"] ]} |}.

Definition request_by (u : option user.Info) (n : Z) (b : ReadCloser) : Request :=
  {| URL_Path := "/kapis/tenant.kubesphere.io/v1alpha2/workspaces";
     URL_Query := ∅;
     UserAgent_ := "kubectl/v1.21";
     ContentLength := n;
     Body := b;
     Context_User := u;
     RemoteIp := "10.0.0.7" |}.

Definition broken_body : ReadCloser := TransportBody hello (Some "unexpected EOF") false.

(** The runs. *)
Definition create_run : Res World (option Event * Request) :=
  LogRequestObject (LIB := decoding) (auditing_ok LevelMetadata)
    (request ∅ 5 Runs.hello_body) (info false "create" "") world0.

Definition dry_run : Res World (option Event * Request) :=
  LogRequestObject (LIB := decoding) (auditing_ok LevelMetadata)
    (request Runs.dry 0 Runs.no_body) (info true "create" "") world0.

Definition empty_run : Res World (option Event * Request) :=
  LogRequestObject (LIB := decoding) (auditing_ok LevelRequestResponse)
    (request ∅ 0 Runs.hello_body) (info false "create" "") world0.

Definition broken_run : Res World (option Event * Request) :=
  LogRequestObject (LIB := decoding) (auditing_ok LevelRequest)
    (request ∅ 5 broken_body) (info false "create" "") world0.

Definition update_run : Res World (option Event * Request) :=
  LogRequestObject (LIB := decoding) (auditing_ok LevelNone)
    (request ∅ 5 Runs.hello_body) users_update world0.

Definition identity_run : Res World (option Event * Request) :=
  LogRequestObject (LIB := decoding) (auditing_ok LevelMetadata)
    (request_by (Some bob) 0 Runs.no_body) (info false "get" "") world0.

(** The project is asked for by its admin namespace. *)
Definition alias_run : Res World (option Event * Request) :=
  LogRequestObject (LIB := decoding) (auditing_ok LevelMetadata)
    (request ∅ 0 Runs.no_body) (info false "get" "project-a-ns") world0.

(** A handler that sets 404, writes, tries 500 and writes again. *)
Definition handler : list Capture.HandlerOp :=
  [Capture.OpWriteHeader 404; Capture.OpWrite hello; Capture.OpHijack;
   Capture.OpWriteHeader 500; Capture.OpWrite hello].

Definition handled : Res (Capture.ResponseCapture Recorder) unit :=
  Capture.run_handler (RW := recorder_writer) handler Runs.capture0.

(** A queue with every slot taken. *)
Definition full_world (delay : option N) : World :=
  {| cache := repeat event0 (Z.to_nat 10000); klog := []; clock := 0; uuids := 0;
     recv_delay := delay; select_coin := false |}.

(** Two tables of getters. *)
Definition answer (tag : string) : Resource.Getter string string unit :=
  {| Resource.getter_Get := fun ns name => (Some tag, None);
     Resource.getter_List := fun ns _ => (Some tag, None) |}.

Definition deployments : Resource.GroupVersionResource :=
  {| Resource.Group := "apps"; Resource.Version := "v1"; Resource.Resource_ := "deployments" |}.

Definition users : Resource.GroupVersionResource :=
  {| Resource.Group := "iam.kubesphere.io"; Resource.Version := "v1alpha2";
     Resource.Resource_ := "users" |}.

Definition getters : Resource.ResourceGetter string string unit :=
  {| Resource.clusterResourceGetters := {[ users := answer "users" ]};
     Resource.namespacedResourceGetters := {[ deployments := answer "deployments" ]} |}.

Definition in_map_order : Resource.RangeOrder string string unit := map_to_list.

(** A store with two repos, and a getter that lists both. *)
Definition repo (data : string) : @Repos.HelmRepo string string :=
  {| Repos.Spec_Credential := "s3cr3t"; Repos.Status_Data := data; Repos.rest := "charts" |}.

Definition store : @Repos.Store string string unit :=
  {| Repos.heap := {[ 1%nat := repo "index-1"; 2%nat := repo "index-2" ]};
     Repos.log := [];
     Repos.qry := {| Repos.LabelSelector := "app=web"; Repos.query_rest := tt |};
     Repos.getter_calls := [] |}.

Definition operator : @Repos.repoOperator unit :=
  {| Repos.reposGetter_Get := fun _ id =>
       if String.eqb id "repo-1" then (Repos.HelmRepoPtr (Some 1%nat), None)
       else (Repos.OtherObject, Some "repo not found");
     Repos.reposGetter_List := fun _ _ =>
       (Some {| Repos.Items := [Repos.HelmRepoPtr (Some 1%nat)]; Repos.TotalItems := 1 |},
        None) |}.

Definition failing_operator : @Repos.repoOperator unit :=
  {| Repos.reposGetter_Get := fun _ _ => (Repos.OtherObject, Some "informer not synced");
     Repos.reposGetter_List := fun _ _ => (None, Some "informer not synced") |}.

(** A selector parser that knows the one selector of [store]. *)
Definition parse (sel : string) : gmap string string * error :=
  if String.eqb sel "app=web" then ({[ "app" := "web" ]}, None)
  else (∅, Some "invalid selector").

(** A rendering of label sets. *)
Definition render (m : gmap string string) : string :=
  String.concat "," (List.map (fun kv => String.append kv.1 (String.append "=" kv.2))
                              (map_to_list m)).

Definition list_repos (op : @Repos.repoOperator unit) (workspace : string)
  : Res (@Repos.Store string string unit) (option Repos.ListResult * error) :=
  Repos.ListRepos "" parse render "kubesphere.io/workspace" op workspace store.

Definition describe_repo (op : @Repos.repoOperator unit) (id : string)
  : Res (@Repos.Store string string unit) (option nat * error) :=
  Repos.DescribeRepo op id store.

End Cases.

(* ===================================================================== *)
(** ** ResponseCapture: properties                                       *)
(* ===================================================================== *)

Section CaptureFacts.
Context {W : Type} `{RW : http_ResponseWriter W}.
Import Capture.

Lemma checkWriteHeaderCode_accepts {S : Type} (code : Z) (s : S) :
  100 <= code <= 999 -> checkWriteHeaderCode code s = Ret tt s.
Proof.
  intros Hcode. unfold checkWriteHeaderCode.
  destruct (Z.ltb_spec code 100); [lia|].
  destruct (Z.ltb_spec 999 code); [lia|]. reflexivity.
Qed.

Lemma checkWriteHeaderCode_rejects {S : Type} (code : Z) (s : S) :
  ~ 100 <= code <= 999 ->
  checkWriteHeaderCode code s = Panic (InvalidWriteHeaderCode code) s.
Proof.
  intros Hcode. unfold checkWriteHeaderCode.
  destruct (Z.ltb_spec code 100); [reflexivity|].
  destruct (Z.ltb_spec 999 code); [reflexivity|]. lia.
Qed.

Lemma WriteHeader_pending (code : Z) (c : ResponseCapture W) :
  wroteHeader c = false ->
  100 <= code <= 999 ->
  WriteHeader code c =
    Ret tt {| ResponseWriter := rw_WriteHeader code (ResponseWriter c);
              wroteHeader := true;
              status := code;
              body := body c;
              calls := calls c ++ [CallWriteHeader code] |}.
Proof.
  intros Hpending Hcode.
  unfold WriteHeader, bind, get, inner_WriteHeader, bind. rewrite Hpending. simpl.
  rewrite (checkWriteHeaderCode_accepts _ _ Hcode). reflexivity.
Qed.

(** The wrapped writer refuses the code: the call panics with the status
    stored and the latch still unset. *)
Lemma WriteHeader_rejected (code : Z) (c : ResponseCapture W) :
  wroteHeader c = false ->
  ~ 100 <= code <= 999 ->
  WriteHeader code c =
    Panic (InvalidWriteHeaderCode code)
          {| ResponseWriter := ResponseWriter c;
             wroteHeader := false;
             status := code;
             body := body c;
             calls := calls c ++ [CallWriteHeader code] |}.
Proof.
  intros Hpending Hcode.
  unfold WriteHeader, bind, get, inner_WriteHeader, bind. rewrite Hpending. simpl.
  rewrite (checkWriteHeaderCode_rejects _ _ Hcode). rewrite Hpending. reflexivity.
Qed.

Lemma StatusOK_accepted : 100 <= StatusOK <= 999.
Proof. unfold StatusOK. lia. Qed.

Lemma WriteHeader_committed (code : Z) (c : ResponseCapture W) :
  wroteHeader c = true -> WriteHeader code c = Ret tt c.
Proof.
  intros Hdone. unfold WriteHeader, bind, get. rewrite Hdone. reflexivity.
Qed.

(** C7: [Write] commits status 200 when no header was committed yet,
    appends the bytes to the capture buffer, passes the same bytes to
    the wrapped writer, and returns exactly the (count, error) pair the
    wrapped writer returned. *)
Theorem Write_captures_and_forwards (data : bytes) (c : ResponseCapture W) :
  exists c',
    Write data c = Ret (fst (rw_Write data (committed_writer c))) c' /\
    ResponseWriter c' = snd (rw_Write data (committed_writer c)) /\
    body c' = body c ++ data /\
    wroteHeader c' = true /\
    status c' = (if wroteHeader c then status c else StatusOK) /\
    calls c' = calls c
               ++ (if wroteHeader c then [] else [CallWriteHeader StatusOK])
               ++ [CallWrite data].
Proof.
  unfold committed_writer.
  destruct (wroteHeader c) eqn:Hlatch.
  - unfold Write, bind. rewrite (WriteHeader_committed _ _ Hlatch).
    unfold body_Write, modify, inner_Write. simpl.
    destruct (rw_Write data (ResponseWriter c)) as [r w'] eqn:Hw.
    eexists. split; [reflexivity|]. simpl. rewrite Hlatch. repeat split; reflexivity.
  - unfold Write, bind. rewrite (WriteHeader_pending _ _ Hlatch StatusOK_accepted).
    unfold body_Write, modify, inner_Write. simpl.
    destruct (rw_Write data (rw_WriteHeader StatusOK (ResponseWriter c))) as [r w'] eqn:Hw.
    eexists. split; [reflexivity|]. simpl.
    rewrite <- app_assoc. repeat split; reflexivity.
Qed.

(** C8, amended: on a capture whose header is still pending, and for a
    first code [c1] the wrapped writer takes (100..999), [WriteHeader c1]
    followed by [WriteHeader c2] with any [c2] leaves [c1] as the
    committed status, has called the wrapped writer's [WriteHeader] once
    (with [c1]), and the second call returns normally in the very state
    it found. *)
Theorem WriteHeader_idempotent (c : ResponseCapture W) (c1 c2 : Z) :
  wroteHeader c = false ->
  100 <= c1 <= 999 ->
  exists s1,
    WriteHeader c1 c = Ret tt s1 /\
    WriteHeader c2 s1 = Ret tt s1 /\
    StatusCode s1 = c1 /\
    wroteHeader s1 = true /\
    ResponseWriter s1 = rw_WriteHeader c1 (ResponseWriter c) /\
    calls s1 = calls c ++ [CallWriteHeader c1] /\
    length (filter (fun k => is_CallWriteHeader k = true) (calls s1)) =
      S (length (filter (fun k => is_CallWriteHeader k = true) (calls c))).
Proof.
  intros Hpending Hcode.
  eexists. split; [apply WriteHeader_pending; [exact Hpending|exact Hcode]|].
  split; [apply WriteHeader_committed; reflexivity|].
  simpl. repeat split; try reflexivity.
  rewrite filter_app, length_app. simpl. lia.
Qed.

End CaptureFacts.

(** A capture over a recorder: first code 404, then 500. *)
Lemma WriteHeader_idempotent_witness :
  let c := Capture.NewResponseCapture Fixtures.recorder_zero in
  Capture.wroteHeader c = false /\
  100 <= 404 <= 999 /\
  exists s1,
    Capture.WriteHeader (RW := Fixtures.recorder_writer) 404 c = Ret tt s1 /\
    Capture.WriteHeader (RW := Fixtures.recorder_writer) 500 s1 = Ret tt s1 /\
    Capture.StatusCode s1 = 404.
Proof.
  split; [reflexivity|]. split; [lia|].
  destruct (WriteHeader_idempotent (RW := Fixtures.recorder_writer)
              (Capture.NewResponseCapture Fixtures.recorder_zero) 404 500 eq_refl
              ltac:(lia))
    as (s1 & H1 & H2 & H3 & _).
  exists s1. repeat split; assumption.
Defined.

(** C8, as stated, fails: with first code 99 the wrapped recorder panics
    inside the first call, after the status was stored and before the
    latch is set.  The call does not return; the capture reports 99 with
    its header still pending, and a second call with 500 goes through to
    the wrapped writer again and replaces the status. *)
Lemma WriteHeader_refused_code_is_not_latched :
  let c := Capture.NewResponseCapture Fixtures.recorder_zero in
  exists s1 s2,
    Capture.WriteHeader (RW := Fixtures.recorder_writer) 99 c
      = Panic (InvalidWriteHeaderCode 99) s1 /\
    Capture.StatusCode s1 = 99 /\
    Capture.wroteHeader s1 = false /\
    Capture.WriteHeader (RW := Fixtures.recorder_writer) 500 s1 = Ret tt s2 /\
    s2 <> s1 /\
    Capture.StatusCode s2 = 500 /\
    Capture.calls s2 = [CallWriteHeader 99; CallWriteHeader 500].
Proof.
  do 2 eexists. repeat split; try reflexivity. discriminate.
Qed.

(** A failed write downstream reaches the caller as it is, and the bytes
    are in the capture all the same. *)
Example Write_passes_on_the_failure :
  exists c',
    Capture.Write (RW := Fixtures.broken_writer) Fixtures.hello (Capture.NewResponseCapture tt)
      = Ret (0, Some "write: broken pipe") c' /\
    Capture.Bytes c' = Fixtures.hello /\ Capture.StatusCode c' = 200.
Proof. eexists. repeat split. Qed.

Section CaptureCapabilities.
Context {W : Type} `{RW : http_ResponseWriter W}.
Import Capture.

(** [Hijack] on a writer without the capability: an error, no panic,
    and the capture is left as it was. *)
Lemma Hijack_not_supported (c : ResponseCapture W) :
  rw_Hijacker = None ->
  Hijack c = Ret (None, None, Some Hijack_unsupported) c.
Proof. intros Hnone. unfold Hijack. rewrite Hnone. reflexivity. Qed.

(** [Hijack] on a writer with the capability: the wrapped writer's own
    result. *)
Lemma Hijack_delegates (h : Hijacker W) (c : ResponseCapture W) :
  rw_Hijacker = Some h ->
  exists c',
    Hijack c = Ret (fst (hj_Hijack h (ResponseWriter c))) c' /\
    ResponseWriter c' = snd (hj_Hijack h (ResponseWriter c)).
Proof.
  intros Hsome. unfold Hijack. rewrite Hsome.
  destruct (hj_Hijack h (ResponseWriter c)) as [r w']. eexists. split; reflexivity.
Qed.

Lemma CloseNotify_delegates (n : CloseNotifier W) (c : ResponseCapture W) :
  rw_CloseNotifier = Some n ->
  exists c',
    CloseNotify c = Ret (fst (cn_CloseNotify n (ResponseWriter c))) c' /\
    ResponseWriter c' = snd (cn_CloseNotify n (ResponseWriter c)).
Proof.
  intros Hsome. unfold CloseNotify. rewrite Hsome.
  destruct (cn_CloseNotify n (ResponseWriter c)) as [r w']. eexists. split; reflexivity.
Qed.

Lemma CloseNotify_not_supported (c : ResponseCapture W) :
  rw_CloseNotifier = None ->
  CloseNotify c = Panic (InterfaceConversion "http.CloseNotifier") c.
Proof. intros Hnone. unfold CloseNotify. rewrite Hnone. reflexivity. Qed.

(** Operations other than [Write] and [WriteHeader] leave the latch,
    the status and the buffer alone. *)
Lemma run_op_keeps_status (op : HandlerOp) (c c' : ResponseCapture W) :
  writes_response op = false ->
  run_op op c = Ret tt c' ->
  status c' = status c /\ wroteHeader c' = wroteHeader c /\ body c' = body c.
Proof.
  intros Hop Hrun. destruct op; simpl in Hop; try discriminate; simpl in Hrun.
  - inversion Hrun; subst. auto.
  - inversion Hrun; subst. auto.
  - inversion Hrun; subst. auto.
  - unfold bind, Hijack in Hrun. destruct rw_Hijacker as [h|].
    + destruct (hj_Hijack h (ResponseWriter c)) as [r w']. inversion Hrun; subst. auto.
    + inversion Hrun; subst. auto.
  - unfold bind, CloseNotify in Hrun. destruct rw_CloseNotifier as [n|].
    + destruct (cn_CloseNotify n (ResponseWriter c)) as [r w']. inversion Hrun; subst. auto.
    + discriminate.
Qed.

Lemma run_handler_keeps_status (ops : list HandlerOp) :
  forallb (fun op => negb (writes_response op)) ops = true ->
  forall c c' : ResponseCapture W,
    run_handler ops c = Ret tt c' ->
    status c' = status c /\ wroteHeader c' = wroteHeader c /\ body c' = body c.
Proof.
  induction ops as [|op rest IH]; intros Hall c c' Hrun.
  - inversion Hrun; subst. auto.
  - simpl in Hall. apply andb_prop in Hall as [Hop Hrest].
    apply negb_true_iff in Hop.
    simpl in Hrun. unfold bind in Hrun at 1.
    destruct (run_op op c) as [[] c1|p c1] eqn:Hstep; [|discriminate].
    destruct (run_op_keeps_status _ _ _ Hop Hstep) as (Hs & Hl & Hb).
    destruct (IH Hrest _ _ Hrun) as (Hs' & Hl' & Hb').
    repeat split; congruence.
Qed.

End CaptureCapabilities.

(** C2: a capture around a writer that has no close notification (a
    recorder) does not answer [CloseNotify] with an error: the call
    panics on the type assertion.  [Hijack], on the same capture, returns
    the not-supported error. *)
Theorem CloseNotify_panics_without_capability :
  let c := Capture.NewResponseCapture Fixtures.recorder_zero in
  Capture.CloseNotify (RW := Fixtures.recorder_writer) c
    = Panic (InterfaceConversion "http.CloseNotifier") c /\
  Capture.Hijack (RW := Fixtures.recorder_writer) c
    = Ret (None, None, Some Capture.Hijack_unsupported) c.
Proof. split; reflexivity. Qed.

(* ===================================================================== *)
(** ** The request side: properties of LogRequestObject                  *)
(* ===================================================================== *)

Ltac bind_inv H :=
  match type of H with
  | bind ?m _ ?w = Ret _ _ =>
      let p := fresh "p" in
      unfold bind in H at 1;
      destruct (m w) as [? ?|p ?] eqn:?; [|discriminate H]
  end.

Tactic Notation "bind_step" hyp(H) "as" ident(x) ident(s) ident(E) :=
  match type of H with
  | bind ?m _ ?w = Ret _ _ =>
      let p := fresh "p" in
      unfold bind in H at 1;
      destruct (m w) as [x s|p ?] eqn:E; [|discriminate H]
  end.

Ltac ret_inv H :=
  match type of H with
  | ret _ _ = Ret _ _ => unfold ret in H; inversion H; subst; clear H
  | Ret _ _ = Ret _ _ => inversion H; subst; clear H
  end.

Lemma untouched_refl (e : Event) : untouched e e.
Proof. unfold untouched. repeat split; reflexivity. Qed.

Lemma untouched_trans (e1 e2 e3 : Event) :
  untouched e1 e2 -> untouched e2 e3 -> untouched e1 e3.
Proof. unfold untouched. intuition congruence. Qed.

Lemma range_Items_untouched (items : list Item) :
  forall (e e' : Event) (w w' : World),
    range_Items items e w = Ret e' w' -> untouched e e' /\ w' = w.
Proof.
  induction items as [|obj rest IH]; intros e e' w w' Hrun; simpl in Hrun.
  - ret_inv Hrun. split; [apply untouched_refl|reflexivity].
  - bind_inv Hrun.
    assert (s = w) as ->.
    { destruct obj as [[d|]|k]; simpl in *; unfold ret, panic in *; congruence. }
    apply IH in Hrun as [Hu ->]. split; [|reflexivity].
    eapply untouched_trans; [|exact Hu].
    destruct (String.eqb _ _); [|destruct (String.eqb _ _)];
      unfold untouched; repeat split; reflexivity.
  Qed.

Section RequestFacts.
Context `{LIB : Libraries}.

Lemma lookup_workspace_untouched (a : auditing) (e e' : Event) (w w' : World) :
  lookup_workspace a e w = Ret e' w' ->
  untouched e e' /\ cache w' = cache w.
Proof.
  unfold lookup_workspace. intros Hrun.
  destruct (_ && _).
  - destruct (devopsGetter_List a "" query_New) as [res err].
    bind_inv Hrun. bind_inv Hrun.
    apply range_Items_untouched in Hrun as [Hu ->].
    split; [exact Hu|].
    destruct res as [r|]; simpl in *; [|discriminate].
    ret_inv Heqr0.
    destruct err; simpl in *.
    + unfold klog_Error, modify in Heqr. inversion Heqr; subst. reflexivity.
    + ret_inv Heqr. reflexivity.
  - ret_inv Hrun. split; [apply untouched_refl|reflexivity].
Qed.

Lemma copy_user_untouched (req : Request) (e : Event) : untouched e (copy_user req e).
Proof.
  unfold copy_user. destruct (Context_User req); [|apply untouched_refl].
  unfold untouched. repeat split; reflexivity.
Qed.

Lemma name_from_body_keeps (info : RequestInfo.t) (body : bytes) (e e' : Event) (w w' : World) :
  name_from_body info body e w = Ret e' w' ->
  Level e' = Level e /\ RequestObject e' = RequestObject e /\
  ResponseObject e' = ResponseObject e /\ w' = w.
Proof.
  unfold name_from_body. intros Hrun.
  destruct (String.eqb _ _); [|ret_inv Hrun; auto].
  destruct (json_Unmarshal_Object body); [|ret_inv Hrun; auto].
  bind_inv Hrun. destruct (ObjectRef e); simpl in *; [|discriminate].
  ret_inv Heqr. ret_inv Hrun. auto.
Qed.

Lemma relabel_user_update_keeps (body : bytes) (e e' : Event) (w w' : World) :
  relabel_user_update body e w = Ret e' w' ->
  Level e' = Level e /\ RequestObject e' = RequestObject e /\
  ResponseObject e' = ResponseObject e /\ w' = w.
Proof.
  unfold relabel_user_update. intros Hrun.
  bind_inv Hrun. destruct (ObjectRef e); simpl in *; [|discriminate].
  ret_inv Heqr.
  destruct (_ && _); [|ret_inv Hrun; auto].
  destruct (json_Unmarshal_User body); [|ret_inv Hrun; auto].
  destruct (String.eqb _ _); [ret_inv Hrun; auto|].
  destruct (String.eqb _ _); ret_inv Hrun; auto.
Qed.

(** The gate of the code on an event built from [info] is the gate of
    the design. *)
Lemma needAnalyzeRequestBody_gate (a : auditing) (e : Event) (req : Request)
      (info : RequestInfo.t) (o : ObjectReference.t) (w : World) :
  Verb e = RequestInfo.Verb info ->
  ObjectRef e = Some o ->
  ObjectReference.Resource o = RequestInfo.Resource info ->
  needAnalyzeRequestBody a e req w = Ret (body_inspection_gate req info (Level e)) w.
Proof.
  intros Hverb Href Hres.
  unfold needAnalyzeRequestBody, body_inspection_gate.
  rewrite Hverb, Href.
  destruct (ContentLength req <=? 0) eqn:Hlen.
  - apply Z.leb_le in Hlen.
    replace (0 <? ContentLength req) with false by (symmetry; apply Z.ltb_ge; lia).
    reflexivity.
  - apply Z.leb_gt in Hlen.
    replace (0 <? ContentLength req) with true by (symmetry; apply Z.ltb_lt; lia).
    simpl.
    destruct (GreaterOrEqual (Level e) LevelRequest); [reflexivity|].
    destruct (String.eqb (RequestInfo.Verb info) "create"); [reflexivity|].
    unfold bind, deref, ret. simpl. rewrite Hres.
    destruct (_ && _); reflexivity.
Qed.

End RequestFacts.

Section RequestResult.
Context `{LIB : Libraries}.

Lemma getAuditLevel_world (a : auditing) (l : audit_Level) (w w' : World) :
  getAuditLevel a w = Ret l w' -> cache w' = cache w.
Proof.
  unfold getAuditLevel. destruct (webhookLister_Get a DefaultWebhook) as [wh [msg|]]; intros Hrun.
  - bind_inv Hrun. ret_inv Hrun. unfold klog_V_Info, modify in *. inversion Heqr; subst. reflexivity.
  - bind_inv Hrun. ret_inv Hrun. destruct wh; simpl in *; [|discriminate]. ret_inv Heqr. reflexivity.
Qed.

(** What a returned event and the request look like, by the gate and
    the outcome of reading the body. *)
Lemma LogRequestObject_event (a : auditing) (req req' : Request) (info : RequestInfo.t)
      (e : Event) (w w' : World) :
  LogRequestObject a req info w = Ret (Some e, req') w' ->
  cache w' = cache w /\
  ResponseObject e = None /\
  (if body_inspection_gate req info (Level e) then
     match io_ReadAll (Body req) with
     | ((body, None), _) =>
         RequestObject e =
           (if GreaterOrEqual (Level e) LevelRequest then Some body else None) /\
         Body req' = NopCloser body
     | ((_, Some _), drained) => RequestObject e = None /\ Body req' = drained
     end
   else RequestObject e = None /\ req' = req).
Proof.
  unfold LogRequestObject. intros Hrun.
  destruct (_ && _).
  { bind_inv Hrun. ret_inv Hrun. }
  bind_step Hrun as level w1 Elevel. apply getAuditLevel_world in Elevel as Hc1.
  bind_step Hrun as id w2 Eid. unfold uuid_New_String in Eid. ret_inv Eid.
  bind_step Hrun as now w3 Enow. unfold NowMicro in Enow. ret_inv Enow.
  bind_step Hrun as e1 w4 Elookup.
  apply lookup_workspace_untouched in Elookup as [Hu Hc2].
  simpl in Hc2.
  match type of Hrun with
  | bind (needAnalyzeRequestBody a ?em req) _ _ = _ =>
      assert (Hmid : untouched e1 em)
        by (eapply untouched_trans; [|apply copy_user_untouched];
            unfold untouched; repeat split; reflexivity);
      pose proof (untouched_trans _ _ _ Hu Hmid) as Hall;
      remember em as emid eqn:Hemid
  end.
  clear Hu Hmid Hemid.
  destruct Hall as (HL & HV & HO & HRq & HRs & _). simpl in *.
  unfold bind in Hrun at 1.
  rewrite (needAnalyzeRequestBody_gate a emid req info _ w4 HV HO eq_refl) in Hrun.
  destruct (body_inspection_gate req info (Level emid)) eqn:Hgate.
  - destruct (io_ReadAll (Body req)) as [[body [msg|]] drained].
    + bind_step Hrun as u w5 Elog. ret_inv Hrun.
      unfold klog_Error, modify in Elog. inversion Elog; subst; clear Elog.
      rewrite Hgate. simpl. repeat split; try assumption; congruence.
    + bind_step Hrun as e2 w5 Ename. bind_step Hrun as e3 w6 Erelabel. ret_inv Hrun.
      apply name_from_body_keeps in Ename as (L1 & Q1 & S1 & ->).
      apply relabel_user_update_keeps in Erelabel as (L2 & Q2 & S2 & ->).
      assert (Level e = Level emid) as HLe.
      { rewrite L2, L1. destruct (GreaterOrEqual _ _); reflexivity. }
      rewrite HLe, Hgate. simpl.
      split; [congruence|]. split.
      * rewrite S2, S1. destruct (GreaterOrEqual _ _); simpl; congruence.
      * split; [|reflexivity]. rewrite Q2, Q1.
        destruct (GreaterOrEqual (Level emid) LevelRequest); [reflexivity|exact HRq].
  - ret_inv Hrun. rewrite Hgate. repeat split; congruence.
Qed.

End RequestResult.

(* ===================================================================== *)
(** ** The delivery queue                                                *)
(* ===================================================================== *)

Lemma cacheEvent_returns (a : auditing) (e : Event) (w : World) :
  exists w', cacheEvent a e w = Ret tt w'.
Proof.
  unfold cacheEvent, bind, get. destruct (select a w); eexists; reflexivity.
Qed.

Lemma select_free_slot (a : auditing) (w : World) :
  Z.of_nat (length (cache w)) < cache_cap a -> select a w = SendCase 0 false.
Proof.
  intros Hfree. unfold select.
  replace (_ <? _) with true by (symmetry; apply Z.ltb_lt; exact Hfree). reflexivity.
Qed.

Lemma select_stays_full (a : auditing) (w : World) :
  stays_full a w -> select a w = TimerCase.
Proof.
  intros [Hfull Hrecv]. unfold select.
  replace (_ <? _) with false by (symmetry; apply Z.ltb_ge; exact Hfull).
  destruct (recv_delay w) as [d|]; [|reflexivity].
  replace (Z.of_N d <? CacheTimeout) with false by (symmetry; apply Z.ltb_ge; lia).
  replace (Z.of_N d =? CacheTimeout) with false by (symmetry; apply Z.eqb_neq; lia).
  reflexivity.
Qed.

Lemma select_wait_bounded (a : auditing) (w : World) (waited : Z) (received : bool) :
  select a w = SendCase waited received -> 0 <= waited <= CacheTimeout.
Proof.
  unfold select. destruct (_ <? _).
  - intros H; inversion H; subst. unfold CacheTimeout. lia.
  - destruct (recv_delay w) as [d|]; [|discriminate].
    destruct (Z.of_N d <? CacheTimeout) eqn:Hlt.
    + intros H; inversion H; subst. apply Z.ltb_lt in Hlt. lia.
    + destruct (Z.of_N d =? CacheTimeout) eqn:Heq; simpl; [|discriminate].
      destruct (select_coin w); [|discriminate].
      intros H; inversion H; subst. apply Z.eqb_eq in Heq. lia.
Qed.

(** The channel never holds more than its capacity. *)
Lemma cacheEvent_capacity (a : auditing) (e : Event) (w w' : World) :
  0 < cache_cap a ->
  Z.of_nat (length (cache w)) <= cache_cap a ->
  cacheEvent a e w = Ret tt w' ->
  Z.of_nat (length (cache w')) <= cache_cap a.
Proof.
  intros Hpos Hcap. unfold cacheEvent, bind, get. unfold select.
  destruct (_ <? _) eqn:Hfree.
  - intros H; inversion H; subst; clear H. simpl. apply Z.ltb_lt in Hfree.
    rewrite length_app. simpl. lia.
  - assert (Hq : forall q : list Event,
               Z.of_nat (length (tl q ++ [e])) <= Z.max 1 (Z.of_nat (length q))).
    { intros [|x q]; simpl; [lia|]. rewrite length_app. simpl. lia. }
    apply Z.ltb_ge in Hfree.
    pose proof (Hq (cache w)) as Hq'.
    destruct (recv_delay w) as [d|].
    + destruct (Z.of_N d <? CacheTimeout).
      * intros H; inversion H; subst; clear H. simpl. lia.
      * destruct (_ && _).
        -- intros H; inversion H; subst; clear H. simpl. lia.
        -- intros H; inversion H; subst; clear H. simpl. exact Hcap.
    + intros H; inversion H; subst; clear H. simpl. exact Hcap.
Qed.

(** C6: on the channel [NewAuditing] makes (10000 slots), [cacheEvent]
    always returns normally, after at most the timeout of one second.
    With a free slot the event is appended at once and nothing is
    logged.  When the channel stays full for the timeout the event is
    dropped, the channel is as it was, and the diagnostic carrying the
    event's AuditID is logged. *)
Theorem cacheEvent_inserts_or_drops
        (webhooks : string -> option Webhook * error)
        (devops : string -> Query -> option ListResult * error)
        (e : Event) (w : World) :
  let a := NewAuditing webhooks devops in
  exists w',
    cacheEvent a e w = Ret tt w' /\
    0 <= clock w' - clock w <= CacheTimeout /\
    CacheTimeout = 1000000000 /\ cache_cap a = 10000 /\
    (Z.of_nat (length (cache w)) < 10000 ->
       cache w' = cache w ++ [e] /\ klog w' = klog w /\ clock w' = clock w) /\
    (stays_full a w ->
       cache w' = cache w /\
       klog w' = klog w ++ [timeout_diagnostic e] /\
       clock w' = clock w + CacheTimeout).
Proof.
  intros a. unfold cacheEvent, bind, get.
  destruct (select a w) as [waited received|] eqn:Hsel.
  - eexists. split; [reflexivity|]. simpl.
    pose proof (select_wait_bounded _ _ _ _ Hsel) as Hbound.
    split; [lia|]. split; [reflexivity|]. split; [reflexivity|]. split.
    + intros Hfree. rewrite (select_free_slot a w Hfree) in Hsel.
      inversion Hsel; subst. repeat split. lia.
    + intros Hfull. rewrite (select_stays_full _ _ Hfull) in Hsel. discriminate.
  - eexists. split; [reflexivity|]. simpl.
    split; [unfold CacheTimeout; lia|]. split; [reflexivity|]. split; [reflexivity|]. split.
    + intros Hfree. rewrite (select_free_slot a w Hfree) in Hsel. discriminate.
    + intros _. repeat split.
Qed.

(** An empty channel takes the event; a channel holding 10000 events
    whose consumer is stopped drops it and logs the AuditID. *)
Lemma cacheEvent_inserts_or_drops_witness :
  let a := Fixtures.auditing_ok "Metadata" in
  let full := with_cache (repeat Fixtures.event0 (Z.to_nat 10000)) Fixtures.world0 in
  Z.of_nat (length (cache Fixtures.world0)) < 10000 /\
  stays_full a full /\
  (exists w', cacheEvent a Fixtures.event0 Fixtures.world0 = Ret tt w'
              /\ cache w' = [Fixtures.event0]) /\
  (exists w', cacheEvent a Fixtures.event0 full = Ret tt w'
              /\ cache w' = cache full
              /\ klog w' = [timeout_diagnostic Fixtures.event0]).
Proof.
  intros a full.
  assert (Hfree : Z.of_nat (length (cache Fixtures.world0)) < 10000)
    by (vm_compute; reflexivity).
  assert (Hfull : stays_full a full).
  { split; [|exact I].
    change (cache full) with (repeat Fixtures.event0 (Z.to_nat 10000)).
    rewrite repeat_length. vm_compute. discriminate. }
  split; [exact Hfree|]. split; [exact Hfull|]. split.
  - destruct (cacheEvent_inserts_or_drops (Fixtures.webhook_at "Metadata")
                (devopsGetter_List a) Fixtures.event0 Fixtures.world0)
      as (w' & Hrun & _ & _ & _ & Hins & _).
    exists w'. split; [exact Hrun|]. destruct (Hins Hfree) as (Hq & _). exact Hq.
  - destruct (cacheEvent_inserts_or_drops (Fixtures.webhook_at "Metadata")
                (devopsGetter_List a) Fixtures.event0 full)
      as (w' & Hrun & _ & _ & _ & _ & Hdrop).
    exists w'. split; [exact Hrun|]. destruct (Hdrop Hfull) as (Hq & Hl & _).
    split; [exact Hq|exact Hl].
Defined.

(* ===================================================================== *)
(** ** The response side and the whole request cycle                     *)
(* ===================================================================== *)

Section ResponseFacts.
Context `{LIB : Libraries} {W : Type} `{RW : http_ResponseWriter W}.

(** With an event and a capture at hand, [LogResponseObject] returns;
    this is what it leaves in the event and in the world. *)
Lemma LogResponseObject_event (a : auditing) (e : Event)
      (c : Capture.ResponseCapture W) (w : World) :
  exists e' w',
    LogResponseObject a (Some e) (Some c) w = Ret e' w' /\
    cacheEvent a e' w = Ret tt w' /\
    Level e' = Level e /\
    RequestObject e' = RequestObject e /\
    ResponseObject e' =
      (if GreaterOrEqual (Level e) LevelRequestResponse
       then Some (Capture.Bytes c) else ResponseObject e) /\
    ResponseStatus e' = Some (int32 (Capture.StatusCode c)) /\
    StageTimestamp e' = clock w.
Proof.
  unfold LogResponseObject, bind, NowMicro, deref, ret. simpl.
  match goal with
  | |- context [cacheEvent a ?ev w] =>
      destruct (cacheEvent_returns a ev w) as [w' Hq]; rewrite Hq
  end.
  eexists. exists w'. split; [reflexivity|]. split; [exact Hq|].
  destruct (GreaterOrEqual (Level e) LevelRequestResponse); repeat split; reflexivity.
Qed.

(** C3, as amended: [LogResponseObject] has no guard for a nil event.
    Given nil it stops with a nil-dereference panic on the first store
    into the event, before it reaches the queue: the world, and so the
    queue and the log, are as they were.  Given an event and a capture
    it returns normally. *)
Theorem LogResponseObject_needs_an_event (a : auditing) :
  (forall (resp : option (Capture.ResponseCapture W)) (w : World),
      LogResponseObject a None resp w = Panic NilDereference w) /\
  (forall (e : Event) (c : Capture.ResponseCapture W) (w : World),
      returns (LogResponseObject a (Some e) (Some c) w) = true).
Proof.
  split.
  - intros resp w. reflexivity.
  - intros e c w.
    destruct (LogResponseObject_event a e c w) as (e' & w' & Hrun & _).
    rewrite Hrun. reflexivity.
Qed.

(** C1, as amended: for a Kubernetes request that carries the dryRun
    query parameter, [LogRequestObject] returns nil; it leaves the
    request alone, logs the path at verbosity 6 and puts nothing on the
    queue. *)
Theorem LogRequestObject_ignores_kubernetes_dryRun
        (a : auditing) (req : Request) (info : RequestInfo.t) (w : World)
        (v : string) (vs : list string) :
  RequestInfo.IsKubernetesRequest info = true ->
  URL_Query req !! "dryRun" = Some (v :: vs) ->
  exists w',
    LogRequestObject a req info w = Ret (None, req) w' /\
    cache w' = cache w /\
    klog w' = klog w ++ [LogInfo 6 (String.append "ignore dryRun request " (URL_Path req))].
Proof.
  intros Hk8s Hdry. unfold LogRequestObject, len_dryRun.
  rewrite Hk8s, Hdry. simpl.
  eexists. split; [reflexivity|]. split; reflexivity.
Qed.

(** C5: take an event returned by [LogRequestObject] and finalized by
    [LogResponseObject], the handler in between having kept its level
    and snapshots.  Its request snapshot is present exactly when the
    level is at least Request, the body-inspection gate fired and the
    body was read without error; its response snapshot is present
    exactly when the level is at least RequestResponse. *)
Theorem snapshots_follow_level
        (a : auditing) (req req' : Request) (info : RequestInfo.t)
        (e e1 efinal : Event) (c : Capture.ResponseCapture W)
        (w w1 w2 w3 : World) :
  LogRequestObject a req info w = Ret (Some e, req') w1 ->
  handler_keeps e e1 ->
  LogResponseObject a (Some e1) (Some c) w2 = Ret efinal w3 ->
  (is_Some (RequestObject efinal) <->
     GreaterOrEqual (Level efinal) LevelRequest = true /\
     body_inspection_gate req info (Level efinal) = true /\
     body_readable (Body req) = true) /\
  (is_Some (ResponseObject efinal) <->
     GreaterOrEqual (Level efinal) LevelRequestResponse = true).
Proof.
  intros Hreq (HL & HQ & HS) Hresp.
  apply LogRequestObject_event in Hreq as (_ & HS0 & Hgate).
  destruct (LogResponseObject_event a e1 c w2) as (e' & w' & Hrun & _ & L' & Q' & S' & _).
  rewrite Hrun in Hresp. inversion Hresp; subst e' w'; clear Hresp.
  rewrite L', HL. rewrite Q', HQ. rewrite S', HS, HL, HS0.
  split.
  - unfold body_readable.
    destruct (body_inspection_gate req info (Level e)).
    + destruct (io_ReadAll (Body req)) as [[body [msg|]] drained]; simpl;
        destruct Hgate as [-> _].
      * split; [intros [x Hx]; discriminate|intros (_ & _ & Hf); discriminate].
      * destruct (GreaterOrEqual (Level e) LevelRequest).
        -- split; [auto|intros _; eexists; reflexivity].
        -- split; [intros [x Hx]; discriminate|intros (Hf & _); discriminate].
    + destruct Hgate as [-> _].
      split; [intros [x Hx]; discriminate|intros (_ & Hf & _); discriminate].
  - destruct (GreaterOrEqual (Level e) LevelRequestResponse).
    + split; [auto|intros _; eexists; reflexivity].
    + split; [intros [x Hx]; discriminate|intros Hf; discriminate].
Qed.


(** A request whose body is not inspected keeps the body it came with. *)
Lemma request_body_untouched
      (a : auditing) (req req' : Request) (info : RequestInfo.t)
      (e : Event) (w w' : World) :
  body_inspection_gate req info (Level e) = false ->
  LogRequestObject a req info w = Ret (Some e, req') w' ->
  req' = req.
Proof.
  intros Hgate Hreq.
  apply LogRequestObject_event in Hreq as (_ & _ & Hcase).
  rewrite Hgate in Hcase. apply Hcase.
Qed.

(** C10: a handler that returns without a call of [Write] or
    [WriteHeader] leaves the fresh capture with status code 0, not 200,
    and the event finalized from that capture has response status 0. *)
Theorem untouched_capture_reports_zero
        (a : auditing) (wr : W) (ops : list Capture.HandlerOp)
        (c : Capture.ResponseCapture W) (e : Event) (w : World) :
  forallb (fun op => negb (Capture.writes_response op)) ops = true ->
  Capture.run_handler ops (Capture.NewResponseCapture wr) = Ret tt c ->
  Capture.StatusCode c = 0 /\
  Capture.StatusCode c <> StatusOK /\
  exists efinal w',
    LogResponseObject a (Some e) (Some c) w = Ret efinal w' /\
    ResponseStatus efinal = Some 0.
Proof.
  intros Hops Hrun.
  destruct (run_handler_keeps_status ops Hops _ _ Hrun) as (Hs & _ & _).
  simpl in Hs. unfold Capture.StatusCode. rewrite Hs.
  split; [reflexivity|]. split; [discriminate|].
  destruct (LogResponseObject_event a e c w) as (e' & w' & Hfin & _ & _ & _ & _ & Hst & _).
  exists e', w'. split; [exact Hfin|].
  rewrite Hst. unfold Capture.StatusCode. rewrite Hs. reflexivity.
Qed.

End ResponseFacts.

(* ===================================================================== *)
(** ** The statements at concrete requests                               *)
(* ===================================================================== *)


(** A Kubernetes request with ?dryRun=All. *)
Lemma LogRequestObject_ignores_kubernetes_dryRun_witness :
  RequestInfo.IsKubernetesRequest (Fixtures.info true "create" "") = true /\
  URL_Query (Fixtures.request Runs.dry 0 Runs.no_body) !! "dryRun" = Some ["All"] /\
  exists w',
    Runs.log_request (Fixtures.auditing_ok "Metadata")
      (Fixtures.request Runs.dry 0 Runs.no_body) (Fixtures.info true "create" "")
      Fixtures.world0
    = Ret (None, Fixtures.request Runs.dry 0 Runs.no_body) w' /\
    cache w' = [].
Proof.
  split; [reflexivity|]. split; [reflexivity|].
  destruct (LogRequestObject_ignores_kubernetes_dryRun (LIB := Fixtures.libraries)
              (Fixtures.auditing_ok "Metadata")
              (Fixtures.request Runs.dry 0 Runs.no_body)
              (Fixtures.info true "create" "") Fixtures.world0 "All" []
              eq_refl eq_refl) as (w' & Hrun & Hq & _).
  exists w'. split; [exact Hrun|exact Hq].
Defined.

(** C1, as stated, fails: the same ?dryRun=All on a request that is not
    a Kubernetes request gets an event. *)
Lemma LogRequestObject_audits_other_dryRun :
  URL_Query (Fixtures.request Runs.dry 0 Runs.no_body) !! "dryRun" = Some ["All"] /\
  exists e req' w',
    Runs.log_request (Fixtures.auditing_ok "Metadata")
      (Fixtures.request Runs.dry 0 Runs.no_body) (Fixtures.info false "create" "")
      Fixtures.world0
    = Ret (Some e, req') w'.
Proof.
  split; [reflexivity|].
  do 3 eexists. vm_compute. reflexivity.
Qed.

(** C3, as stated, fails: on a nil event the call does not return. *)
Lemma LogResponseObject_nil_event_panics :
  Runs.finalize (Fixtures.auditing_ok "Metadata") None (Some Runs.capture0) Fixtures.world0
    = Panic NilDereference Fixtures.world0 /\
  returns (Runs.finalize (Fixtures.auditing_ok "Metadata") None (Some Runs.capture0)
             Fixtures.world0) = false.
Proof. split; reflexivity. Qed.

(** C4: the event names the devops project "project-a" and no workspace,
    and the registry's List fails with a nil result.  The error is
    logged, and the next statement ranges over the items of the nil
    result: the call panics and no event is returned. *)
Theorem LogRequestObject_list_error_panics :
  let i := Fixtures.info false "get" "project-a" in
  let req := Fixtures.request ∅ 0 Runs.no_body in
  (0 <? len (RequestInfo.DevOps i)) && (len (RequestInfo.Workspace i) =? 0) = true /\
  devopsGetter_List (Fixtures.auditing_list_fails "Metadata") "" query_New
    = (None, Some "devops informer is not synced") /\
  Runs.log_request (Fixtures.auditing_list_fails "Metadata") req i Fixtures.world0
    = Panic NilDereference
        (with_uuids 1 (with_klog [LogError "devops informer is not synced"] Fixtures.world0)).
Proof. repeat split. Qed.

(** With the same request and a registry that answers, the event is
    returned with the workspace of the project. *)
Lemma LogRequestObject_list_ok :
  exists e req' w',
    Runs.log_request (Fixtures.auditing_ok "Metadata")
      (Fixtures.request ∅ 0 Runs.no_body) (Fixtures.info false "get" "project-a")
      Fixtures.world0
    = Ret (Some e, req') w' /\
    Workspace e = "ws-1" /\ Devops e = "project-a".
Proof. do 3 eexists. vm_compute. repeat split. Qed.

(** A create request with body "hello" at level RequestResponse: both
    snapshots are present. *)
Lemma snapshots_follow_level_witness :
  Runs.log_request Runs.audit_all Runs.create_request Runs.create_info Fixtures.world0
    = Ret (Some Runs.created_event, Runs.created_request) Runs.created_world /\
  handler_keeps Runs.created_event Runs.created_event /\
  Runs.finalize Runs.audit_all (Some Runs.created_event) (Some Runs.answered) Runs.created_world
    = Ret Runs.final_event Runs.final_world /\
  RequestObject Runs.final_event = Some Fixtures.hello /\
  ResponseObject Runs.final_event = Some Fixtures.hello /\
  (is_Some (RequestObject Runs.final_event) <->
     GreaterOrEqual (Level Runs.final_event) LevelRequest = true /\
     body_inspection_gate Runs.create_request Runs.create_info (Level Runs.final_event) = true /\
     body_readable (Body Runs.create_request) = true) /\
  (is_Some (ResponseObject Runs.final_event) <->
     GreaterOrEqual (Level Runs.final_event) LevelRequestResponse = true).
Proof.
  assert (H1 : Runs.log_request Runs.audit_all Runs.create_request Runs.create_info
                 Fixtures.world0
               = Ret (Some Runs.created_event, Runs.created_request) Runs.created_world)
    by (vm_compute; reflexivity).
  assert (H2 : handler_keeps Runs.created_event Runs.created_event)
    by (repeat split; reflexivity).
  assert (H3 : Runs.finalize Runs.audit_all (Some Runs.created_event) (Some Runs.answered)
                 Runs.created_world
               = Ret Runs.final_event Runs.final_world)
    by (vm_compute; reflexivity).
  split; [exact H1|]. split; [exact H2|]. split; [exact H3|].
  split; [reflexivity|]. split; [reflexivity|].
  exact (snapshots_follow_level (LIB := Fixtures.libraries) _ _ _ _ _ _ _ _ _ _ _ _ H1 H2 H3).
Defined.


(** A handler that only reads from a capture over a recorder. *)
Lemma untouched_capture_reports_zero_witness :
  forallb (fun op => negb (Capture.writes_response op)) Runs.silent_handler = true /\
  Capture.run_handler (RW := Fixtures.recorder_writer) Runs.silent_handler Runs.capture0
    = Ret tt Runs.capture0 /\
  Capture.StatusCode Runs.capture0 = 0 /\
  exists efinal w',
    Runs.finalize Runs.audit_all (Some Fixtures.event0) (Some Runs.capture0) Fixtures.world0
      = Ret efinal w' /\
    ResponseStatus efinal = Some 0.
Proof.
  assert (H1 : forallb (fun op => negb (Capture.writes_response op)) Runs.silent_handler = true)
    by reflexivity.
  assert (H2 : Capture.run_handler (RW := Fixtures.recorder_writer) Runs.silent_handler
                 Runs.capture0 = Ret tt Runs.capture0)
    by reflexivity.
  split; [exact H1|]. split; [exact H2|].
  destruct (untouched_capture_reports_zero (RW := Fixtures.recorder_writer)
              Runs.audit_all Fixtures.recorder_zero Runs.silent_handler Runs.capture0
              Fixtures.event0 Fixtures.world0 H1 H2) as (Hz & _ & Hfin).
  split; [exact Hz|exact Hfin].
Defined.

(* ===================================================================== *)
(** ** Further properties: the level policy                              *)
(* ===================================================================== *)

Lemma ordLevel_cases (l : audit_Level) :
  (l = LevelMetadata /\ ordLevel l = 1) \/
  (l = LevelRequest /\ ordLevel l = 2) \/
  (l = LevelRequestResponse /\ ordLevel l = 3) \/
  (l <> LevelMetadata /\ l <> LevelRequest /\ l <> LevelRequestResponse /\ ordLevel l = 0).
Proof.
  unfold ordLevel.
  destruct (String.eqb_spec l LevelMetadata) as [->|H1]; [left; split; reflexivity|].
  destruct (String.eqb_spec l LevelRequest) as [->|H2]; [right; left; split; reflexivity|].
  destruct (String.eqb_spec l LevelRequestResponse) as [->|H3];
    [right; right; left; split; reflexivity|].
  right; right; right. repeat split; assumption.
Qed.

(** X1: when the webhook lookup succeeds, [Enabled] changes nothing and
    answers true exactly for the levels Metadata, Request and
    RequestResponse; every other level string, "None" and misspellings
    alike, counts as auditing off. *)
Theorem Enabled_iff_named_level (a : auditing) (wh : Webhook) (w : World) :
  webhookLister_Get a DefaultWebhook = (Some wh, None) ->
  exists b,
    Enabled a w = Ret b w /\
    (b = true <->
       Spec_AuditLevel wh = LevelMetadata \/
       Spec_AuditLevel wh = LevelRequest \/
       Spec_AuditLevel wh = LevelRequestResponse).
Proof.
  intros Hget. unfold Enabled, getAuditLevel, bind. rewrite Hget. simpl.
  eexists. split; [reflexivity|].
  unfold Less. rewrite negb_true_iff, Z.ltb_ge.
  change (ordLevel LevelMetadata) with 1.
  destruct (ordLevel_cases (Spec_AuditLevel wh))
    as [[-> Ho]|[[-> Ho]|[[-> Ho]|(N1 & N2 & N3 & Ho)]]].
  - split; auto. intros _. vm_compute. discriminate.
  - split; auto. intros _. vm_compute. discriminate.
  - split; auto. intros _. vm_compute. discriminate.
  - rewrite Ho. split; [lia|]. intros [H|[H|H]]; contradiction.
Qed.

Lemma Enabled_iff_named_level_witness :
  webhookLister_Get (Fixtures.auditing_ok "metadata") DefaultWebhook
    = (Some {| Spec_AuditLevel := "metadata"; Spec_K8sAuditingEnabled := false |}, None) /\
  Enabled (Fixtures.auditing_ok "metadata") Fixtures.world0 = Ret false Fixtures.world0 /\
  Enabled (Fixtures.auditing_ok "Request") Fixtures.world0 = Ret true Fixtures.world0.
Proof.
  split; [reflexivity|].
  destruct (Enabled_iff_named_level (Fixtures.auditing_ok "metadata")
              {| Spec_AuditLevel := "metadata"; Spec_K8sAuditingEnabled := false |}
              Fixtures.world0 eq_refl) as (b & Hrun & Hiff).
  split; [|reflexivity].
  rewrite Hrun. destruct b; [|reflexivity].
  destruct (proj1 Hiff eq_refl) as [H|[H|H]]; discriminate H.
Defined.

(** X2: when the webhook lookup fails, the failure is swallowed: the
    level is None, [Enabled] and [K8sAuditingEnabled] answer false, each
    call logs the error at verbosity 8, and nothing else of the world
    changes. *)
Theorem lookup_failure_disables (a : auditing) (wh : option Webhook) (msg : string) (w : World) :
  webhookLister_Get a DefaultWebhook = (wh, Some msg) ->
  let w' := with_klog (klog w ++ [LogInfo 8 msg]) w in
  getAuditLevel a w = Ret LevelNone w' /\
  Enabled a w = Ret false w' /\
  K8sAuditingEnabled a w = Ret false w'.
Proof.
  intros Hget. unfold Enabled, K8sAuditingEnabled, getAuditLevel, bind.
  rewrite Hget. repeat split.
Qed.

Lemma lookup_failure_disables_witness :
  let a := NewAuditing (fun _ => (None, Some "webhook not found"))
                       (fun _ _ => (None, None)) in
  webhookLister_Get a DefaultWebhook = (None, Some "webhook not found") /\
  Enabled a Fixtures.world0
    = Ret false (with_klog [LogInfo 8 "webhook not found"] Fixtures.world0).
Proof.
  intros a. split; [reflexivity|].
  exact (proj1 (proj2 (lookup_failure_disables a None "webhook not found"
                         Fixtures.world0 eq_refl))).
Defined.

(* ===================================================================== *)
(** ** Further properties: the request side                              *)
(* ===================================================================== *)

Section RequestRuns.
Context `{LIB : Libraries}.

(** A run of [LogRequestObject] that returns an event, step by step. *)
Lemma LogRequestObject_steps (a : auditing) (req req' : Request) (info : RequestInfo.t)
      (e : Event) (w w' : World) :
  LogRequestObject a req info w = Ret (Some e, req') w' ->
  exists level w1 e1 w2,
    getAuditLevel a w = Ret level w1 /\
    lookup_workspace a
      (initial_event req info level (uuid_String (uuids w1)) (clock w1))
      (with_uuids (S (uuids w1)) w1) = Ret e1 w2 /\
    let emid := copy_user req (set_SourceIPs [RemoteIp req] e1) in
    if body_inspection_gate req info level then
      match io_ReadAll (Body req) with
      | ((_, Some msg), drained) =>
          e = emid /\ req' = set_Body drained req /\
          w' = with_klog (klog w2 ++ [LogError msg]) w2
      | ((body, None), _) =>
          exists e2,
            name_from_body info body
              (if GreaterOrEqual level LevelRequest
               then set_RequestObject (Some body) emid else emid) w2 = Ret e2 w2 /\
            relabel_user_update body e2 w2 = Ret e w2 /\
            req' = set_Body (NopCloser body) req /\ w' = w2
      end
    else e = emid /\ req' = req /\ w' = w2.
Proof.
  unfold LogRequestObject. intros Hrun.
  destruct (_ && _).
  { bind_inv Hrun. ret_inv Hrun. }
  bind_step Hrun as level w1 Elevel.
  bind_step Hrun as id w2 Eid. unfold uuid_New_String in Eid. ret_inv Eid.
  bind_step Hrun as now w3 Enow. unfold NowMicro in Enow. ret_inv Enow.
  bind_step Hrun as e1 w4 Elookup.
  exists level, w1, e1, w4.
  split; [reflexivity|]. split; [exact Elookup|].
  pose proof (lookup_workspace_untouched _ _ _ _ _ Elookup) as [Hu _].
  cbv zeta.
  set (emid := copy_user req (set_SourceIPs [RemoteIp req] e1)) in *.
  assert (Hmid : untouched e1 emid).
  { eapply untouched_trans; [|apply copy_user_untouched].
    unfold untouched. repeat split; reflexivity. }
  destruct (untouched_trans _ _ _ Hu Hmid) as (HL & HV & HO & _). simpl in HL, HV, HO.
  unfold bind in Hrun at 1.
  rewrite (needAnalyzeRequestBody_gate a emid req info _ w4 HV HO eq_refl) in Hrun.
  rewrite HL in Hrun.
  destruct (body_inspection_gate req info level).
  - destruct (io_ReadAll (Body req)) as [[body [msg|]] drained].
    + bind_step Hrun as u w5 Elog. ret_inv Hrun.
      unfold klog_Error, modify in Elog. inversion Elog; subst. auto.
    + bind_step Hrun as e2 w5 Ename. bind_step Hrun as e3 w6 Erelabel. ret_inv Hrun.
      pose proof (name_from_body_keeps _ _ _ _ _ _ Ename) as (_ & _ & _ & ->).
      pose proof (relabel_user_update_keeps _ _ _ _ _ Erelabel) as (_ & _ & _ & ->).
      exists e2. auto.
  - ret_inv Hrun. auto.
Qed.

End RequestRuns.

(** The loop over the items writes [Devops] and [Workspace] and nothing
    else. *)
Lemma range_Items_frame (items : list Item) :
  forall (e e' : Event) (w w' : World),
    range_Items items e w = Ret e' w' ->
    e' = set_Devops (Devops e') (set_Workspace (Workspace e') e).
Proof.
  induction items as [|obj rest IH]; intros e e' w w' Hrun; simpl in Hrun.
  - ret_inv Hrun. destruct e'; reflexivity.
  - bind_step Hrun as d w1 Eobj.
    apply IH in Hrun. rewrite Hrun.
    destruct (String.eqb _ _); [|destruct (String.eqb _ _)]; reflexivity.
Qed.

(** The loop ends either without a match, the event as it was, or with
    the name and the workspace label of one of the listed projects. *)
Lemma range_Items_attribution (items : list Item) :
  forall (e e' : Event) (w w' : World),
    range_Items items e w = Ret e' w' ->
    (e' = e /\
     forall d, In (ItemDevOpsProject (Some d)) items -> project_matches (Devops e) d = false)
    \/
    (exists d, In (ItemDevOpsProject (Some d)) items /\
               Devops e' = DevOpsProject.Name d /\ Workspace e' = project_label d).
Proof.
  induction items as [|obj rest IH]; intros e e' w w' Hrun; simpl in Hrun.
  - ret_inv Hrun. left. split; [reflexivity|]. intros d [].
  - bind_step Hrun as d w1 Eobj.
    destruct obj as [[d0|]|k]; simpl in Eobj; try discriminate. ret_inv Eobj.
    fold (project_label d) in Hrun.
    destruct (String.eqb (DevOpsProject.Name d) (Devops e)) eqn:Hname.
    + right. apply String.eqb_eq in Hname.
      destruct (IH _ _ _ _ Hrun) as [[-> _]|(d' & Hin & Hd & Hw)].
      * exists d. split; [left; reflexivity|]. simpl. auto.
      * exists d'. split; [right; exact Hin|auto].
    + destruct (String.eqb (DevOpsProject.Status_AdminNamespace d) (Devops e)) eqn:Halias.
      * right.
        destruct (IH _ _ _ _ Hrun) as [[-> _]|(d' & Hin & Hd & Hw)].
        -- exists d. split; [left; reflexivity|]. simpl. auto.
        -- exists d'. split; [right; exact Hin|auto].
      * destruct (IH _ _ _ _ Hrun) as [[-> Hno]|(d' & Hin & Hd & Hw)].
        -- left. split; [reflexivity|].
           intros d' [Heq|Hin].
           ++ inversion Heq; subst. unfold project_matches. rewrite Hname, Halias. reflexivity.
           ++ apply Hno. exact Hin.
        -- right. exists d'. split; [right; exact Hin|auto].
Qed.

(** The loop returns exactly when every item is a pointer to a project. *)
Lemma range_Items_returns (items : list Item) :
  forall (e : Event) (w : World),
    returns (range_Items items e w) = true <->
    Forall (fun obj => exists d, obj = ItemDevOpsProject (Some d)) items.
Proof.
  induction items as [|obj rest IH]; intros e w; simpl.
  - split; [constructor|reflexivity].
  - unfold bind. destruct obj as [[d|]|k]; simpl.
    + rewrite IH. split.
      * intros H. constructor; [eexists; reflexivity|exact H].
      * intros H. inversion H; subst. assumption.
    + split; [discriminate|]. intros H. inversion H as [|? ? [d Hd] ?]. discriminate.
    + split; [discriminate|]. intros H. inversion H as [|? ? [d Hd] ?]. discriminate.
Qed.

Section RequestShapes.
Context `{LIB : Libraries}.

Lemma name_from_body_shape (info : RequestInfo.t) (body : bytes) (e e' : Event) (w w' : World) :
  name_from_body info body e w = Ret e' w' ->
  (e' = e /\
   (RequestInfo.Verb info <> "create" \/ json_Unmarshal_Object body = None)) \/
  (exists n o,
      RequestInfo.Verb info = "create" /\ json_Unmarshal_Object body = Some n /\
      ObjectRef e = Some o /\
      e' = set_ObjectRef (Some (ObjectReference.set_Name n o)) e).
Proof.
  unfold name_from_body. intros Hrun.
  destruct (String.eqb_spec (RequestInfo.Verb info) "create") as [Hc|Hc];
    [|ret_inv Hrun; left; auto].
  destruct (json_Unmarshal_Object body) as [n|]; [|ret_inv Hrun; left; auto].
  bind_step Hrun as o w1 Eo. destruct (ObjectRef e) as [o'|]; simpl in Eo; [|discriminate].
  ret_inv Eo. ret_inv Hrun. right. exists n, o. auto.
Qed.

Lemma relabel_user_update_shape (body : bytes) (e e' : Event) (w w' : World) :
  relabel_user_update body e w = Ret e' w' ->
  exists o, ObjectRef e = Some o /\
    ((e' = e /\
      (ObjectReference.Resource o <> "users" \/ Verb e <> "update" \/
       json_Unmarshal_User body = None \/
       exists st, json_Unmarshal_User body = Some st /\ st <> UserActive /\ st <> UserDisabled))
     \/
     (ObjectReference.Resource o = "users" /\ Verb e = "update" /\
      ((json_Unmarshal_User body = Some UserActive /\ e' = set_Verb "enable" e) \/
       (json_Unmarshal_User body = Some UserDisabled /\ e' = set_Verb "disable" e)))).
Proof.
  unfold relabel_user_update. intros Hrun.
  bind_step Hrun as o w1 Eo. destruct (ObjectRef e) as [o'|]; simpl in Eo; [|discriminate].
  ret_inv Eo. exists o. split; [reflexivity|].
  destruct (String.eqb_spec (ObjectReference.Resource o) "users") as [Hr|Hr]; simpl in Hrun;
    [|ret_inv Hrun; left; auto].
  destruct (String.eqb_spec (Verb e) "update") as [Hv|Hv]; simpl in Hrun;
    [|ret_inv Hrun; left; auto].
  destruct (json_Unmarshal_User body) as [st|]; [|ret_inv Hrun; left; auto].
  destruct (String.eqb_spec st UserActive) as [Ha|Ha].
  { ret_inv Hrun. right. auto. }
  destruct (String.eqb_spec st UserDisabled) as [Hd|Hd].
  { ret_inv Hrun. right. auto 6. }
  ret_inv Hrun. left. split; [reflexivity|]. right; right; right. exists st. auto.
Qed.

Lemma lookup_workspace_frame (a : auditing) (e e' : Event) (w w' : World) :
  lookup_workspace a e w = Ret e' w' ->
  e' = set_Devops (Devops e') (set_Workspace (Workspace e') e).
Proof.
  unfold lookup_workspace. intros Hrun.
  destruct (_ && _).
  - destruct (devopsGetter_List a "" query_New) as [res err].
    bind_step Hrun as u w1 Elog. bind_step Hrun as r w2 Eres.
    eapply range_Items_frame; exact Hrun.
  - ret_inv Hrun. destruct e'; reflexivity.
Qed.

End RequestShapes.

(** The identity block sets the four fields of [User] or none. *)
Lemma copy_user_shape (req : Request) (e : Event) :
  copy_user req e =
  set_User (match Context_User req with
            | Some u =>
                {| UserInfo.Username := user.GetName u;
                   UserInfo.UID := user.GetUID u;
                   UserInfo.Groups := user.GetGroups u;
                   UserInfo.Extra :=
                     Some (map_fold (fun k v (m : gmap string (list string)) => <[k:=v]> m)
                                    ∅ (user.GetExtra u)) |}
            | None => User e
            end) e.
Proof.
  unfold copy_user. destruct (Context_User req); [reflexivity|].
  destruct e; reflexivity.
Qed.

(** Splits a returned run of [LogRequestObject] into its cases, with the
    event written out in each. *)
Ltac request_cases Hrun :=
  let level := fresh "level" in
  let w1 := fresh "w1" in
  let e1 := fresh "e1" in
  let w2 := fresh "w2" in
  let Hlevel := fresh "Hlevel" in
  let Hlookup := fresh "Hlookup" in
  let Hrest := fresh "Hrest" in
  let Hframe := fresh "Hframe" in
  let Hgate := fresh "Hgate" in
  let Hread := fresh "Hread" in
  apply LogRequestObject_steps in Hrun
    as (level & w1 & e1 & w2 & Hlevel & Hlookup & Hrest);
  pose proof (lookup_workspace_frame _ _ _ _ _ Hlookup) as Hframe;
  cbv zeta in Hrest;
  rewrite !copy_user_shape in Hrest;
  destruct (body_inspection_gate _ _ level) eqn:Hgate;
  [ destruct (io_ReadAll (Body _)) as [[?body [?msg|]] ?drained] eqn:Hread;
    [ destruct Hrest as (-> & -> & ->)
    | let e2 := fresh "e2" in
      let Hname := fresh "Hname" in
      let Hverb := fresh "Hverb" in
      let o := fresh "o" in
      let Ho := fresh "Ho" in
      destruct Hrest as (e2 & Hname & Hverb & -> & ->);
      apply relabel_user_update_shape in Hverb as (o & Ho & Hverb);
      apply name_from_body_shape in Hname ]
  | destruct Hrest as (-> & -> & ->) ].

Lemma log_and_uuids_only_refl (w : World) : log_and_uuids_only w w.
Proof.
  exists [], (uuids w). split; [|lia].
  rewrite app_nil_r. destruct w; reflexivity.
Qed.

Lemma log_and_uuids_only_trans (w1 w2 w3 : World) :
  log_and_uuids_only w1 w2 -> log_and_uuids_only w2 w3 -> log_and_uuids_only w1 w3.
Proof.
  intros (l1 & n1 & -> & H1) (l2 & n2 & -> & H2).
  exists (l1 ++ l2), n2. simpl in *. split; [|lia].
  unfold with_uuids, with_klog. simpl. rewrite app_assoc. reflexivity.
Qed.

Lemma stays_ret {A : Type} (x : A) : stays_within log_and_uuids_only (ret x).
Proof. intros w. apply log_and_uuids_only_refl. Qed.

Lemma stays_panic {A : Type} (p : PanicValue) :
  stays_within log_and_uuids_only (@panic World A p).
Proof. intros w. apply log_and_uuids_only_refl. Qed.

Lemma stays_deref {A : Type} (p : option A) :
  stays_within log_and_uuids_only (@deref World A p).
Proof. destruct p; [apply stays_ret|apply stays_panic]. Qed.

Lemma stays_bind {A B : Type} (m : M World A) (k : A -> M World B) :
  stays_within log_and_uuids_only m ->
  (forall x, stays_within log_and_uuids_only (k x)) ->
  stays_within log_and_uuids_only (bind m k).
Proof.
  intros Hm Hk w. unfold bind. specialize (Hm w).
  destruct (m w) as [x w1|p w1]; simpl in *; [|exact Hm].
  eapply log_and_uuids_only_trans; [exact Hm|apply Hk].
Qed.

Lemma stays_klog_V_Info (v : Z) (msg : string) :
  stays_within log_and_uuids_only (klog_V_Info v msg).
Proof.
  intros w. exists [LogInfo v msg], (uuids w). split; [|lia].
  destruct w; reflexivity.
Qed.

Lemma stays_klog_Error (msg : string) :
  stays_within log_and_uuids_only (klog_Error msg).
Proof.
  intros w. exists [LogError msg], (uuids w). split; [|lia].
  destruct w; reflexivity.
Qed.

Lemma stays_getAuditLevel (a : auditing) :
  stays_within log_and_uuids_only (getAuditLevel a).
Proof.
  unfold getAuditLevel. destruct (webhookLister_Get a DefaultWebhook) as [wh [msg|]].
  - apply stays_bind; [apply stays_klog_V_Info|intros; apply stays_ret].
  - apply stays_bind; [apply stays_deref|intros; apply stays_ret].
Qed.

Lemma stays_range_Items (items : list Item) :
  forall e, stays_within log_and_uuids_only (range_Items items e).
Proof.
  induction items as [|obj rest IH]; intros e; simpl.
  - apply stays_ret.
  - apply stays_bind; [|intros; apply IH].
    destruct obj; simpl; [apply stays_deref|apply stays_panic].
Qed.

Section RequestExtras.
Context `{LIB : Libraries}.

Lemma stays_lookup_workspace (a : auditing) (e : Event) :
  stays_within log_and_uuids_only (lookup_workspace a e).
Proof.
  unfold lookup_workspace. destruct (_ && _); [|apply stays_ret].
  destruct (devopsGetter_List a "" query_New) as [res err].
  apply stays_bind.
  - destruct err; [apply stays_klog_Error|apply stays_ret].
  - intros _. apply stays_bind; [apply stays_deref|intros; apply stays_range_Items].
Qed.

Lemma stays_needAnalyzeRequestBody (a : auditing) (e : Event) (req : Request) :
  stays_within log_and_uuids_only (needAnalyzeRequestBody a e req).
Proof.
  unfold needAnalyzeRequestBody.
  destruct (_ <=? _); [apply stays_ret|].
  destruct (GreaterOrEqual _ _); [apply stays_ret|].
  destruct (String.eqb _ _); [apply stays_ret|].
  apply stays_bind; [apply stays_deref|].
  intros o. destruct (_ && _); apply stays_ret.
Qed.

Lemma stays_name_from_body (info : RequestInfo.t) (body : bytes) (e : Event) :
  stays_within log_and_uuids_only (name_from_body info body e).
Proof.
  unfold name_from_body. destruct (String.eqb _ _); [|apply stays_ret].
  destruct (json_Unmarshal_Object body); [|apply stays_ret].
  apply stays_bind; [apply stays_deref|intros; apply stays_ret].
Qed.

Lemma stays_relabel_user_update (body : bytes) (e : Event) :
  stays_within log_and_uuids_only (relabel_user_update body e).
Proof.
  unfold relabel_user_update.
  apply stays_bind; [apply stays_deref|]. intros o.
  destruct (_ && _); [|apply stays_ret].
  destruct (json_Unmarshal_User body); [|apply stays_ret].
  destruct (String.eqb _ _); [apply stays_ret|].
  destruct (String.eqb _ _); apply stays_ret.
Qed.

(** X4: [LogRequestObject] never touches the delivery queue.  However
    the call ends, with an event, with nil or in a panic, the world it
    leaves differs from the one it found only by lines appended to the
    log and by identifiers drawn: queue and clock are as before. *)
Theorem LogRequestObject_leaves_queue_alone
        (a : auditing) (req : Request) (info : RequestInfo.t) (w : World) :
  let w' := world_of (LogRequestObject a req info w) in
  cache w' = cache w /\ clock w' = clock w /\
  recv_delay w' = recv_delay w /\ select_coin w' = select_coin w /\
  (exists l, klog w' = klog w ++ l) /\
  (uuids w <= uuids w')%nat.
Proof.
  assert (Hstay : stays_within log_and_uuids_only (LogRequestObject a req info)).
  { unfold LogRequestObject. destruct (_ && _).
    { apply stays_bind; [apply stays_klog_V_Info|intros; apply stays_ret]. }
    apply stays_bind; [apply stays_getAuditLevel|]. intros level.
    apply stays_bind.
    { intros w0. exists [], (S (uuids w0)). split; [|lia].
      simpl. rewrite app_nil_r. destruct w0; reflexivity. }
    intros id. apply stays_bind; [intros w0; apply log_and_uuids_only_refl|]. intros now.
    apply stays_bind; [apply stays_lookup_workspace|]. intros e1.
    apply stays_bind; [apply stays_needAnalyzeRequestBody|]. intros [|]; [|apply stays_ret].
    destruct (io_ReadAll (Body req)) as [[body [msg|]] drained].
    - apply stays_bind; [apply stays_klog_Error|intros; apply stays_ret].
    - apply stays_bind; [apply stays_name_from_body|]. intros e2.
      apply stays_bind; [apply stays_relabel_user_update|intros; apply stays_ret]. }
  intros w'. destruct (Hstay w) as (l & n & Hw & Hn). fold w' in Hw.
  rewrite Hw. simpl. repeat split; try reflexivity; [exists l; reflexivity|exact Hn].
Qed.

Lemma getAuditLevel_cases (a : auditing) (level : audit_Level) (w w1 : World) :
  getAuditLevel a w = Ret level w1 ->
  (exists wh, webhookLister_Get a DefaultWebhook = (Some wh, None) /\
              level = Spec_AuditLevel wh /\ w1 = w) \/
  (exists wh msg, webhookLister_Get a DefaultWebhook = (wh, Some msg) /\
                  level = LevelNone /\ w1 = with_klog (klog w ++ [LogInfo 8 msg]) w).
Proof.
  unfold getAuditLevel.
  destruct (webhookLister_Get a DefaultWebhook) as [wh [msg|]]; intros Hrun.
  - bind_inv Hrun. ret_inv Hrun. unfold klog_V_Info, modify in *. inversion Heqr; subst.
    right. do 2 eexists. repeat split; reflexivity.
  - bind_inv Hrun. ret_inv Hrun. destruct wh as [wh|]; simpl in *; [|discriminate].
    ret_inv Heqr. left. eexists. repeat split; reflexivity.
Qed.

Lemma lookup_workspace_log (a : auditing) (e e' : Event) (w w' : World) :
  lookup_workspace a e w = Ret e' w' ->
  uuids w' = uuids w /\ clock w' = clock w.
Proof.
  unfold lookup_workspace. intros Hrun.
  destruct (_ && _); [|ret_inv Hrun; auto].
  destruct (devopsGetter_List a "" query_New) as [res err].
  bind_step Hrun as u w1 Elog. bind_step Hrun as r w2 Eres.
  apply range_Items_untouched in Hrun as [_ ->].
  destruct res; simpl in Eres; [|discriminate]. ret_inv Eres.
  destruct err; simpl in Elog.
  - unfold klog_Error, modify in Elog. inversion Elog; subst. auto.
  - ret_inv Elog. auto.
Qed.

Lemma getAuditLevel_log (a : auditing) (level : audit_Level) (w w1 : World) :
  getAuditLevel a w = Ret level w1 ->
  uuids w1 = uuids w /\ clock w1 = clock w.
Proof.
  intros Hrun.
  destruct (getAuditLevel_cases _ _ _ _ Hrun) as [(wh & _ & _ & ->)|(wh & msg & _ & _ & ->)];
    auto.
Qed.

(** Writes out the event of the case where the body was read. *)
Ltac body_cases Hname Hverb :=
  destruct Hname as [[-> _]|(?n & ?o' & _ & _ & ?Ho' & ->)];
  destruct Hverb as [[-> _]|(_ & _ & [[_ ->]|[_ ->]])].

(** X3: whatever enrichment does, the returned event carries the
    request's own data as it came: path, cluster, user agent, the single
    remote address, stage ResponseComplete, the identifier drawn for it,
    the clock as received-timestamp, the configured level, a non-nil
    object reference with the resource, namespace, group, version, scope
    and subresource of the request info, and no response data yet. *)
Theorem LogRequestObject_copies_request
        (a : auditing) (req req' : Request) (info : RequestInfo.t)
        (e : Event) (w w' : World) :
  LogRequestObject a req info w = Ret (Some e, req') w' ->
  exists level w1 o,
    getAuditLevel a w = Ret level w1 /\
    Level e = level /\
    AuditID e = uuid_String (uuids w) /\
    uuids w' = S (uuids w) /\
    RequestReceivedTimestamp e = clock w /\
    RequestURI e = RequestInfo.Path info /\
    Cluster e = RequestInfo.Cluster info /\
    UserAgent e = UserAgent_ req /\
    SourceIPs e = [RemoteIp req] /\
    Stage e = StageResponseComplete /\
    ImpersonatedUser e = None /\ Annotations e = None /\
    ResponseObject e = None /\ ResponseStatus e = None /\ StageTimestamp e = 0 /\
    ObjectRef e = Some o /\
    ObjectReference.Resource o = RequestInfo.Resource info /\
    ObjectReference.Namespace o = RequestInfo.Namespace info /\
    ObjectReference.APIGroup o = RequestInfo.APIGroup info /\
    ObjectReference.APIVersion o = RequestInfo.APIVersion info /\
    ObjectReference.ResourceVersion o = RequestInfo.ResourceScope info /\
    ObjectReference.Subresource o = RequestInfo.Subresource info /\
    ObjectReference.UID o = "".
Proof.
  intros Hrun. request_cases Hrun.
  all: destruct (getAuditLevel_log _ _ _ _ Hlevel) as (Hu1 & Hc1).
  all: destruct (lookup_workspace_log _ _ _ _ _ Hlookup) as (Hu2 & _); simpl in Hu2.
  all: exists level, w1.
  2: body_cases Hname Hverb.
  all: rewrite Hframe in *; clear Hframe.
  all: destruct (GreaterOrEqual level LevelRequest); simpl in *.
  all: try (injection Ho' as <-).
  all: eexists; rewrite ?Hu2, ?Hu1, ?Hc1; repeat split; try reflexivity; try assumption.
Qed.

Lemma log_of_returned_run (a : auditing) (req : Request) (info : RequestInfo.t)
      (level : audit_Level) (e0 e1 : Event) (w w1 w2 : World) :
  getAuditLevel a w = Ret level w1 ->
  lookup_workspace a e0 (with_uuids (S (uuids w1)) w1) = Ret e1 w2 ->
  exists l, klog w2 = klog w ++ l.
Proof.
  intros Hlevel Hlookup.
  pose proof (stays_getAuditLevel a w) as (l1 & n1 & H1 & _). rewrite Hlevel in H1. simpl in H1.
  pose proof (stays_lookup_workspace a e0 (with_uuids (S (uuids w1)) w1)) as (l2 & n2 & H2 & _).
  rewrite Hlookup in H2. simpl in H2.
  exists (l1 ++ l2). rewrite H2, H1. simpl. rewrite app_assoc. reflexivity.
Qed.

(** A run that returns nil went through the dry-run branch. *)
Lemma LogRequestObject_nil_run
      (a : auditing) (req req' : Request) (info : RequestInfo.t) (w w' : World) :
  LogRequestObject a req info w = Ret (None, req') w' ->
  RequestInfo.IsKubernetesRequest info = true /\
  (exists v vs, URL_Query req !! "dryRun" = Some (v :: vs)) /\
  req' = req.
Proof.
  unfold LogRequestObject. intros Hrun.
  destruct (RequestInfo.IsKubernetesRequest info && negb (len_dryRun req =? 0)) eqn:Hcond.
  - apply andb_prop in Hcond as [Hk8s Hdry]. bind_inv Hrun. ret_inv Hrun.
    split; [exact Hk8s|]. split; [|reflexivity].
    unfold len_dryRun in Hdry.
    destruct (URL_Query req' !! "dryRun") as [[|v vs]|]; simpl in Hdry; try discriminate.
    exists v, vs. reflexivity.
  - exfalso.
    bind_step Hrun as level w1 Elevel.
    bind_step Hrun as id w2 Eid.
    bind_step Hrun as now w3 Enow.
    bind_step Hrun as e1 w4 Elookup.
    bind_step Hrun as gate w5 Egate.
    destruct gate; [|ret_inv Hrun].
    destruct (io_ReadAll (Body req)) as [[body [msg|]] drained].
    + bind_step Hrun as u w6 Elog. ret_inv Hrun.
    + bind_step Hrun as e2 w6 Ename. bind_step Hrun as e3 w7 Everb. ret_inv Hrun.
Qed.

(** X5: nil has one meaning.  [LogRequestObject] returns a nil event
    only for a Kubernetes request that carries the dryRun parameter, and
    then the request is as it came. *)
Theorem nil_event_only_for_kubernetes_dryRun
        (a : auditing) (req req' : Request) (info : RequestInfo.t) (w w' : World) :
  LogRequestObject a req info w = Ret (None, req') w' ->
  RequestInfo.IsKubernetesRequest info = true /\
  (exists v vs, URL_Query req !! "dryRun" = Some (v :: vs)) /\
  req' = req.
Proof.
  intros Hrun. destruct (LogRequestObject_nil_run _ _ _ _ _ _ Hrun) as (Hk & Hq & Hreq).
  split; [exact Hk|]. split; [exact Hq|exact Hreq].
Qed.

(** A request declared empty fires no gate. *)
Lemma gate_needs_content (req : Request) (info : RequestInfo.t) (level : audit_Level) :
  ContentLength req <= 0 -> body_inspection_gate req info level = false.
Proof.
  intros Hlen. unfold body_inspection_gate.
  replace (0 <? ContentLength req) with false by (symmetry; apply Z.ltb_ge; exact Hlen).
  reflexivity.
Qed.

(** X6: a request whose declared content length is zero or negative
    (unknown) is never read, at any level and for any verb: the request
    leaves the call as it came, the event has no request snapshot, and
    verb and name are those of the request info. *)
Theorem no_content_no_inspection
        (a : auditing) (req req' : Request) (info : RequestInfo.t)
        (e : Event) (w w' : World) :
  ContentLength req <= 0 ->
  LogRequestObject a req info w = Ret (Some e, req') w' ->
  req' = req /\
  RequestObject e = None /\
  Verb e = RequestInfo.Verb info /\
  exists o, ObjectRef e = Some o /\ ObjectReference.Name o = RequestInfo.Name info.
Proof.
  intros Hlen Hrun. request_cases Hrun.
  1, 2: rewrite (gate_needs_content _ _ _ Hlen) in Hgate; discriminate.
  rewrite Hframe. simpl. repeat split. eexists. split; reflexivity.
Qed.

(** X7: when the gate fired and reading the body fails, the event is
    returned all the same, without request snapshot and with verb and
    name as the request info has them; the error is the last line
    logged; and the request keeps the body as the failed read left it,
    which is not put back. *)
Theorem failed_read_keeps_event
        (a : auditing) (req req' : Request) (info : RequestInfo.t)
        (e : Event) (w w' : World)
        (partial : bytes) (msg : string) (drained : ReadCloser) :
  io_ReadAll (Body req) = ((partial, Some msg), drained) ->
  body_inspection_gate req info (Level e) = true ->
  LogRequestObject a req info w = Ret (Some e, req') w' ->
  Body req' = drained /\
  RequestObject e = None /\
  Verb e = RequestInfo.Verb info /\
  (exists o, ObjectRef e = Some o /\ ObjectReference.Name o = RequestInfo.Name info) /\
  exists l, klog w' = klog w ++ l ++ [LogError msg].
Proof.
  intros Hfail Hfired Hrun. request_cases Hrun.
  - inversion Hfail; subst.
    destruct (log_of_returned_run _ req info _ _ _ _ _ _ Hlevel Hlookup) as (l & Hl).
    rewrite Hframe. simpl. repeat split.
    + eexists. split; reflexivity.
    + exists l. rewrite Hl, app_assoc. reflexivity.
  - discriminate Hfail.
  - rewrite Hframe in Hfired. simpl in Hfired. rewrite Hgate in Hfired. discriminate.
Qed.

(** X8: the verb of the event is the verb of the request info, except
    for an update of the resource "users" whose body was read and decodes
    to the state Active or Disabled: then, and only then, it is "enable"
    or "disable". *)
Theorem verb_relabelled_only_for_user_updates
        (a : auditing) (req req' : Request) (info : RequestInfo.t)
        (e : Event) (w w' : World) :
  LogRequestObject a req info w = Ret (Some e, req') w' ->
  Verb e = RequestInfo.Verb info \/
  (RequestInfo.Resource info = "users" /\ RequestInfo.Verb info = "update" /\
   0 < ContentLength req /\
   exists body,
     body_content (Body req) = (body, None) /\
     ((json_Unmarshal_User body = Some UserActive /\ Verb e = "enable") \/
      (json_Unmarshal_User body = Some UserDisabled /\ Verb e = "disable"))).
Proof.
  intros Hrun. request_cases Hrun.
  1, 3: left; rewrite Hframe; reflexivity.
  assert (Hlen : 0 < ContentLength req).
  { unfold body_inspection_gate in Hgate. apply andb_prop in Hgate as [Hlen _].
    apply Z.ltb_lt. exact Hlen. }
  assert (He2 : Verb e2 = RequestInfo.Verb info /\
                exists o2, ObjectRef e2 = Some o2 /\
                           ObjectReference.Resource o2 = RequestInfo.Resource info).
  { destruct Hname as [[-> _]|(n & o' & _ & _ & Ho' & ->)];
      rewrite Hframe in *; destruct (GreaterOrEqual level LevelRequest); simpl in *;
      (split; [reflexivity|]); eexists; (split; [reflexivity|]);
      try reflexivity; injection Ho' as <-; reflexivity. }
  destruct He2 as (Hv2 & o2 & Ho2 & Hr2).
  rewrite Ho2 in Ho. injection Ho as <-.
  destruct Hverb as [[-> _]|(Hr & Hv & Hstate)].
  - left. exact Hv2.
  - right. rewrite <- Hr2, <- Hv2. split; [exact Hr|]. split; [exact Hv|]. split; [exact Hlen|].
    exists body. unfold body_content. rewrite Hread. split; [reflexivity|].
    destruct Hstate as [[Hj ->]|[Hj ->]]; [left|right]; split; auto.
Qed.

(** X9: an update of "users" with a readable body is relabelled by the
    state the body decodes to, at every audit level: Active gives
    "enable", Disabled gives "disable", any other state or a body that
    does not decode leaves "update". *)
Theorem user_update_verb
        (a : auditing) (req req' : Request) (info : RequestInfo.t)
        (e : Event) (w w' : World) (body : bytes) :
  RequestInfo.Resource info = "users" ->
  RequestInfo.Verb info = "update" ->
  0 < ContentLength req ->
  body_content (Body req) = (body, None) ->
  LogRequestObject a req info w = Ret (Some e, req') w' ->
  Verb e =
    match json_Unmarshal_User body with
    | Some state =>
        if String.eqb state UserActive then "enable"
        else if String.eqb state UserDisabled then "disable"
        else "update"
    | None => "update"
    end.
Proof.
  intros Hres Hupd Hlen Hbody Hrun.
  assert (Hfire : forall level, body_inspection_gate req info level = true).
  { intros level. unfold body_inspection_gate. rewrite Hres, Hupd.
    replace (0 <? ContentLength req) with true by (symmetry; apply Z.ltb_lt; exact Hlen).
    simpl. apply orb_true_r. }
  request_cases Hrun.
  - unfold body_content in Hbody. rewrite Hread in Hbody. simpl in Hbody. discriminate.
  - unfold body_content in Hbody. rewrite Hread in Hbody. simpl in Hbody.
    injection Hbody as ->.
    assert (He2 : Verb e2 = "update" /\
                  exists o2, ObjectRef e2 = Some o2 /\ ObjectReference.Resource o2 = "users").
    { rewrite <- Hupd, <- Hres.
      destruct Hname as [[-> _]|(n & o' & _ & _ & Ho' & ->)];
        rewrite Hframe in *; destruct (GreaterOrEqual level LevelRequest); simpl in *;
        (split; [reflexivity|]); eexists; (split; [reflexivity|]);
        try reflexivity; injection Ho' as <-; reflexivity. }
    destruct He2 as (Hv2 & o2 & Ho2 & Hr2).
    rewrite Ho2 in Ho. injection Ho as <-.
    destruct Hverb as [[-> Hwhy]|(_ & _ & [[Hj ->]|[Hj ->]])].
    + rewrite Hv2. destruct Hwhy as [Hn|[Hn|[Hn|(st & Hj & Ha & Hd)]]];
        try contradiction.
      * rewrite Hn. reflexivity.
      * rewrite Hj.
        destruct (String.eqb_spec st UserActive); [contradiction|].
        destruct (String.eqb_spec st UserDisabled); [contradiction|]. reflexivity.
    + rewrite Hj. reflexivity.
    + rewrite Hj. reflexivity.
  - rewrite Hfire in Hgate. discriminate.
Qed.

(** X10: the name in the object reference.  For a "create" with content
    and a body that reads and decodes, it is the name decoded from the
    body, whatever the audit level and even when that name is empty; in
    every other case it is the name of the request info. *)
Theorem name_comes_from_created_body
        (a : auditing) (req req' : Request) (info : RequestInfo.t)
        (e : Event) (w w' : World) :
  LogRequestObject a req info w = Ret (Some e, req') w' ->
  exists o,
    ObjectRef e = Some o /\
    ObjectReference.Name o =
      (if String.eqb (RequestInfo.Verb info) "create" && (0 <? ContentLength req) then
         match body_content (Body req) with
         | (body, None) => default (RequestInfo.Name info) (json_Unmarshal_Object body)
         | (_, Some _) => RequestInfo.Name info
         end
       else RequestInfo.Name info).
Proof.
  intros Hrun. request_cases Hrun.
  - unfold body_content. rewrite Hread. simpl.
    rewrite Hframe. simpl. eexists. split; [reflexivity|]. simpl.
    destruct (_ && _); reflexivity.
  - unfold body_content. rewrite Hread. simpl.
    assert (Hlen : (0 <? ContentLength req) = true).
    { unfold body_inspection_gate in Hgate. apply andb_prop in Hgate as [Hlen _]. exact Hlen. }
    rewrite Hlen, andb_true_r.
    assert (He2 : exists o2, ObjectRef e2 = Some o2 /\
              ObjectReference.Name o2 =
                (if String.eqb (RequestInfo.Verb info) "create"
                 then default (RequestInfo.Name info) (json_Unmarshal_Object body)
                 else RequestInfo.Name info)).
    { destruct Hname as [[-> Hwhy]|(n & o' & Hc & Hj & Ho' & ->)].
      - rewrite Hframe. destruct (GreaterOrEqual level LevelRequest); simpl;
          (eexists; split; [reflexivity|]); simpl;
          (destruct Hwhy as [Hn|Hn];
           [destruct (String.eqb_spec (RequestInfo.Verb info) "create");
              [contradiction|reflexivity]
           |rewrite Hn; simpl; destruct (String.eqb _ _); reflexivity]).
      - simpl. eexists. split; [reflexivity|]. simpl. rewrite Hc, Hj. reflexivity. }
    destruct He2 as (o2 & Ho2 & Hn2).
    exists o2. rewrite <- Hn2.
    destruct Hverb as [[-> _]|(_ & _ & [[_ ->]|[_ ->]])]; simpl; auto.
  - rewrite Hframe. simpl. eexists. split; [reflexivity|]. simpl.
    unfold body_inspection_gate in Hgate.
    destruct (String.eqb (RequestInfo.Verb info) "create"); simpl; [|reflexivity].
    destruct (0 <? ContentLength req); [|reflexivity].
    simpl in Hgate. rewrite orb_true_r in Hgate. discriminate.
Qed.

(** Copying a map entry by entry gives the map. *)
Lemma map_copy_id (m : gmap string (list string)) :
  map_fold (fun k v (acc : gmap string (list string)) => <[k:=v]> acc) ∅ m = m.
Proof.
  apply (map_fold_weak_ind (fun r m => r = m)); [reflexivity|].
  intros k v m' r _ ->. reflexivity.
Qed.

(** X11: the identity of the request context is copied into the event
    as it is: name, uid, groups, and an extra map with exactly the
    entries of the identity's; without an identity the user of the event
    is empty and its extra map nil. *)
Theorem identity_is_copied
        (a : auditing) (req req' : Request) (info : RequestInfo.t)
        (e : Event) (w w' : World) :
  LogRequestObject a req info w = Ret (Some e, req') w' ->
  User e =
    match Context_User req with
    | Some u =>
        {| UserInfo.Username := user.GetName u;
           UserInfo.UID := user.GetUID u;
           UserInfo.Groups := user.GetGroups u;
           UserInfo.Extra := Some (user.GetExtra u) |}
    | None => UserInfo.zero
    end.
Proof.
  intros Hrun. request_cases Hrun.
  2: body_cases Hname Hverb.
  all: rewrite Hframe; destruct (GreaterOrEqual level LevelRequest); simpl.
  all: destruct (Context_User req); [rewrite map_copy_id|]; reflexivity.
Qed.

Lemma len_positive (s : string) : (0 <? len s) = true <-> s <> "".
Proof.
  unfold len. rewrite Z.ltb_lt. destruct s; simpl; split; intros H; try lia; congruence.
Qed.

Lemma len_zero (s : string) : (len s =? 0) = true <-> s = "".
Proof.
  unfold len. rewrite Z.eqb_eq. destruct s; simpl; split; intros H; try lia; congruence.
Qed.

(** The lookup ends without a change, or with the name and the workspace
    label of a project of the list. *)
Lemma lookup_workspace_attribution (a : auditing) (e e' : Event) (w w' : World) :
  lookup_workspace a e w = Ret e' w' ->
  (e' = e /\
   (Devops e <> "" -> Workspace e = "" ->
    exists r, fst (devopsGetter_List a "" query_New) = Some r /\
      forall d, In (ItemDevOpsProject (Some d)) (Items r) ->
                project_matches (Devops e) d = false))
  \/
  (Devops e <> "" /\ Workspace e = "" /\
   exists r d, fst (devopsGetter_List a "" query_New) = Some r /\
     In (ItemDevOpsProject (Some d)) (Items r) /\
     Devops e' = DevOpsProject.Name d /\ Workspace e' = project_label d).
Proof.
  unfold lookup_workspace. intros Hrun.
  destruct (_ && _) eqn:Hneeded.
  - apply andb_prop in Hneeded as [Hd Hw].
    apply len_positive in Hd. apply len_zero in Hw.
    destruct (devopsGetter_List a "" query_New) as [res err].
    bind_step Hrun as u w1 Elog. bind_step Hrun as r w2 Eres.
    destruct res as [r'|]; simpl in Eres; [|discriminate]. ret_inv Eres.
    destruct (range_Items_attribution _ _ _ _ _ Hrun) as [[-> Hno]|(d & Hin & Hdv & Hws)].
    + left. split; [reflexivity|]. intros _ _. exists r. auto.
    + right. split; [exact Hd|]. split; [exact Hw|]. exists r, d. auto.
  - ret_inv Hrun. left. split; [reflexivity|]. intros Hd Hw.
    apply len_positive in Hd. apply len_zero in Hw. rewrite Hd, Hw in Hneeded. discriminate.
Qed.

(** X12: workspace attribution.  The project id and the workspace of
    the event are those of the request info, which is also the outcome
    when the lookup ran and no listed project answers to the id by name
    or by admin namespace; or else the lookup ran (project id given,
    workspace not) and they are the name and the workspace label of one
    project of the registry's list. *)
Theorem workspace_comes_from_a_listed_project
        (a : auditing) (req req' : Request) (info : RequestInfo.t)
        (e : Event) (w w' : World) :
  LogRequestObject a req info w = Ret (Some e, req') w' ->
  (Devops e = RequestInfo.DevOps info /\ Workspace e = RequestInfo.Workspace info /\
   (RequestInfo.DevOps info <> "" -> RequestInfo.Workspace info = "" ->
    exists r, fst (devopsGetter_List a "" query_New) = Some r /\
      forall d, In (ItemDevOpsProject (Some d)) (Items r) ->
                project_matches (RequestInfo.DevOps info) d = false))
  \/
  (RequestInfo.DevOps info <> "" /\ RequestInfo.Workspace info = "" /\
   exists r d, fst (devopsGetter_List a "" query_New) = Some r /\
     In (ItemDevOpsProject (Some d)) (Items r) /\
     Devops e = DevOpsProject.Name d /\ Workspace e = project_label d).
Proof.
  intros Hrun. request_cases Hrun.
  2: body_cases Hname Hverb.
  all: apply lookup_workspace_attribution in Hlookup; simpl in Hlookup.
  all: destruct (GreaterOrEqual level LevelRequest); simpl.
  all: destruct Hlookup as [[Heq Hno]|(Hd & Hw & r & d & Hr & Hin & Hdv & Hws)];
    [left; rewrite Heq; simpl; auto
    |right; split; [exact Hd|]; split; [exact Hw|]; exists r, d; simpl in Hdv, Hws; auto].
Qed.

Lemma getAuditLevel_returns_iff (a : auditing) (w : World) :
  returns (getAuditLevel a w) = true <-> webhookLister_Get a DefaultWebhook <> (None, None).
Proof.
  unfold getAuditLevel.
  destruct (webhookLister_Get a DefaultWebhook) as [[wh|] [msg|]];
    unfold bind, klog_V_Info, modify, deref, ret, panic; simpl;
    split; intros H; try reflexivity; try discriminate;
    try (intros Hc; discriminate); exfalso; apply H; reflexivity.
Qed.

Lemma lookup_workspace_returns_iff (a : auditing) (e : Event) (w : World) :
  returns (lookup_workspace a e w) = true <->
  (Devops e = "" \/ Workspace e <> "" \/
   exists r err, devopsGetter_List a "" query_New = (Some r, err) /\
     Forall (fun obj => exists d, obj = ItemDevOpsProject (Some d)) (Items r)).
Proof.
  unfold lookup_workspace.
  destruct (0 <? len (Devops e)) eqn:Hd; simpl.
  - apply len_positive in Hd.
    destruct (len (Workspace e) =? 0) eqn:Hw.
    + apply len_zero in Hw.
      destruct (devopsGetter_List a "" query_New) as [[r|] err].
      * destruct err as [msg|]; unfold bind, klog_Error, modify, deref, ret; simpl;
          rewrite range_Items_returns.
        -- split.
           ++ intros H. right; right. exists r, (Some msg). auto.
           ++ intros [H|[H|(r' & err' & Heq & H)]]; [contradiction|contradiction|].
              injection Heq as <- <-. exact H.
        -- split.
           ++ intros H. right; right. exists r, None. auto.
           ++ intros [H|[H|(r' & err' & Heq & H)]]; [contradiction|contradiction|].
              injection Heq as <- <-. exact H.
      * destruct err as [msg|]; unfold bind; simpl.
        -- split; [discriminate|].
           intros [H|[H|(r' & err' & Heq & H)]]; [contradiction|contradiction|discriminate].
        -- split; [discriminate|].
           intros [H|[H|(r' & err' & Heq & H)]]; [contradiction|contradiction|discriminate].
    + split; [|reflexivity]. intros _. right; left. intros Hws.
      apply len_zero in Hws. rewrite Hws in Hw. discriminate.
  - split; [|reflexivity]. intros _. left.
    apply not_true_iff_false in Hd. rewrite len_positive in Hd.
    destruct (String.eqb_spec (Devops e) "") as [Hs|Hs]; [exact Hs|contradiction].
Qed.

Lemma name_from_body_returns (info : RequestInfo.t) (body : bytes) (e : Event)
      (o : ObjectReference.t) (w : World) :
  ObjectRef e = Some o ->
  exists e' o', name_from_body info body e w = Ret e' w /\ ObjectRef e' = Some o'.
Proof.
  intros Ho. unfold name_from_body.
  destruct (String.eqb _ _); [|exists e, o; auto].
  destruct (json_Unmarshal_Object body); [|exists e, o; auto].
  unfold bind. rewrite Ho. simpl. eexists. eexists. split; reflexivity.
Qed.

Lemma relabel_user_update_returns (body : bytes) (e : Event)
      (o : ObjectReference.t) (w : World) :
  ObjectRef e = Some o ->
  exists e', relabel_user_update body e w = Ret e' w.
Proof.
  intros Ho. unfold relabel_user_update, bind. rewrite Ho. simpl.
  destruct (_ && _); [|eexists; reflexivity].
  destruct (json_Unmarshal_User body); [|eexists; reflexivity].
  destruct (String.eqb _ _); [eexists; reflexivity|].
  destruct (String.eqb _ _); eexists; reflexivity.
Qed.

(** Once the level is read and the workspace looked up, nothing in the
    rest of [LogRequestObject] can panic. *)
Lemma LogRequestObject_runs (a : auditing) (req : Request) (info : RequestInfo.t)
      (level : audit_Level) (e1 : Event) (w w1 w2 : World) :
  RequestInfo.IsKubernetesRequest info && negb (len_dryRun req =? 0) = false ->
  getAuditLevel a w = Ret level w1 ->
  lookup_workspace a
    (initial_event req info level (uuid_String (uuids w1)) (clock w1))
    (with_uuids (S (uuids w1)) w1) = Ret e1 w2 ->
  returns (LogRequestObject a req info w) = true.
Proof.
  intros Hcond Hlevel Hlookup.
  pose proof (lookup_workspace_frame _ _ _ _ _ Hlookup) as Hframe.
  unfold LogRequestObject. rewrite Hcond.
  unfold bind at 1. rewrite Hlevel.
  unfold bind at 1, uuid_New_String. unfold bind at 1, NowMicro.
  unfold initial_event in Hlookup. simpl uuids. simpl clock.
  unfold bind at 1. rewrite Hlookup.
  set (emid := copy_user req (set_SourceIPs [RemoteIp req] e1)).
  assert (Hmid : Verb emid = RequestInfo.Verb info /\
                 exists o, ObjectRef emid = Some o /\
                           ObjectReference.Resource o = RequestInfo.Resource info).
  { unfold emid. rewrite copy_user_shape, Hframe. simpl.
    split; [reflexivity|]. eexists. split; reflexivity. }
  destruct Hmid as (HV & o & HO & HR).
  unfold bind at 1.
  rewrite (needAnalyzeRequestBody_gate a emid req info o w2 HV HO HR).
  destruct (body_inspection_gate req info (Level emid)); [|reflexivity].
  destruct (io_ReadAll (Body req)) as [[body [msg|]] drained]; [reflexivity|].
  match goal with
  | |- context [name_from_body info body ?ev] =>
      assert (Hev : ObjectRef ev = Some o)
        by (destruct (GreaterOrEqual _ _); simpl; exact HO);
      destruct (name_from_body_returns info body ev o w2 Hev) as (e2 & o2 & Hn & Ho2)
  end.
  unfold bind at 1. rewrite Hn.
  destruct (relabel_user_update_returns body e2 o2 w2 Ho2) as (e3 & Hr).
  unfold bind at 1. rewrite Hr. reflexivity.
Qed.

(** X13: when [LogRequestObject] returns at all.  A Kubernetes dry-run
    is dismissed before anything is looked up.  Any other request gets
    its event exactly when the webhook lister answers with a webhook or
    an error (not with neither), and the workspace lookup is not needed
    (no project id, or a workspace given) or yields a list all of whose
    items are pointers to projects, whatever error comes with it.  In
    every other case the call panics. *)
Theorem LogRequestObject_returns_iff
        (a : auditing) (req : Request) (info : RequestInfo.t) (w : World) :
  returns (LogRequestObject a req info w) = true <->
  (RequestInfo.IsKubernetesRequest info = true /\ len_dryRun req <> 0) \/
  (webhookLister_Get a DefaultWebhook <> (None, None) /\
   (RequestInfo.DevOps info = "" \/ RequestInfo.Workspace info <> "" \/
    exists r err, devopsGetter_List a "" query_New = (Some r, err) /\
      Forall (fun obj => exists d, obj = ItemDevOpsProject (Some d)) (Items r))).
Proof.
  destruct (RequestInfo.IsKubernetesRequest info && negb (len_dryRun req =? 0)) eqn:Hcond.
  - split.
    + intros _. left. apply andb_prop in Hcond as [Hk Hd]. split; [exact Hk|].
      apply negb_true_iff, Z.eqb_neq in Hd. exact Hd.
    + intros _. unfold LogRequestObject. rewrite Hcond. reflexivity.
  - split.
    + intros Hret. right.
      destruct (LogRequestObject a req info w) as [[[e|] req'] w'|] eqn:Hrun;
        [|apply LogRequestObject_nil_run in Hrun as (Hk & (v & vs & Hq) & _);
          unfold len_dryRun in Hcond; rewrite Hk, Hq in Hcond; discriminate
         |discriminate].
      apply LogRequestObject_steps in Hrun as (level & w1 & e1 & w2 & Hlevel & Hlookup & _).
      split.
      * apply (getAuditLevel_returns_iff a w). rewrite Hlevel. reflexivity.
      * apply (lookup_workspace_returns_iff a
                 (initial_event req info level (uuid_String (uuids w1)) (clock w1))
                 (with_uuids (S (uuids w1)) w1)).
        rewrite Hlookup. reflexivity.
    + intros [[Hk Hd]|[Hlister Hlist]].
      { rewrite Hk in Hcond. apply Z.eqb_neq in Hd. rewrite Hd in Hcond. discriminate. }
      apply (getAuditLevel_returns_iff a w) in Hlister.
      destruct (getAuditLevel a w) as [level w1|] eqn:Hlevel; [|discriminate].
      pose proof (proj2 (lookup_workspace_returns_iff a
                   (initial_event req info level (uuid_String (uuids w1)) (clock w1))
                   (with_uuids (S (uuids w1)) w1)) Hlist) as Hl.
      destruct (lookup_workspace a _ _) as [e1 w2|] eqn:Hlookup; [|discriminate].
      eapply LogRequestObject_runs; eassumption.
Qed.

End RequestExtras.

(* ===================================================================== *)
(** ** Further properties: the capture over a whole handler              *)
(* ===================================================================== *)

Section HandlerRuns.
Context {W : Type} `{RW : http_ResponseWriter W}.
Import Capture.

Lemma filter_one_call (f : WriterCall -> bool) (k : WriterCall) :
  filter (fun k => f k = true) [k] = if f k then [k] else [].
Proof.
  rewrite filter_cons, filter_nil.
  destruct (decide (f k = true)) as [H|H]; destruct (f k); congruence.
Qed.

(** One operation of the handler: what it adds to the buffer, to the
    latch and to the calls on the wrapped writer. *)
Lemma run_op_trace (op : HandlerOp) (c c' : ResponseCapture W) :
  run_op op c = Ret tt c' ->
  body c' = body c ++ written [op] /\
  wroteHeader c' = wroteHeader c || writes_response op /\
  status c' = (if wroteHeader c then status c
               else default (status c) (commit_status [op])) /\
  filter (fun k => is_CallWrite k = true) (calls c')
    = filter (fun k => is_CallWrite k = true) (calls c) ++ write_calls [op] /\
  filter (fun k => is_CallWriteHeader k = true) (calls c')
    = filter (fun k => is_CallWriteHeader k = true) (calls c)
      ++ (if wroteHeader c then []
          else match commit_status [op] with
               | Some code => [CallWriteHeader code]
               | None => []
               end).
Proof.
  intros Hrun.
  destruct op; simpl in Hrun; simpl written; simpl write_calls; simpl commit_status;
    simpl writes_response.
  - inversion Hrun; subst. rewrite !app_nil_r, orb_false_r.
    destruct (wroteHeader c'); rewrite ?app_nil_r; repeat split; reflexivity.
  - unfold bind, Write in Hrun. unfold bind at 1 in Hrun.
    destruct (wroteHeader c) eqn:Hlatch.
    + rewrite (WriteHeader_committed _ _ Hlatch) in Hrun.
      unfold bind, body_Write, modify, inner_Write in Hrun. simpl in Hrun.
      destruct (rw_Write data (ResponseWriter c)) as [r w']. inversion Hrun; subst; clear Hrun.
      simpl. rewrite Hlatch, !filter_app, !filter_one_call. simpl.
      rewrite ?app_nil_r, <- ?app_assoc. repeat split; reflexivity.
    + rewrite (WriteHeader_pending _ _ Hlatch StatusOK_accepted) in Hrun.
      unfold bind, body_Write, modify, inner_Write in Hrun. simpl in Hrun.
      destruct (rw_Write data (rw_WriteHeader StatusOK (ResponseWriter c))) as [r w'].
      inversion Hrun; subst; clear Hrun.
      simpl. rewrite !filter_app, !filter_one_call. simpl.
      rewrite ?app_nil_r, <- ?app_assoc. repeat split; reflexivity.
  - destruct (wroteHeader c) eqn:Hlatch.
    + rewrite (WriteHeader_committed _ _ Hlatch) in Hrun. inversion Hrun; subst.
      rewrite Hlatch, !app_nil_r. repeat split; reflexivity.
    + destruct (decide (100 <= statusCode <= 999)) as [Hcode|Hcode];
        [|rewrite (WriteHeader_rejected _ _ Hlatch Hcode) in Hrun; discriminate].
      rewrite (WriteHeader_pending _ _ Hlatch Hcode) in Hrun. inversion Hrun; subst; clear Hrun.
      simpl. rewrite !filter_app, !filter_one_call. simpl.
      rewrite ?app_nil_r, <- ?app_assoc. repeat split; reflexivity.
  - inversion Hrun; subst. rewrite !app_nil_r, orb_false_r.
    destruct (wroteHeader c'); rewrite ?app_nil_r; repeat split; reflexivity.
  - inversion Hrun; subst. rewrite !app_nil_r, orb_false_r.
    destruct (wroteHeader c'); rewrite ?app_nil_r; repeat split; reflexivity.
  - unfold bind, Hijack in Hrun. destruct rw_Hijacker as [h|].
    + destruct (hj_Hijack h (ResponseWriter c)) as [r w']. inversion Hrun; subst; clear Hrun.
      simpl. rewrite !filter_app, !filter_one_call. simpl. rewrite !app_nil_r, orb_false_r.
      destruct (wroteHeader c); rewrite ?app_nil_r; repeat split; reflexivity.
    + inversion Hrun; subst. rewrite !app_nil_r, orb_false_r.
      destruct (wroteHeader c'); rewrite ?app_nil_r; repeat split; reflexivity.
  - unfold bind, CloseNotify in Hrun. destruct rw_CloseNotifier as [n|]; [|discriminate].
    destruct (cn_CloseNotify n (ResponseWriter c)) as [r w']. inversion Hrun; subst; clear Hrun.
    simpl. rewrite !filter_app, !filter_one_call. simpl. rewrite !app_nil_r, orb_false_r.
    destruct (wroteHeader c); rewrite ?app_nil_r; repeat split; reflexivity.
Qed.

Lemma commit_status_cons (op : HandlerOp) (rest : list HandlerOp) :
  commit_status (op :: rest) =
    match commit_status [op] with
    | Some code => Some code
    | None => commit_status rest
    end.
Proof. destruct op; reflexivity. Qed.

Lemma commit_status_writes (op : HandlerOp) :
  writes_response op = true <-> is_Some (commit_status [op]).
Proof.
  destruct op; simpl; split; intros H; try discriminate; try reflexivity;
    try (eexists; reflexivity); destruct H; discriminate.
Qed.

Lemma written_cons (op : HandlerOp) (rest : list HandlerOp) :
  written (op :: rest) = written [op] ++ written rest.
Proof. destruct op; simpl; rewrite ?app_nil_r; reflexivity. Qed.

Lemma write_calls_cons (op : HandlerOp) (rest : list HandlerOp) :
  write_calls (op :: rest) = write_calls [op] ++ write_calls rest.
Proof. destruct op; reflexivity. Qed.

(** A whole handler, from any state of the capture. *)
Lemma run_handler_trace (ops : list HandlerOp) :
  forall c c' : ResponseCapture W,
    run_handler ops c = Ret tt c' ->
    body c' = body c ++ written ops /\
    wroteHeader c' = wroteHeader c || existsb writes_response ops /\
    status c' = (if wroteHeader c then status c
                 else default (status c) (commit_status ops)) /\
    filter (fun k => is_CallWrite k = true) (calls c')
      = filter (fun k => is_CallWrite k = true) (calls c) ++ write_calls ops /\
    filter (fun k => is_CallWriteHeader k = true) (calls c')
      = filter (fun k => is_CallWriteHeader k = true) (calls c)
        ++ (if wroteHeader c then []
            else match commit_status ops with
                 | Some code => [CallWriteHeader code]
                 | None => []
                 end).
Proof.
  induction ops as [|op rest IH]; intros c c' Hrun.
  - inversion Hrun; subst. simpl. rewrite !app_nil_r, orb_false_r.
    destruct (wroteHeader c'); rewrite ?app_nil_r; repeat split; reflexivity.
  - simpl in Hrun. unfold bind in Hrun at 1.
    destruct (run_op op c) as [[] c1|p c1] eqn:Hop; [|discriminate].
    destruct (run_op_trace _ _ _ Hop) as (B1 & L1 & S1 & D1 & H1).
    destruct (IH _ _ Hrun) as (B2 & L2 & S2 & D2 & H2).
    rewrite written_cons, write_calls_cons, commit_status_cons. simpl existsb.
    rewrite B2, L2, S2, D2, H2, B1, S1, D1, H1, !L1.
    rewrite <- !app_assoc, orb_assoc.
    pose proof (commit_status_writes op) as Hw.
    clear - Hw.
    destruct (wroteHeader c); destruct (writes_response op);
      destruct (commit_status [op]) as [code|]; simpl;
      rewrite ?app_nil_r; try (repeat split; reflexivity).
    + destruct (proj1 Hw eq_refl); discriminate.
    + assert (Hf : false = true) by (apply Hw; eexists; reflexivity). discriminate.
Qed.

(** X14: the capture buffer holds what the handler wrote: after a
    handler that returns, [Bytes] of a fresh capture is the data of its
    [Write] calls, in order, whatever else it called in between. *)
Theorem capture_holds_what_was_written (wr : W) (ops : list HandlerOp) (c : ResponseCapture W) :
  run_handler ops (NewResponseCapture wr) = Ret tt c ->
  Bytes c = written ops.
Proof.
  intros Hrun. destruct (run_handler_trace ops _ _ Hrun) as (B & _). exact B.
Qed.



(** X17: [Hijack] never panics and never disturbs what was captured.
    For every wrapped writer it returns, and latch, status and buffer of
    the capture are as before; without the capability the wrapped writer
    is not called at all and the result is the not-supported error. *)
Theorem Hijack_returns_and_keeps_capture (c : ResponseCapture W) :
  exists r c',
    Hijack c = Ret r c' /\
    wroteHeader c' = wroteHeader c /\ status c' = status c /\ body c' = body c /\
    (rw_Hijacker = None ->
       c' = c /\ r = (None, None, Some Hijack_unsupported)).
Proof.
  unfold Hijack. destruct rw_Hijacker as [h|].
  - destruct (hj_Hijack h (ResponseWriter c)) as [r w'].
    do 2 eexists. split; [reflexivity|]. simpl. repeat split; try reflexivity; discriminate.
  - do 2 eexists. split; [reflexivity|]. repeat split; reflexivity.
Qed.

End HandlerRuns.

(* ===================================================================== *)
(** ** Further properties: finalization and the queue                    *)
(* ===================================================================== *)


Section Finalization.
Context {W : Type} `{RW : http_ResponseWriter W}.


(** X19: finalization writes three fields and queues the result.  The
    event [LogResponseObject] leaves differs from the one it was given in
    stage timestamp (now the clock), response status and response
    snapshot and in nothing else; with a free slot in the channel of
    [NewAuditing] that very event is appended to the queue, and nothing
    is logged. *)
Theorem LogResponseObject_queues_the_finalized_event
        (webhooks : string -> option Webhook * error)
        (devops : string -> Query -> option ListResult * error)
        (e : Event) (c : Capture.ResponseCapture W) (w : World) :
  Z.of_nat (length (cache w)) < 10000 ->
  exists efinal w',
    LogResponseObject (NewAuditing webhooks devops) (Some e) (Some c) w = Ret efinal w' /\
    cache w' = cache w ++ [efinal] /\
    klog w' = klog w /\
    StageTimestamp efinal = clock w /\
    set_StageTimestamp 0 (set_ResponseStatus None (set_ResponseObject None efinal))
      = set_StageTimestamp 0 (set_ResponseStatus None (set_ResponseObject None e)).
Proof.
  intros Hfree.
  unfold LogResponseObject, bind, NowMicro, deref, ret. simpl.
  unfold cacheEvent, bind, get.
  rewrite (select_free_slot (NewAuditing webhooks devops) w Hfree). simpl.
  do 2 eexists. split; [reflexivity|]. simpl.
  split; [rewrite app_nil_r || reflexivity|].
  split; [reflexivity|].
  destruct (GreaterOrEqual (Level e) LevelRequestResponse); split; reflexivity.
Qed.

End Finalization.

(** X20: the channel of [NewAuditing] never holds more than its 10000
    slots: a queue within capacity is within capacity after
    [cacheEvent], whichever way the select went. *)
Theorem queue_stays_within_capacity
        (webhooks : string -> option Webhook * error)
        (devops : string -> Query -> option ListResult * error)
        (e : Event) (w w' : World) :
  Z.of_nat (length (cache w)) <= 10000 ->
  cacheEvent (NewAuditing webhooks devops) e w = Ret tt w' ->
  Z.of_nat (length (cache w')) <= 10000.
Proof.
  intros Hcap Hrun.
  apply (cacheEvent_capacity (NewAuditing webhooks devops) e w w'); simpl;
    unfold DefaultCacheCapacity; try lia; exact Hrun.
Qed.

(** X21: a slot that frees in time.  When the channel of [NewAuditing]
    is full and the consumer takes an element before the timeout, the
    event is not dropped: it is queued behind the others, the oldest
    element being the one taken, nothing is logged, and the caller has
    waited just that long. *)
Theorem cacheEvent_waits_for_a_slot
        (webhooks : string -> option Webhook * error)
        (devops : string -> Query -> option ListResult * error)
        (e : Event) (w : World) (d : N) :
  Z.of_nat (length (cache w)) = 10000 ->
  recv_delay w = Some d ->
  Z.of_N d < CacheTimeout ->
  exists w',
    cacheEvent (NewAuditing webhooks devops) e w = Ret tt w' /\
    cache w' = tl (cache w) ++ [e] /\
    length (cache w') = length (cache w) /\
    klog w' = klog w /\
    clock w' = clock w + Z.of_N d.
Proof.
  intros Hfull Hrecv Hlt.
  unfold cacheEvent, bind, get, select.
  change (cache_cap (NewAuditing webhooks devops)) with DefaultCacheCapacity.
  replace (Z.of_nat (length (cache w)) <? DefaultCacheCapacity) with false
    by (symmetry; apply Z.ltb_ge; unfold DefaultCacheCapacity; lia).
  rewrite Hrecv.
  replace (Z.of_N d <? CacheTimeout) with true by (symmetry; apply Z.ltb_lt; exact Hlt).
  eexists. split; [reflexivity|]. simpl. repeat split.
  destruct (cache w) as [|x q]; [simpl in Hfull; lia|].
  simpl. rewrite length_app. simpl. lia.
Qed.

(* ===================================================================== *)
(** ** Further properties: the resource getter                           *)
(* ===================================================================== *)

Section ResourceFacts.
Import Resource.
Context {O L Q : Type}.
Variable range : RangeOrder O L Q.
Hypothesis range_visits : visits_every_entry range.

Lemma first_with_resource_None (entries : list (GroupVersionResource * Getter O L Q))
      (resource : string) :
  first_with_resource entries resource = None <->
  forall k v, (k, v) ∈ entries -> Resource_ k <> resource.
Proof.
  induction entries as [|[k v] rest IH]; simpl.
  - split; [intros _ k v Hin; inversion Hin|reflexivity].
  - destruct (String.eqb_spec (Resource_ k) resource) as [Heq|Hne].
    + split; [discriminate|]. intros H. exfalso. apply (H k v); [left|exact Heq].
    + rewrite IH. split.
      * intros H k' v' Hin. inversion Hin; subst; [exact Hne|]. eapply H; eassumption.
      * intros H k' v' Hin. apply (H k' v'). right. exact Hin.
Qed.

Lemma first_with_resource_Some (entries : list (GroupVersionResource * Getter O L Q))
      (resource : string) (v : Getter O L Q) :
  first_with_resource entries resource = Some v ->
  exists k, (k, v) ∈ entries /\ Resource_ k = resource.
Proof.
  induction entries as [|[k v'] rest IH]; simpl; [discriminate|].
  destruct (String.eqb_spec (Resource_ k) resource) as [Heq|Hne].
  - intros H. injection H as <-. exists k. split; [left|exact Heq].
  - intros H. destruct (IH H) as (k' & Hin & Hk). exists k'. split; [right; exact Hin|exact Hk].
Qed.

Lemma range_None (m : gmap GroupVersionResource (Getter O L Q)) (resource : string) :
  first_with_resource (range m) resource = None <-> ~ registers m resource.
Proof.
  rewrite first_with_resource_None. unfold registers. split.
  - intros H (k & v & Hm & Hk). apply (H k v); [|exact Hk].
    rewrite (range_visits m). apply elem_of_map_to_list. exact Hm.
  - intros H k v Hin Hk. apply H. exists k, v. split; [|exact Hk].
    rewrite (range_visits m) in Hin. apply elem_of_map_to_list in Hin. exact Hin.
Qed.

Lemma range_Some (m : gmap GroupVersionResource (Getter O L Q)) (resource : string)
      (v : Getter O L Q) :
  first_with_resource (range m) resource = Some v ->
  exists k, m !! k = Some v /\ Resource_ k = resource.
Proof.
  intros H. apply first_with_resource_Some in H as (k & Hin & Hk).
  exists k. split; [|exact Hk].
  rewrite (range_visits m) in Hin. apply elem_of_map_to_list in Hin. exact Hin.
Qed.

(** The answers of [TryResource], by the tables. *)
Lemma TryResource_cases (r : ResourceGetter O L Q)
        (clusterScope : bool) (resource : string) :
  (TryResource range r clusterScope resource = None <->
     ~ registers (namespacedResourceGetters r) resource /\
     (clusterScope = true -> ~ registers (clusterResourceGetters r) resource)) /\
  (forall v, TryResource range r clusterScope resource = Some v ->
     (clusterScope = true /\
      exists k, clusterResourceGetters r !! k = Some v /\ Resource_ k = resource) \/
     ((clusterScope = true -> ~ registers (clusterResourceGetters r) resource) /\
      exists k, namespacedResourceGetters r !! k = Some v /\ Resource_ k = resource)).
Proof.
  unfold TryResource. destruct clusterScope.
  - destruct (first_with_resource (range (clusterResourceGetters r)) resource) as [v0|] eqn:Hc.
    + split.
      * split; [discriminate|]. intros [_ H]. exfalso.
        apply (H eq_refl). apply range_Some in Hc as (k & Hk & Hr). exists k, v0. auto.
      * intros v Hv. injection Hv as <-. left. split; [reflexivity|].
        apply range_Some. exact Hc.
    + apply range_None in Hc. split.
      * rewrite range_None. split; [intros H; split; auto|intros [H _]; exact H].
      * intros v Hv. right. split; [intros _; exact Hc|]. apply range_Some. exact Hv.
  - split.
    + rewrite range_None. split; [intros H; split; [exact H|discriminate]|intros [H _]; exact H].
    + intros v Hv. right. split; [discriminate|]. apply range_Some. exact Hv.
Qed.

(** X22: [TryResource] answers nil exactly when no key of the tables it
    consults has the resource name: the namespaced table always, the
    cluster table only in cluster scope.  A getter it answers is
    registered under that resource name, in the cluster table if that
    table has the name and the scope is cluster, in the namespaced table
    otherwise. *)
Theorem TryResource_finds_registered (r : ResourceGetter O L Q)
        (clusterScope : bool) (resource : string) :
  (TryResource range r clusterScope resource = None <->
     ~ registers (namespacedResourceGetters r) resource /\
     (clusterScope = true -> ~ registers (clusterResourceGetters r) resource)) /\
  (forall v, TryResource range r clusterScope resource = Some v ->
     (clusterScope = true /\
      exists k, clusterResourceGetters r !! k = Some v /\ Resource_ k = resource) \/
     ((clusterScope = true -> ~ registers (clusterResourceGetters r) resource) /\
      exists k, namespacedResourceGetters r !! k = Some v /\ Resource_ k = resource)).
Proof.
  destruct (TryResource_cases r clusterScope resource) as [Hnone Hsome].
  split; [exact Hnone|exact Hsome].
Qed.

(** X23: the answer does not depend on the order of the range when the
    resource name is registered once: if [k] is the only key of the
    namespaced table with its resource name, and in cluster scope no key
    of the cluster table has it, [TryResource] answers the getter stored
    at [k]; and a name registered once in the cluster table wins in
    cluster scope over the namespaced table. *)
Theorem TryResource_unique_name (r : ResourceGetter O L Q)
        (clusterScope : bool) (k : GroupVersionResource) (v : Getter O L Q) :
  (namespacedResourceGetters r !! k = Some v ->
   (forall k' v', namespacedResourceGetters r !! k' = Some v' ->
                  Resource_ k' = Resource_ k -> k' = k) ->
   (clusterScope = true -> ~ registers (clusterResourceGetters r) (Resource_ k)) ->
   TryResource range r clusterScope (Resource_ k) = Some v) /\
  (clusterResourceGetters r !! k = Some v ->
   (forall k' v', clusterResourceGetters r !! k' = Some v' ->
                  Resource_ k' = Resource_ k -> k' = k) ->
   TryResource range r true (Resource_ k) = Some v).
Proof.
  split.
  - intros Hk Huniq Hcluster.
    destruct (TryResource range r clusterScope (Resource_ k)) as [v0|] eqn:Htry.
    + destruct (proj2 (TryResource_cases r clusterScope (Resource_ k)) v0 Htry)
        as [[Hcs (k' & Hk' & Hr)]|[_ (k' & Hk' & Hr)]].
      * exfalso. apply (Hcluster Hcs). exists k', v0. auto.
      * rewrite (Huniq k' v0 Hk' Hr) in Hk'. congruence.
    + apply (proj1 (TryResource_cases r clusterScope (Resource_ k))) in Htry
        as [Hno _].
      exfalso. apply Hno. exists k, v. auto.
  - intros Hk Huniq.
    destruct (TryResource range r true (Resource_ k)) as [v0|] eqn:Htry.
    + destruct (proj2 (TryResource_cases r true (Resource_ k)) v0 Htry)
        as [[_ (k' & Hk' & Hr)]|[Hno _]].
      * rewrite (Huniq k' v0 Hk' Hr) in Hk'. congruence.
      * exfalso. apply (Hno eq_refl). exists k, v. auto.
    + apply (proj1 (TryResource_cases r true (Resource_ k))) in Htry as [_ Hno].
      exfalso. apply (Hno eq_refl). exists k, v. auto.
Qed.

(** X24: a resource name no table has is "not supported": [Get] and
    [List] answer a nil result with [ErrResourceNotSupported].  With a
    namespace given, this is so whenever the namespaced table lacks the
    name, whatever the cluster table holds. *)
Theorem unknown_resource_not_supported (r : ResourceGetter O L Q)
        (resource namespace name : string) (query : Q) :
  ~ registers (namespacedResourceGetters r) resource ->
  (namespace = "" -> ~ registers (clusterResourceGetters r) resource) ->
  Get range r resource namespace name = (None, Some ErrResourceNotSupported) /\
  List range r resource namespace query = (None, Some ErrResourceNotSupported).
Proof.
  intros Hns Hcl.
  assert (Htry : TryResource range r (String.eqb namespace "") resource = None).
  { apply (proj1 (TryResource_cases r _ resource)). split; [exact Hns|].
    intros Hscope. apply Hcl. apply String.eqb_eq. exact Hscope. }
  unfold Get, List. rewrite Htry. split; reflexivity.
Qed.

(** X25: a call with a namespace never reaches a cluster getter: [Get]
    and [List] answer as they would with an empty cluster table. *)
Theorem namespaced_calls_ignore_cluster_getters (r : ResourceGetter O L Q)
        (resource namespace name : string) (query : Q) :
  namespace <> "" ->
  let r' := {| clusterResourceGetters := ∅;
               namespacedResourceGetters := namespacedResourceGetters r |} in
  Get range r resource namespace name = Get range r' resource namespace name /\
  List range r resource namespace query = List range r' resource namespace query.
Proof.
  intros Hns r'. unfold Get, List, TryResource.
  replace (String.eqb namespace "") with false
    by (symmetry; apply String.eqb_neq; exact Hns).
  split; reflexivity.
Qed.

End ResourceFacts.

(* ===================================================================== *)
(** ** Further properties: the repo operator                             *)
(* ===================================================================== *)

Section RepoFacts.
Import Repos.
Context {Credential Rest QueryRest : Type}.
Variable zero_credential : Credential.
Variable ConvertSelectorToLabelsMap : string -> gmap string string * error.
Variable Set_String : gmap string string -> string.
Variable WorkspaceLabelKey : string.

Lemma Object_eq_dec (x y : Object) : {x = y} + {x <> y}.
Proof. repeat decide equality. Qed.

(** The loop: it returns only over pointers to repos, changes nothing
    but the heap, and in the heap exactly the repos it was given. *)
Lemma scrub_effect (items : list Object) :
  forall s s' : @Store Credential Rest QueryRest,
    scrub zero_credential items s = Ret tt s' ->
    log s' = log s /\ qry s' = qry s /\ getter_calls s' = getter_calls s /\
    Forall (fun x => exists l, x = HelmRepoPtr (Some l)) items /\
    forall l,
      (In (HelmRepoPtr (Some l)) items ->
         heap s' !! l = scrubbed zero_credential <$> heap s !! l) /\
      (~ In (HelmRepoPtr (Some l)) items -> heap s' !! l = heap s !! l).
Proof.
  induction items as [|x others IH]; intros s s' Hrun; simpl in Hrun.
  - ret_inv Hrun. repeat split; auto. intros [].
  - bind_step Hrun as d s1 Ed.
    destruct x as [[l0|]|]; simpl in Ed; try discriminate. ret_inv Ed.
    unfold bind in Hrun at 1. unfold update_repo in Hrun at 1. unfold modify in Hrun at 1.
    unfold bind in Hrun at 1. unfold update_repo in Hrun at 1. unfold modify in Hrun at 1.
    apply IH in Hrun as (Hlog & Hq & Hc & Hall & Hheap). simpl in *.
    split; [exact Hlog|]. split; [exact Hq|]. split; [exact Hc|].
    split; [constructor; [eexists; reflexivity|exact Hall]|].
    intros l. destruct (Hheap l) as [Hin Hout].
    assert (Hstep : forall l',
               alter (clear_credential zero_credential) d (alter clear_data d (heap s1)) !! l'
               = if decide (d = l') then scrubbed zero_credential <$> heap s1 !! l'
                 else heap s1 !! l').
    { intros l'. destruct (decide (d = l')) as [->|Hne].
      - rewrite !lookup_alter_eq. destruct (heap s1 !! l'); reflexivity.
      - rewrite !lookup_alter_ne by exact Hne. reflexivity. }
    split.
    + intros [Heq|Hothers].
      * injection Heq as ->.
        destruct (in_dec Object_eq_dec (HelmRepoPtr (Some l)) others) as [Hi|Hi].
        -- rewrite (Hin Hi), Hstep. rewrite decide_True by reflexivity.
           destruct (heap s1 !! l); reflexivity.
        -- rewrite (Hout Hi), Hstep. rewrite decide_True by reflexivity. reflexivity.
      * rewrite (Hin Hothers), Hstep. destruct (decide (d = l)); [|reflexivity].
        destruct (heap s1 !! l); reflexivity.
    + intros Hnot.
      assert (Hne : d <> l) by (intros ->; apply Hnot; left; reflexivity).
      assert (Hno : ~ In (HelmRepoPtr (Some l)) others)
        by (intros Hi; apply Hnot; right; exact Hi).
      rewrite (Hout Hno), Hstep. rewrite decide_False by assumption. reflexivity.
Qed.

(** A returned run of [ListRepos], step by step. *)
Lemma ListRepos_steps (c : repoOperator) (workspace : string)
      (out : option ListResult * error) (s s' : @Store Credential Rest QueryRest) :
  ListRepos zero_credential ConvertSelectorToLabelsMap Set_String WorkspaceLabelKey
            c workspace s = Ret out s' ->
  (* the selector did not parse *)
  (workspace <> "" /\
   exists m msg, ConvertSelectorToLabelsMap (LabelSelector (qry s)) = (m, Some msg) /\
     out = (None, Some msg) /\
     s' = {| heap := heap s; log := log s ++ [LogError msg];
             qry := qry s; getter_calls := getter_calls s |})
  \/
  exists q,
    (* the query the getter is asked with *)
    ((workspace = "" /\ q = qry s) \/
     (workspace <> "" /\
      exists m, ConvertSelectorToLabelsMap (LabelSelector (qry s)) = (m, None) /\
        q = {| LabelSelector :=
                 Set_String (labels_Merge m {[ WorkspaceLabelKey := workspace ]});
               query_rest := query_rest (qry s) |})) /\
    qry s' = q /\
    getter_calls s' = getter_calls s ++ [CalledList "" q] /\
    ((exists r0 msg, reposGetter_List c "" q = (r0, Some msg) /\
        out = (None, Some msg) /\
        heap s' = heap s /\ log s' = log s ++ [LogError msg])
     \/
     (exists r, reposGetter_List c "" q = (Some r, None) /\
        out = (Some r, None) /\ log s' = log s /\
        scrub zero_credential (Items r)
          {| heap := heap s; log := log s; qry := q;
             getter_calls := getter_calls s ++ [CalledList "" q] |} = Ret tt s')).
Proof.
  assert (Hlist : forall (s0 s1 : @Store Credential Rest QueryRest) out0,
    (let* s := get in
     let* _ := record_call (CalledList "" (qry s)) in
     let '(result, err) := reposGetter_List c "" (qry s) in
     match err with
     | Some msg => let* _ := log_Error msg in ret (None, Some msg)
     | None => let* r := deref result in
               let* _ := scrub zero_credential (Items r) in ret (Some r, None)
     end) s0 = Ret out0 s1 ->
    qry s1 = qry s0 /\
    getter_calls s1 = getter_calls s0 ++ [CalledList "" (qry s0)] /\
    ((exists r0 msg, reposGetter_List c "" (qry s0) = (r0, Some msg) /\
        out0 = (None, Some msg) /\
        heap s1 = heap s0 /\ log s1 = log s0 ++ [LogError msg])
     \/
     (exists r, reposGetter_List c "" (qry s0) = (Some r, None) /\
        out0 = (Some r, None) /\ log s1 = log s0 /\
        scrub zero_credential (Items r)
          {| heap := heap s0; log := log s0; qry := qry s0;
             getter_calls := getter_calls s0 ++ [CalledList "" (qry s0)] |} = Ret tt s1))).
  { intros s0 s1 out0 Hrun.
    unfold bind in Hrun at 1. unfold get in Hrun.
    unfold bind in Hrun at 1. unfold record_call in Hrun at 1. unfold modify in Hrun at 1.
    simpl in Hrun.
    destruct (reposGetter_List c "" (qry s0)) as [r0 [msg|]].
    - unfold bind, log_Error, modify, ret in Hrun. inversion Hrun; subst; clear Hrun. simpl.
      split; [reflexivity|]. split; [reflexivity|]. left. exists r0, msg. auto.
    - bind_step Hrun as r s2 Er. destruct r0 as [r0|]; simpl in Er; [|discriminate].
      ret_inv Er.
      bind_step Hrun as u s3 Escrub. ret_inv Hrun. destruct u.
      pose proof (scrub_effect _ _ _ Escrub) as (Hlog & Hq & Hc & _). simpl in *.
      split; [exact Hq|]. split; [exact Hc|]. right. exists r. auto. }
  unfold ListRepos. intros Hrun.
  destruct (String.eqb_spec workspace "") as [Hws|Hws]; simpl in Hrun.
  - right. exists (qry s). apply Hlist in Hrun as (Hq & Hc & Hcases).
    split; [left; auto|]. split; [exact Hq|]. split; [exact Hc|]. exact Hcases.
  - unfold bind in Hrun at 1. unfold get in Hrun at 1.
    destruct (ConvertSelectorToLabelsMap (LabelSelector (qry s))) as [m [msg|]] eqn:Hparse.
    + left. unfold bind, log_Error, modify, ret in Hrun. inversion Hrun; subst; clear Hrun.
      split; [exact Hws|]. exists m, msg. auto.
    + right. unfold bind in Hrun at 1. unfold set_LabelSelector in Hrun at 1.
      unfold modify in Hrun at 1.
      apply Hlist in Hrun as (Hq & Hc & Hcases). simpl in *.
      eexists. split; [right; split; [exact Hws|]; exists m; split; reflexivity|].
      split; [exact Hq|]. split; [exact Hc|]. exact Hcases.
Qed.

(** X26: no repo leaves [ListRepos] with its status data or its
    credential.  When the call returns a list, every item is a non-nil
    pointer to a repo, and the repo behind it has empty status data and
    the zero credential. *)
Theorem ListRepos_returns_scrubbed_repos
        (c : repoOperator) (workspace : string) (r : ListResult)
        (s s' : @Store Credential Rest QueryRest) :
  ListRepos zero_credential ConvertSelectorToLabelsMap Set_String WorkspaceLabelKey
            c workspace s = Ret (Some r, None) s' ->
  Forall (fun x => exists l, x = HelmRepoPtr (Some l) /\
            forall repo, heap s' !! l = Some repo ->
              Status_Data repo = "" /\ Spec_Credential repo = zero_credential)
         (Items r).
Proof.
  intros Hrun.
  destruct (ListRepos_steps _ _ _ _ _ Hrun)
    as [(_ & m & msg & _ & Hout & _)|(q & _ & _ & _ & Hcases)]; [discriminate|].
  destruct Hcases as [(r0 & msg & _ & Hout & _)|(r' & _ & Hout & _ & Hscrub)];
    [discriminate|].
  injection Hout as <-.
  destruct (scrub_effect _ _ _ Hscrub) as (_ & _ & _ & Hall & Hheap). simpl in Hheap.
  rewrite Forall_forall in Hall. apply Forall_forall. intros x Hx.
  destruct (Hall x Hx) as (l & ->). exists l. split; [reflexivity|].
  intros repo Hrepo. apply list_elem_of_In in Hx.
  rewrite (proj1 (Hheap l) Hx) in Hrepo.
  destruct (heap s !! l) as [old|]; simpl in Hrepo; [|discriminate].
  injection Hrepo as <-. split; reflexivity.
Qed.

(** X27: what [ListRepos] changes, it changes in the getter's own
    objects.  After a call that returns a list, the repo behind each
    listed pointer is, in the store itself, the repo as it was with
    status data and credential cleared and the other fields kept; every
    other repo is untouched, and nothing is logged. *)
Theorem ListRepos_scrubs_in_place
        (c : repoOperator) (workspace : string) (r : ListResult)
        (s s' : @Store Credential Rest QueryRest) (l : nat) :
  ListRepos zero_credential ConvertSelectorToLabelsMap Set_String WorkspaceLabelKey
            c workspace s = Ret (Some r, None) s' ->
  (In (HelmRepoPtr (Some l)) (Items r) ->
     heap s' !! l = scrubbed zero_credential <$> heap s !! l) /\
  (~ In (HelmRepoPtr (Some l)) (Items r) -> heap s' !! l = heap s !! l) /\
  log s' = log s.
Proof.
  intros Hrun.
  destruct (ListRepos_steps _ _ _ _ _ Hrun)
    as [(_ & m & msg & _ & Hout & _)|(q & _ & _ & _ & Hcases)]; [discriminate|].
  destruct Hcases as [(r0 & msg & _ & Hout & _)|(r' & _ & Hout & Hlog & Hscrub)];
    [discriminate|].
  injection Hout as <-.
  destruct (scrub_effect _ _ _ Hscrub) as (_ & _ & _ & _ & Hheap). simpl in Hheap.
  destruct (Hheap l) as [Hin Hnot]. auto.
Qed.

(** X28: a failure of [ListRepos] is logged and handed on, and leaves
    the repos alone.  Whenever the call returns an error, from the
    selector or from the getter, the result is nil, the error is the one
    line added to the log, and no repo is changed; when it is the
    selector that does not parse, the getter is not called at all and
    the caller's query is as it was. *)
Theorem ListRepos_failure
        (c : repoOperator) (workspace : string) (res : option ListResult) (msg : string)
        (s s' : @Store Credential Rest QueryRest) :
  ListRepos zero_credential ConvertSelectorToLabelsMap Set_String WorkspaceLabelKey
            c workspace s = Ret (res, Some msg) s' ->
  res = None /\
  heap s' = heap s /\
  log s' = log s ++ [LogError msg] /\
  (snd (ConvertSelectorToLabelsMap (LabelSelector (qry s))) = Some msg ->
   workspace <> "" ->
   getter_calls s' = getter_calls s /\ qry s' = qry s).
Proof.
  intros Hrun.
  destruct (ListRepos_steps _ _ _ _ _ Hrun)
    as [(Hws & m & msg' & Hparse & Hout & ->)|(q & Hq & _ & _ & Hcases)].
  - injection Hout as <- <-. simpl. repeat split; reflexivity.
  - destruct Hcases as [(r0 & msg' & _ & Hout & Hheap & Hlog)|(r' & _ & Hout & _)];
      [|discriminate].
    injection Hout as <- <-. split; [reflexivity|]. split; [exact Hheap|].
    split; [exact Hlog|].
    intros Hparse Hws. destruct Hq as [[Hempty _]|(_ & m & Hm & _)]; [contradiction|].
    rewrite Hm in Hparse. discriminate.
Qed.

(** X29: the workspace of the call cannot be talked away by the caller's
    selector.  With a workspace given and a selector that parses, the
    getter is asked once, with a query whose selector is the rendering of
    a label set that has the workspace label set to that workspace and
    otherwise the caller's labels; and the caller's query object is left
    holding that selector.  Without a workspace the getter gets the
    caller's query unchanged. *)
Theorem ListRepos_pins_the_workspace
        (c : repoOperator) (workspace : string) (out : option ListResult * error)
        (parsed : gmap string string) (s s' : @Store Credential Rest QueryRest) :
  ConvertSelectorToLabelsMap (LabelSelector (qry s)) = (parsed, None) ->
  ListRepos zero_credential ConvertSelectorToLabelsMap Set_String WorkspaceLabelKey
            c workspace s = Ret out s' ->
  (workspace = "" ->
     qry s' = qry s /\ getter_calls s' = getter_calls s ++ [CalledList "" (qry s)]) /\
  (workspace <> "" ->
     exists m,
       m !! WorkspaceLabelKey = Some workspace /\
       (forall k, k <> WorkspaceLabelKey -> m !! k = parsed !! k) /\
       qry s' = {| LabelSelector := Set_String m; query_rest := query_rest (qry s) |} /\
       getter_calls s' = getter_calls s ++ [CalledList "" (qry s')]).
Proof.
  intros Hparse Hrun.
  destruct (ListRepos_steps _ _ _ _ _ Hrun)
    as [(Hws & m & msg' & Hp & _)|(q & Hq & Hq' & Hcalls & _)].
  { rewrite Hparse in Hp. discriminate. }
  split.
  - intros Hws. destruct Hq as [[_ ->]|[Hne _]]; [|contradiction]. auto.
  - intros Hws. destruct Hq as [[Heq _]|(_ & m & Hm & ->)]; [contradiction|].
    rewrite Hparse in Hm. injection Hm as <-.
    exists (labels_Merge parsed {[ WorkspaceLabelKey := workspace ]}).
    unfold labels_Merge. split.
    { apply lookup_union_Some_l. apply lookup_singleton_eq. }
    split.
    { intros k Hk. rewrite lookup_union_r; [reflexivity|].
      apply lookup_singleton_ne. congruence. }
    rewrite Hq'. split; [reflexivity|exact Hcalls].
Qed.

(** X30: [DescribeRepo] clears the status data and nothing else.  On
    success the pointer returned is the one the getter answered, the repo
    behind it has, in the store, empty status data and the credential and
    other fields it had (the credential is not cleared here), and every
    other repo is untouched.  On an error of the getter the result is
    nil with that error, which is logged, and no repo is changed. *)
Theorem DescribeRepo_clears_only_the_data
        (c : repoOperator) (id : string) (out : option nat * error)
        (s s' : @Store Credential Rest QueryRest) :
  DescribeRepo c id s = Ret out s' ->
  getter_calls s' = getter_calls s ++ [CalledGet "" id] /\
  ((exists x msg, reposGetter_Get c "" id = (x, Some msg) /\
      out = (None, Some msg) /\ heap s' = heap s /\ log s' = log s ++ [LogError msg])
   \/
   (exists l, reposGetter_Get c "" id = (HelmRepoPtr (Some l), None) /\
      out = (Some l, None) /\ log s' = log s /\
      heap s' !! l = clear_data <$> heap s !! l /\
      (forall repo, heap s' !! l = Some repo -> Status_Data repo = "") /\
      (forall old repo, heap s !! l = Some old -> heap s' !! l = Some repo ->
         Spec_Credential repo = Spec_Credential old /\ rest repo = rest old) /\
      forall l', l' <> l -> heap s' !! l' = heap s !! l')).
Proof.
  unfold DescribeRepo. intros Hrun.
  unfold bind in Hrun at 1. unfold record_call in Hrun at 1. unfold modify in Hrun at 1.
  destruct (reposGetter_Get c "" id) as [x [msg|]].
  - unfold bind, log_Error, modify, ret in Hrun. inversion Hrun; subst; clear Hrun. simpl.
    split; [reflexivity|]. left. exists x, msg. auto.
  - bind_step Hrun as l s1 Ex.
    destruct x as [[l0|]|]; simpl in Ex; try discriminate. ret_inv Ex.
    unfold bind, update_repo, modify, ret in Hrun. inversion Hrun; subst; clear Hrun. simpl.
    split; [reflexivity|]. right. exists l. split; [reflexivity|]. split; [reflexivity|].
    split; [reflexivity|]. split; [apply lookup_alter_eq|].
    split.
    { intros repo. rewrite lookup_alter_eq. destruct (heap s !! l); simpl; [|discriminate].
      intros H. injection H as <-. reflexivity. }
    split.
    { intros old repo Hold. rewrite lookup_alter_eq, Hold. simpl.
      intros H. injection H as <-. split; reflexivity. }
    intros l' Hne. apply lookup_alter_ne. congruence.
Qed.

End RepoFacts.

(* ===================================================================== *)
(** ** The further properties at concrete runs                           *)
(* ===================================================================== *)

(** A create request at level Metadata. *)
Lemma LogRequestObject_copies_request_witness :
  let run := Cases.create_run in
  run = Ret (Some (Cases.event_of run),
             Cases.request_of run (Fixtures.request ∅ 5 Runs.hello_body)) (world_of run) /\
  Level (Cases.event_of run) = LevelMetadata /\
  SourceIPs (Cases.event_of run) = ["10.0.0.7"] /\
  Stage (Cases.event_of run) = StageResponseComplete.
Proof.
  intros run.
  assert (H : run = Ret (Some (Cases.event_of run),
                         Cases.request_of run (Fixtures.request ∅ 5 Runs.hello_body))
                        (world_of run)) by (vm_compute; reflexivity).
  split; [exact H|].
  destruct (LogRequestObject_copies_request (LIB := Cases.decoding) _ _ _ _ _ _ _ H)
    as (level & w1 & o & Hl & HL & _ & _ & _ & _ & _ & _ & Hip & Hst & _).
  split; [|split; [exact Hip|exact Hst]].
  rewrite HL. vm_compute in Hl. injection Hl as <- _. reflexivity.
Defined.

(** A Kubernetes request with ?dryRun=All. *)
Lemma nil_event_only_for_kubernetes_dryRun_witness :
  let run := Cases.dry_run in
  run = Ret (None, Fixtures.request Runs.dry 0 Runs.no_body) (world_of run) /\
  RequestInfo.IsKubernetesRequest (Fixtures.info true "create" "") = true.
Proof.
  intros run.
  assert (H : run = Ret (None, Fixtures.request Runs.dry 0 Runs.no_body) (world_of run))
    by (vm_compute; reflexivity).
  split; [exact H|].
  exact (proj1 (nil_event_only_for_kubernetes_dryRun (LIB := Cases.decoding) _ _ _ _ _ _ H)).
Defined.

(** A create request that declares no content, at level RequestResponse. *)
Lemma no_content_no_inspection_witness :
  let run := Cases.empty_run in
  let req := Fixtures.request ∅ 0 Runs.hello_body in
  ContentLength req <= 0 /\
  run = Ret (Some (Cases.event_of run), Cases.request_of run req) (world_of run) /\
  Cases.request_of run req = req /\
  RequestObject (Cases.event_of run) = None.
Proof.
  intros run req.
  assert (H0 : ContentLength req <= 0) by (vm_compute; discriminate).
  assert (H : run = Ret (Some (Cases.event_of run), Cases.request_of run req) (world_of run))
    by (vm_compute; reflexivity).
  split; [exact H0|]. split; [exact H|].
  destruct (no_content_no_inspection (LIB := Cases.decoding) _ _ _ _ _ _ _ H0 H)
    as (Hreq & Hobj & _).
  split; [exact Hreq|exact Hobj].
Defined.

(** A create request whose body breaks off. *)
Lemma failed_read_keeps_event_witness :
  let run := Cases.broken_run in
  let req := Fixtures.request ∅ 5 Cases.broken_body in
  io_ReadAll (Body req)
    = ((Fixtures.hello, Some "unexpected EOF"), TransportBody [] (Some "unexpected EOF") false) /\
  body_inspection_gate req (Fixtures.info false "create" "") (Level (Cases.event_of run)) = true /\
  run = Ret (Some (Cases.event_of run), Cases.request_of run req) (world_of run) /\
  Body (Cases.request_of run req) = TransportBody [] (Some "unexpected EOF") false /\
  RequestObject (Cases.event_of run) = None.
Proof.
  intros run req.
  assert (H1 : io_ReadAll (Body req)
               = ((Fixtures.hello, Some "unexpected EOF"),
                  TransportBody [] (Some "unexpected EOF") false)) by reflexivity.
  assert (H2 : body_inspection_gate req (Fixtures.info false "create" "")
                 (Level (Cases.event_of run)) = true) by (vm_compute; reflexivity).
  assert (H3 : run = Ret (Some (Cases.event_of run), Cases.request_of run req) (world_of run))
    by (vm_compute; reflexivity).
  split; [exact H1|]. split; [exact H2|]. split; [exact H3|].
  destruct (failed_read_keeps_event (LIB := Cases.decoding) _ _ _ _ _ _ _ _ _ _ H1 H2 H3)
    as (Hb & Ho & _).
  split; [exact Hb|exact Ho].
Defined.

(** An update of users/bob: the verb of the event is not "update". *)
Lemma verb_relabelled_only_for_user_updates_witness :
  let run := Cases.update_run in
  let req := Fixtures.request ∅ 5 Runs.hello_body in
  run = Ret (Some (Cases.event_of run), Cases.request_of run req) (world_of run) /\
  Verb (Cases.event_of run) = "disable" /\
  RequestInfo.Resource Cases.users_update = "users".
Proof.
  intros run req.
  assert (H : run = Ret (Some (Cases.event_of run), Cases.request_of run req) (world_of run))
    by (vm_compute; reflexivity).
  split; [exact H|]. split; [vm_compute; reflexivity|].
  destruct (verb_relabelled_only_for_user_updates (LIB := Cases.decoding) _ _ _ _ _ _ _ H)
    as [Hsame|(Hres & _)]; [|exact Hres].
  vm_compute in Hsame. discriminate Hsame.
Defined.

Lemma user_update_verb_witness :
  let run := Cases.update_run in
  let req := Fixtures.request ∅ 5 Runs.hello_body in
  RequestInfo.Resource Cases.users_update = "users" /\
  RequestInfo.Verb Cases.users_update = "update" /\
  0 < ContentLength req /\
  body_content (Body req) = (Fixtures.hello, None) /\
  run = Ret (Some (Cases.event_of run), Cases.request_of run req) (world_of run) /\
  Verb (Cases.event_of run) = "disable".
Proof.
  intros run req.
  assert (H1 : RequestInfo.Resource Cases.users_update = "users") by reflexivity.
  assert (H2 : RequestInfo.Verb Cases.users_update = "update") by reflexivity.
  assert (H3 : 0 < ContentLength req) by (vm_compute; reflexivity).
  assert (H4 : body_content (Body req) = (Fixtures.hello, None)) by reflexivity.
  assert (H5 : run = Ret (Some (Cases.event_of run), Cases.request_of run req) (world_of run))
    by (vm_compute; reflexivity).
  repeat (split; [assumption|]).
  exact (user_update_verb (LIB := Cases.decoding) _ _ _ _ _ _ _ _ H1 H2 H3 H4 H5).
Defined.

(** A create request with no name in the path and a readable body. *)
Lemma name_comes_from_created_body_witness :
  let run := Cases.create_run in
  let req := Fixtures.request ∅ 5 Runs.hello_body in
  run = Ret (Some (Cases.event_of run), Cases.request_of run req) (world_of run) /\
  exists o, ObjectRef (Cases.event_of run) = Some o /\ ObjectReference.Name o = "alice".
Proof.
  intros run req.
  assert (H : run = Ret (Some (Cases.event_of run), Cases.request_of run req) (world_of run))
    by (vm_compute; reflexivity).
  split; [exact H|].
  destruct (name_comes_from_created_body (LIB := Cases.decoding) _ _ _ _ _ _ _ H)
    as (o & Ho & Hn).
  exists o. split; [exact Ho|exact Hn].
Defined.

(** A request made by bob. *)
Lemma identity_is_copied_witness :
  let run := Cases.identity_run in
  let req := Cases.request_by (Some Cases.bob) 0 Runs.no_body in
  run = Ret (Some (Cases.event_of run), Cases.request_of run req) (world_of run) /\
  UserInfo.Username (User (Cases.event_of run)) = "bob" /\
  UserInfo.Extra (User (Cases.event_of run)) = Some {[ "scope" := ["a"; "b"] ]}.
Proof.
  intros run req.
  assert (H : run = Ret (Some (Cases.event_of run), Cases.request_of run req) (world_of run))
    by (vm_compute; reflexivity).
  split; [exact H|].
  rewrite (identity_is_copied (LIB := Cases.decoding) _ _ _ _ _ _ _ H).
  split; reflexivity.
Defined.

(** The project asked for by its admin namespace. *)
Lemma workspace_comes_from_a_listed_project_witness :
  let run := Cases.alias_run in
  let req := Fixtures.request ∅ 0 Runs.no_body in
  run = Ret (Some (Cases.event_of run), Cases.request_of run req) (world_of run) /\
  Devops (Cases.event_of run) = "project-a" /\
  Workspace (Cases.event_of run) = "ws-1" /\
  exists r d, fst (devopsGetter_List (Fixtures.auditing_ok LevelMetadata) "" query_New) = Some r /\
    In (ItemDevOpsProject (Some d)) (Items r) /\
    Devops (Cases.event_of run) = DevOpsProject.Name d.
Proof.
  intros run req.
  assert (H : run = Ret (Some (Cases.event_of run), Cases.request_of run req) (world_of run))
    by (vm_compute; reflexivity).
  split; [exact H|]. split; [vm_compute; reflexivity|]. split; [vm_compute; reflexivity|].
  destruct (workspace_comes_from_a_listed_project (LIB := Cases.decoding) _ _ _ _ _ _ _ H)
    as [(Hd & _)|(_ & _ & r & d & Hr & Hin & Hdv & _)].
  - vm_compute in Hd. discriminate Hd.
  - exists r, d. auto.
Defined.

(** The handler 404, write, hijack, 500, write over a recorder. *)
Lemma capture_holds_what_was_written_witness :
  Cases.handled = Ret tt (Cases.capture_of Cases.handled) /\
  Capture.Bytes (Cases.capture_of Cases.handled) = (Fixtures.hello ++ Fixtures.hello)%list.
Proof.
  assert (H : Cases.handled = Ret tt (Cases.capture_of Cases.handled)) by reflexivity.
  split; [exact H|].
  exact (capture_holds_what_was_written (RW := Fixtures.recorder_writer) _ _ _ H).
Defined.




Lemma LogResponseObject_queues_the_finalized_event_witness :
  Z.of_nat (length (cache Fixtures.world0)) < 10000 /\
  exists efinal w',
    LogResponseObject Runs.audit_all (Some Runs.created_event) (Some Runs.answered)
      Fixtures.world0 = Ret efinal w' /\
    cache w' = [efinal] /\ AuditID efinal = AuditID Runs.created_event.
Proof.
  assert (H : Z.of_nat (length (cache Fixtures.world0)) < 10000) by (vm_compute; reflexivity).
  split; [exact H|].
  destruct (LogResponseObject_queues_the_finalized_event
              (Fixtures.webhook_at LevelRequestResponse)
              (devopsGetter_List Runs.audit_all)
              Runs.created_event Runs.answered Fixtures.world0 H)
    as (efinal & w' & Hrun & Hq & _ & _ & Hframe).
  exists efinal, w'. split; [exact Hrun|]. split; [exact Hq|].
  exact (f_equal AuditID Hframe).
Defined.

(** A full queue with a consumer that takes one element after 5 ms. *)
Lemma queue_stays_within_capacity_witness :
  let w := Cases.full_world (Some 5000000%N) in
  let run := cacheEvent (Fixtures.auditing_ok LevelMetadata) Fixtures.event0 w in
  Z.of_nat (length (cache w)) <= 10000 /\
  run = Ret tt (world_of run) /\
  Z.of_nat (length (cache (world_of run))) <= 10000.
Proof.
  intros w run.
  assert (H1 : Z.of_nat (length (cache w)) <= 10000).
  { change (cache w) with (repeat Fixtures.event0 (Z.to_nat 10000)).
    rewrite repeat_length. vm_compute. discriminate. }
  assert (H2 : run = Ret tt (world_of run)) by reflexivity.
  split; [exact H1|]. split; [exact H2|].
  exact (queue_stays_within_capacity (Fixtures.webhook_at LevelMetadata)
           (devopsGetter_List (Fixtures.auditing_ok LevelMetadata))
           Fixtures.event0 w (world_of run) H1 H2).
Defined.

Lemma cacheEvent_waits_for_a_slot_witness :
  let w := Cases.full_world (Some 5000000%N) in
  Z.of_nat (length (cache w)) = 10000 /\
  recv_delay w = Some 5000000%N /\
  Z.of_N 5000000 < CacheTimeout /\
  exists w',
    cacheEvent (Fixtures.auditing_ok LevelMetadata) Fixtures.event0 w = Ret tt w' /\
    klog w' = [] /\ clock w' = 5000000.
Proof.
  intros w.
  assert (H1 : Z.of_nat (length (cache w)) = 10000).
  { change (cache w) with (repeat Fixtures.event0 (Z.to_nat 10000)).
    rewrite repeat_length. reflexivity. }
  assert (H2 : recv_delay w = Some 5000000%N) by reflexivity.
  assert (H3 : Z.of_N 5000000 < CacheTimeout) by (vm_compute; reflexivity).
  split; [exact H1|]. split; [exact H2|]. split; [exact H3|].
  destruct (cacheEvent_waits_for_a_slot (Fixtures.webhook_at LevelMetadata)
              (devopsGetter_List (Fixtures.auditing_ok LevelMetadata))
              Fixtures.event0 w _ H1 H2 H3) as (w' & Hrun & _ & _ & Hlog & Hclock).
  exists w'. split; [exact Hrun|]. split; [exact Hlog|exact Hclock].
Defined.

(** Two tables: "users" in the cluster table, "deployments" in the
    namespaced one. *)
Lemma TryResource_finds_registered_witness :
  Resource.visits_every_entry Cases.in_map_order /\
  Resource.TryResource Cases.in_map_order Cases.getters false "users" = None /\
  Resource.TryResource Cases.in_map_order Cases.getters true "users"
    = Some (Cases.answer "users").
Proof.
  assert (H : Resource.visits_every_entry Cases.in_map_order) by (intros m; reflexivity).
  split; [exact H|].
  destruct (TryResource_finds_registered Cases.in_map_order H Cases.getters false "users")
    as [Hnone _].
  split; [|vm_compute; reflexivity].
  apply Hnone. split; [|discriminate].
  intros (k & v & Hk & Hr). simpl in Hk.
  apply lookup_singleton_Some in Hk as [<- _]. discriminate Hr.
Defined.

Lemma TryResource_unique_name_witness :
  Resource.visits_every_entry Cases.in_map_order /\
  Resource.clusterResourceGetters Cases.getters !! Cases.users = Some (Cases.answer "users") /\
  Resource.TryResource Cases.in_map_order Cases.getters true "users"
    = Some (Cases.answer "users").
Proof.
  assert (H : Resource.visits_every_entry Cases.in_map_order) by (intros m; reflexivity).
  assert (Hk : Resource.clusterResourceGetters Cases.getters !! Cases.users
               = Some (Cases.answer "users")) by (apply lookup_singleton_eq).
  split; [exact H|]. split; [exact Hk|].
  apply (proj2 (TryResource_unique_name Cases.in_map_order H Cases.getters true
                  Cases.users (Cases.answer "users")) Hk).
  intros k' v' Hk' _. simpl in Hk'. apply lookup_singleton_Some in Hk' as [<- _]. reflexivity.
Defined.

Lemma unknown_resource_not_supported_witness :
  Resource.visits_every_entry Cases.in_map_order /\
  ~ Resource.registers (Resource.namespacedResourceGetters Cases.getters) "users" /\
  Resource.Get Cases.in_map_order Cases.getters "users" "kube-system" "bob"
    = (None, Some Resource.ErrResourceNotSupported).
Proof.
  assert (H : Resource.visits_every_entry Cases.in_map_order) by (intros m; reflexivity).
  assert (Hno : ~ Resource.registers (Resource.namespacedResourceGetters Cases.getters) "users").
  { intros (k & v & Hk & Hr). simpl in Hk.
    apply lookup_singleton_Some in Hk as [<- _]. discriminate Hr. }
  split; [exact H|]. split; [exact Hno|].
  refine (proj1 (unknown_resource_not_supported Cases.in_map_order H Cases.getters
                   "users" "kube-system" "bob" tt Hno _)).
  intros Hns. discriminate Hns.
Defined.

Lemma namespaced_calls_ignore_cluster_getters_witness :
  "kube-system" <> "" /\
  Resource.Get Cases.in_map_order Cases.getters "users" "kube-system" "bob"
  = Resource.Get Cases.in_map_order
      {| Resource.clusterResourceGetters := ∅;
         Resource.namespacedResourceGetters :=
           Resource.namespacedResourceGetters Cases.getters |}
      "users" "kube-system" "bob".
Proof.
  assert (H : "kube-system" <> "") by discriminate.
  split; [exact H|].
  exact (proj1 (namespaced_calls_ignore_cluster_getters Cases.in_map_order Cases.getters
                  "users" "kube-system" "bob" tt H)).
Defined.

(** Listing the repos of workspace ws-1: repo 1 is listed, repo 2 is not. *)
Lemma ListRepos_returns_scrubbed_repos_witness :
  let run := Cases.list_repos Cases.operator "ws-1" in
  let r := {| Repos.Items := [Repos.HelmRepoPtr (Some 1%nat)]; Repos.TotalItems := 1 |} in
  run = Ret (Some r, None) (world_of run) /\
  forall repo, Repos.heap (world_of run) !! 1%nat = Some repo ->
    Repos.Status_Data repo = "" /\ Repos.Spec_Credential repo = "".
Proof.
  intros run r.
  assert (H : run = Ret (Some r, None) (world_of run)) by (vm_compute; reflexivity).
  split; [exact H|].
  pose proof (ListRepos_returns_scrubbed_repos "" Cases.parse Cases.render
                "kubesphere.io/workspace" _ _ _ _ _ H) as Hall.
  inversion Hall as [|x rest (l & Hl & Hrepo) _]; subst.
  injection Hl as <-. exact Hrepo.
Defined.

Lemma ListRepos_scrubs_in_place_witness :
  let run := Cases.list_repos Cases.operator "ws-1" in
  let r := {| Repos.Items := [Repos.HelmRepoPtr (Some 1%nat)]; Repos.TotalItems := 1 |} in
  run = Ret (Some r, None) (world_of run) /\
  Repos.heap (world_of run) !! 2%nat = Some (Cases.repo "index-2") /\
  Repos.heap (world_of run) !! 1%nat
    = Some {| Repos.Spec_Credential := ""; Repos.Status_Data := ""; Repos.rest := "charts" |}.
Proof.
  intros run r.
  assert (H : run = Ret (Some r, None) (world_of run)) by (vm_compute; reflexivity).
  split; [exact H|].
  split.
  - destruct (ListRepos_scrubs_in_place "" Cases.parse Cases.render
                "kubesphere.io/workspace" _ _ _ _ _ 2%nat H) as (_ & Hout & _).
    rewrite Hout; [reflexivity|].
    intros [Hin|[]]. discriminate Hin.
  - destruct (ListRepos_scrubs_in_place "" Cases.parse Cases.render
                "kubesphere.io/workspace" _ _ _ _ _ 1%nat H) as (Hin & _).
    rewrite Hin; [reflexivity|]. left. reflexivity.
Defined.

Lemma ListRepos_failure_witness :
  let run := Cases.list_repos Cases.failing_operator "" in
  run = Ret (None, Some "informer not synced") (world_of run) /\
  Repos.heap (world_of run) = Repos.heap Cases.store /\
  Repos.log (world_of run) = [LogError "informer not synced"].
Proof.
  intros run.
  assert (H : run = Ret (None, Some "informer not synced") (world_of run))
    by (vm_compute; reflexivity).
  split; [exact H|].
  destruct (ListRepos_failure "" Cases.parse Cases.render "kubesphere.io/workspace"
              _ _ _ _ _ _ H) as (_ & Hheap & Hlog & _).
  split; [exact Hheap|exact Hlog].
Defined.

Lemma ListRepos_pins_the_workspace_witness :
  let run := Cases.list_repos Cases.operator "ws-1" in
  let r := {| Repos.Items := [Repos.HelmRepoPtr (Some 1%nat)]; Repos.TotalItems := 1 |} in
  Cases.parse (Repos.LabelSelector (Repos.qry Cases.store)) = ({[ "app" := "web" ]}, None) /\
  run = Ret (Some r, None) (world_of run) /\
  exists m,
    m !! "kubesphere.io/workspace" = Some "ws-1" /\ m !! "app" = Some "web" /\
    Repos.LabelSelector (Repos.qry (world_of run)) = Cases.render m.
Proof.
  intros run r.
  assert (H1 : Cases.parse (Repos.LabelSelector (Repos.qry Cases.store))
               = ({[ "app" := "web" ]}, None)) by reflexivity.
  assert (H2 : run = Ret (Some r, None) (world_of run)) by (vm_compute; reflexivity).
  split; [exact H1|]. split; [exact H2|].
  destruct (ListRepos_pins_the_workspace "" Cases.parse Cases.render
              "kubesphere.io/workspace" _ _ _ _ _ _ H1 H2) as (_ & Hpin).
  destruct Hpin as (m & Hws & Hother & Hq & _); [discriminate|].
  exists m. split; [exact Hws|]. split.
  - rewrite Hother by discriminate. reflexivity.
  - rewrite Hq. reflexivity.
Defined.

(** Describing repo-1. *)
Lemma DescribeRepo_clears_only_the_data_witness :
  let run := Cases.describe_repo Cases.operator "repo-1" in
  run = Ret (Some 1%nat, None) (world_of run) /\
  Repos.heap (world_of run) !! 1%nat
    = Some {| Repos.Spec_Credential := "s3cr3t"; Repos.Status_Data := "";
              Repos.rest := "charts" |} /\
  Repos.heap (world_of run) !! 2%nat = Some (Cases.repo "index-2").
Proof.
  intros run.
  assert (H : run = Ret (Some 1%nat, None) (world_of run)) by (vm_compute; reflexivity).
  split; [exact H|].
  destruct (DescribeRepo_clears_only_the_data Cases.operator "repo-1" _ Cases.store _ H)
    as (_ & [(x & msg & _ & Hout & _)|(l & _ & Hout & _ & Hl & _ & _ & Hothers)]);
    [discriminate|].
  injection Hout as <-. split.
  - rewrite Hl. reflexivity.
  - rewrite Hothers by discriminate. reflexivity.
Defined.
